(** * ESB smart-meter integration: a shallow embedding and its properties

    The development follows the three source files of the integration:

    - [Sensor]      ([sensor.py]): the statistics importer
      [_async_import_statistics] of [ESBDataUpdateCoordinator];
    - [EsbApi]      ([esb_api.py]): the scraping client
      [ESBSmartMeter.get_usage_data];
    - [ConfigFlow]  ([config_flow.py]): [ESBConfigFlow.async_step_user].

    Python [float]s are IEEE binary64 numbers and are modelled by the
    primitive floats of the standard library; [+] on them is
    [PrimFloat.add] and [==] is [PrimFloat.eqb].  Functions of libraries
    the integration calls (the [datetime] parser, [pytz], [requests],
    [re], [json], [csv], BeautifulSoup, the recorder of the host) are
    section variables: every theorem holds for every behaviour of
    those. *)

From Stdlib Require Import ZArith List String Ascii Floats Lia.
From stdpp Require Import gmap strings list sorting.
Import ListNotations.

Local Open Scope string_scope.
Local Open Scope list_scope.
Local Open Scope Z_scope.

(** ** Python values shared by the three files *)

(** Exceptions the modelled code can raise.  [Exception msg] is a plain
    [raise Exception(msg)] of the source. *)
Inductive exn : Type :=
  | Exception (msg : string)
  | Timeout                        (* requests.exceptions.Timeout *)
  | LibraryError (msg : string)    (* any other exception of a library call *)
  | IndexError
  | KeyError (key : string)
  | TypeError
  | ValueError
  | AbortFlow (reason : string).   (* homeassistant.data_entry_flow.AbortFlow *)

Inductive result (A : Type) : Type :=
  | Ok (a : A)
  | Raise (e : exn).
Arguments Ok {A} a.
Arguments Raise {A} e.

Definition is_ok {A} (r : result A) : bool :=
  match r with Ok _ => true | Raise _ => false end.

(** A value that may be a [str] or [None] (what [dict.get] without a
    default returns, and what [csv.DictReader] stores for a missing
    field). *)
Definition pystr : Type := option string.

(** Truthiness of a [str] or [None]: [None] and [''] are falsy. *)
Definition truthy (s : pystr) : bool :=
  match s with
  | None => false
  | Some EmptyString => false
  | Some _ => true
  end.

(** One interval reading, as built by [get_usage_data] and consumed by
    the importer: [{'date': ..., 'usage': ..., 'type': ...}]. *)
Record reading : Type := mkReading {
  date : pystr;
  usage : float;
  rtype : pystr
}.

(** The dict returned by [get_usage_data]. *)
Record usage_data : Type := mkUsageData {
  total_usage : float;
  readings : list reading;
  last_updated : string
}.

(** Left-to-right accumulation [((s + x1) + x2) + ...], the value of a
    Python loop [for x in l: s += x]. *)
Definition fsum_from (s : float) (l : list float) : float :=
  fold_left PrimFloat.add l s.

(** The sum [x1 + x2 + ... + xn] of a non-empty list, accumulated from
    its first element (the empty sum is [0]). *)
Definition fsum (l : list float) : float :=
  match l with
  | [] => 0%float
  | x :: l' => fsum_from x l'
  end.


(** * The statistics importer ([sensor.py]) *)

Module Sensor.

(** ** Dates and times *)

(** A naive [datetime]. *)
Record datetime : Type := mkDatetime {
  year : Z; month : Z; day : Z;
  hour : Z; minute : Z; second : Z; microsecond : Z
}.

(** [naive_dt.replace(minute=0, second=0, microsecond=0)]. *)
Definition replace_top_of_hour (d : datetime) : datetime :=
  {| year := year d; month := month d; day := day d; hour := hour d;
     minute := 0; second := 0; microsecond := 0 |}.

(** A timezone-aware [datetime]: its wall-clock fields and the instant
    it denotes, in microseconds since the epoch.  Python compares and
    hashes aware datetimes by their instant, so [<=], [==], [in] on a
    dict and [sorted] only look at [instant]. *)
Record aware : Type := mkAware { wall : datetime; instant : Z }.

Definition aware_eqb (a b : aware) : bool := instant a =? instant b.
Definition aware_leb (a b : aware) : bool := instant a <=? instant b.

(** ** The recorder's rows and the statistics handed to it *)

(** A number that may be [None]. *)
Inductive pynum : Type :=
  | PyNone
  | PyFloat (f : float).

(** [x == 0] *)
Definition py_eq_zero (x : pynum) : bool :=
  match x with
  | PyNone => false
  | PyFloat f => PrimFloat.eqb f 0%float
  end.

(** A row returned by [get_last_statistics]: ['start'] is a POSIX
    timestamp, kept here as the instant [datetime.fromtimestamp] gives
    it; [row_sum = None] is a row without a ['sum'] key. *)
Record stat_row : Type := mkStatRow {
  row_start : Z;
  row_sum : option pynum
}.

(** One dict appended to [statistics]. *)
Record statistic : Type := mkStatistic {
  st_start : aware;
  st_sum : float;
  st_state : float
}.

Inductive StatisticMeanType : Type := MEAN_NONE | MEAN_ARITHMETIC | MEAN_CIRCULAR.

Record StatisticMetaData : Type := mkMetaData {
  md_mean_type : StatisticMeanType;
  md_has_sum : bool;
  md_name : string;
  md_source : string;
  md_statistic_id : string;
  md_unit_of_measurement : string;
  md_unit_class : option string
}.

(** The two calls the importer makes into the recorder, with their
    arguments. *)
Inductive host_call : Type :=
  | GetLastStatistics (number_of_stats : nat) (statistic_id : string)
      (convert_units : bool) (types : gset string)
  | AddExternalStatistics (metadata : StatisticMetaData)
      (statistics : list statistic).

(** ** [hourly_readings]: a dict keyed by aware datetimes

    Kept in insertion order; a key equal (same instant) to one already
    present reuses that entry, as a Python dict does. *)
Definition hourly : Type := list (aware * float).

(** [h.get(k)]: [None] when [k not in h]. *)
Fixpoint hr_lookup (k : aware) (h : hourly) : option float :=
  match h with
  | [] => None
  | (k', v) :: h' => if aware_eqb k' k then Some v else hr_lookup k h'
  end.

(** [h[k] = v] *)
Fixpoint hr_set (k : aware) (v : float) (h : hourly) : hourly :=
  match h with
  | [] => [(k, v)]
  | (k', v') :: h' =>
      if aware_eqb k' k then (k', v) :: h' else (k', v') :: hr_set k v h'
  end.

(** [h.keys()] *)
Definition hr_keys (h : hourly) : list aware := map fst h.

(** [sorted(keys)]: a stable insertion sort by instant. *)
Fixpoint insert_sorted (k : aware) (l : list aware) : list aware :=
  match l with
  | [] => [k]
  | k' :: l' =>
      if aware_leb k k' then k :: l else k' :: insert_sorted k l'
  end.

Definition sorted (l : list aware) : list aware :=
  fold_right insert_sorted [] l.

(** The order of aware datetimes. *)
Definition not_after (a b : aware) : Prop := instant a <= instant b.
Definition before (a b : aware) : Prop := instant a < instant b.

(** ** What the importer takes from outside the file *)

Class Host : Type := mkHost {
  (** [DOMAIN], imported from [const.py]. *)
  DOMAIN : string;
  (** [datetime.strptime(s, "%d-%m-%Y %H:%M")]; [None] is a
      [ValueError]. *)
  strptime : string -> option datetime;
  (** The timezone [TIMEZONE] (read from the environment):
      [tz_instant d] is the instant of [TIMEZONE.localize(d)] and
      [tz_wall i] the wall clock [astimezone(TIMEZONE)] shows at the
      instant [i]. *)
  tz_instant : datetime -> Z;
  tz_wall : Z -> datetime;
  (** The recorder: [get_last_statistics(hass, number, statistic_id,
      convert_units, types)]. *)
  get_last_statistics :
    nat -> string -> bool -> gset string -> gmap string (list stat_row)
}.

(** ** The importer *)

Section Importer.

Context `{Host}.

(** [TIMEZONE.localize(d)] *)
Definition localize (d : datetime) : aware :=
  {| wall := d; instant := tz_instant d |}.

(** [datetime.fromtimestamp(start, tz=timezone.utc).astimezone(TIMEZONE)] *)
Definition astimezone (start : Z) : aware :=
  {| wall := tz_wall start; instant := start |}.

(** [f"{DOMAIN}:esb_{self.mprn}_consumption"] *)
Definition statistic_id_of (mprn : string) : string :=
  DOMAIN +:+ ":esb_" +:+ mprn +:+ "_consumption".

Definition metadata_of (mprn : string) : StatisticMetaData :=
  {| md_mean_type := MEAN_NONE;
     md_has_sum := true;
     md_name := "ESB Energy " +:+ mprn;
     md_source := DOMAIN;
     md_statistic_id := statistic_id_of mprn;
     md_unit_of_measurement := "kWh";
     md_unit_class := None |}.

Definition stat_types : gset string :=
  {[ "state"; "sum"; "min"; "max"; "mean"; "last_reset" ]}.

(** Lines 118-134: [last_time] and [last_sum] from the recorder's
    answer. *)
Definition last_time_and_sum (last_stats : gmap string (list stat_row))
    (statistic_id : string) : result (option aware * pynum) :=
  match last_stats !! statistic_id with
  | Some rows =>
      match rows with
      | [] => Raise IndexError
      | last_stat :: _ =>
          let last_time := astimezone (row_start last_stat) in
          let last_sum := default (PyFloat 0%float) (row_sum last_stat) in
          if py_eq_zero last_sum then Ok (None, last_sum)
          else Ok (Some last_time, last_sum)
      end
  | None => Ok (None, PyFloat 0%float)
  end.

(** Lines 143-158: the key a reading is filed under, [None] when the
    reading is skipped with [parse_errors += 1]. *)
Definition reading_time (r : reading) : option aware :=
  if negb (truthy (date r)) then None
  else
    match strptime (default "" (date r)) with
    | None => None
    | Some naive_dt =>
        let hour_dt := replace_top_of_hour naive_dt in
        Some (localize hour_dt)
    end.

(** One iteration of the loop of lines 141-170 on the state
    [(hourly_readings, parse_errors)]. *)
Definition bucket_reading (st : hourly * nat) (r : reading) : hourly * nat :=
  let '(hourly_readings, parse_errors) := st in
  match reading_time r with
  | None => (hourly_readings, S parse_errors)
  | Some t =>
      (* [float(reading.get("usage", 0))] of a float is that float *)
      let u := usage r in
      match hr_lookup t hourly_readings with
      | Some v => (hr_set t (PrimFloat.add v u) hourly_readings, parse_errors)
      | None => (hr_set t u hourly_readings, parse_errors)
      end
  end.

Definition bucket_readings (rs : list reading) : hourly * nat :=
  fold_left bucket_reading rs ([], 0%nat).

(** [last_time and reading_time <= last_time] *)
Definition already_have (last_time : option aware) (t : aware) : bool :=
  match last_time with
  | Some lt => aware_leb t lt
  | None => false
  end.

(** The loop of lines 177-191 over the remaining sorted keys, on the
    state [(statistics, cumulative_sum, skipped)]. *)
Fixpoint statistics_loop (last_time : option aware)
    (hourly_readings : hourly) (keys : list aware)
    (statistics : list statistic) (cumulative_sum : pynum) (skipped : nat)
    : result (list statistic * nat) :=
  match keys with
  | [] => Ok (statistics, skipped)
  | t :: keys' =>
      if already_have last_time t then
        statistics_loop last_time hourly_readings keys'
          statistics cumulative_sum (S skipped)
      else
        match hr_lookup t hourly_readings with
        | None => Raise (KeyError "reading_time")
        | Some u =>
            match cumulative_sum with
            | PyNone => Raise TypeError
            | PyFloat c =>
                let c' := PrimFloat.add c u in
                statistics_loop last_time hourly_readings keys'
                  (statistics ++
                     [{| st_start := t; st_sum := c'; st_state := u |}])
                  (PyFloat c') skipped
            end
        end
  end.

(** [_async_import_statistics(self, data)] for a coordinator with
    [self.mprn = mprn]: the recorder calls made, in order, and how
    the coroutine ends. *)
Definition _async_import_statistics (mprn : string) (data : usage_data)
    : list host_call * result unit :=
  let statistic_id := statistic_id_of mprn in
  let metadata := metadata_of mprn in
  let query := GetLastStatistics 1 statistic_id true stat_types in
  let last_stats := get_last_statistics 1%nat statistic_id true stat_types in
  match last_time_and_sum last_stats statistic_id with
  | Raise e => ([query], Raise e)
  | Ok (last_time, last_sum) =>
      let '(hourly_readings, parse_errors) := bucket_readings (readings data) in
      match statistics_loop last_time hourly_readings
              (sorted (hr_keys hourly_readings)) [] last_sum 0%nat with
      | Raise e => ([query], Raise e)
      | Ok (statistics, skipped) =>
          match statistics with
          | [] => ([query], Ok tt)
          | _ :: _ => ([query; AddExternalStatistics metadata statistics], Ok tt)
          end
      end
  end.

(** The statistics handed to [async_add_external_statistics] by a
    run ([[]] when it is not called). *)
Definition imported (calls : list host_call) : list statistic :=
  flat_map (fun c => match c with
                     | AddExternalStatistics _ s => s
                     | GetLastStatistics _ _ _ _ => []
                     end) calls.

(** ** Vocabulary of the importer's properties *)

(** The reading [r] is filed under the hour [t]. *)
Definition assigned_to (t : aware) (r : reading) : bool :=
  match reading_time r with
  | Some t' => aware_eqb t' t
  | None => false
  end.

(** The usages of the readings of the hour [t], in the order received,
    and their sum: the hourly usage value of [t]. *)
Definition usages_of_hour (rs : list reading) (t : aware) : list float :=
  map usage (List.filter (assigned_to t) rs).

Definition hour_usage (rs : list reading) (t : aware) : float :=
  fsum (usages_of_hour rs t).

(** The keys the second loop does not skip. *)
Definition kept (last_time : option aware) (keys : list aware) : list aware :=
  List.filter (fun t => negb (already_have last_time t)) keys.

(** The statistics of the hours [keys], accumulated from [c]. *)
Fixpoint running (c : float) (h : hourly) (keys : list aware)
    : list statistic :=
  match keys with
  | [] => []
  | t :: keys' =>
      let u := default 0%float (hr_lookup t h) in
      let c' := PrimFloat.add c u in
      {| st_start := t; st_sum := c'; st_state := u |} :: running c' h keys'
  end.

(** What the recorder answers for the meter [mprn], and the first row
    of that answer: the most recent stored statistic. *)
Definition last_stats_of (mprn : string) : gmap string (list stat_row) :=
  get_last_statistics 1%nat (statistic_id_of mprn) true stat_types.

Definition last_stat_of (mprn : string) : option stat_row :=
  match last_stats_of mprn !! statistic_id_of mprn with
  | Some (row :: _) => Some row
  | _ => None
  end.

(** The ['sum'] of the most recent stored statistic, [0] if none is
    found. *)
Definition previous_sum (mprn : string) : pynum :=
  match last_stat_of mprn with
  | Some row => default (PyFloat 0%float) (row_sum row)
  | None => PyFloat 0%float
  end.

(** The statistic id a recorder call carries. *)
Definition call_id (c : host_call) : string :=
  match c with
  | GetLastStatistics _ statistic_id _ _ => statistic_id
  | AddExternalStatistics metadata _ => md_statistic_id metadata
  end.

(** The reading has a non-empty date that [strptime] accepts. *)
Definition parseable (r : reading) : bool :=
  truthy (date r) &&
  match strptime (default "" (date r)) with Some _ => true | None => false end.

(** The statistics a run hands to the recorder. *)
Definition emitted (mprn : string) (data : usage_data) : list statistic :=
  imported (fst (_async_import_statistics mprn data)).

(** No emitted hour is at or before the start of the stored last
    statistic, whatever that statistic is. *)
Definition never_reimports (mprn : string) (data : usage_data) : Prop :=
  forall row, last_stat_of mprn = Some row ->
  forall s, In s (emitted mprn data) -> row_start row < instant (st_start s).

End Importer.

(** ** A concrete host, to run the importer on examples

    A UTC timezone, the zero-padded dates [DD-MM-YYYY HH:MM] the
    portal writes, and a recorder that answers from a given store. *)

Definition digit_of (c : ascii) : option Z :=
  let n := Z.of_nat (nat_of_ascii c) in
  if (48 <=? n) && (n <=? 57) then Some (n - 48) else None.

Fixpoint number_of (acc : Z) (cs : list ascii) : option Z :=
  match cs with
  | [] => Some acc
  | c :: cs' =>
      match digit_of c with
      | Some d => number_of (10 * acc + d) cs'
      | None => None
      end
  end.

Definition is_leap (y : Z) : bool :=
  ((y mod 4 =? 0) && negb (y mod 100 =? 0)) || (y mod 400 =? 0).

Definition days_in_month (y m : Z) : Z :=
  if m =? 2 then (if is_leap y then 29 else 28)
  else if (m =? 4) || (m =? 6) || (m =? 9) || (m =? 11) then 30
  else 31.

Definition strptime_padded (s : string) : option datetime :=
  match list_ascii_of_string s with
  | [d1; d2; "-"; m1; m2; "-"; y1; y2; y3; y4; " "; h1; h2; ":"; n1; n2]%char =>
      match number_of 0 [d1; d2], number_of 0 [m1; m2],
            number_of 0 [y1; y2; y3; y4], number_of 0 [h1; h2],
            number_of 0 [n1; n2] with
      | Some d, Some m, Some y, Some h, Some n =>
          if (1 <=? y) && (1 <=? m) && (m <=? 12) && (1 <=? d)
             && (d <=? days_in_month y m) && (h <=? 23) && (n <=? 59)
          then Some {| year := y; month := m; day := d; hour := h;
                       minute := n; second := 0; microsecond := 0 |}
          else None
      | _, _, _, _, _ => None
      end
  | _ => None
  end.

(** Days from 1970-01-01 to a civil date of the proleptic Gregorian
    calendar, and back. *)
Definition days_from_civil (y m d : Z) : Z :=
  let y' := if m <=? 2 then y - 1 else y in
  let era := y' / 400 in
  let yoe := y' - era * 400 in
  let mp := (m + 9) mod 12 in
  let doy := (153 * mp + 2) / 5 + d - 1 in
  let doe := yoe * 365 + yoe / 4 - yoe / 100 + doy in
  era * 146097 + doe - 719468.

Definition civil_from_days (z : Z) : Z * Z * Z :=
  let z' := z + 719468 in
  let era := z' / 146097 in
  let doe := z' - era * 146097 in
  let yoe := (doe - doe / 1460 + doe / 36524 - doe / 146096) / 365 in
  let doy := doe - (365 * yoe + yoe / 4 - yoe / 100) in
  let mp := (5 * doy + 2) / 153 in
  let d := doy - (153 * mp + 2) / 5 + 1 in
  let m := if mp <? 10 then mp + 3 else mp - 9 in
  let y := yoe + era * 400 in
  (if m <=? 2 then y + 1 else y, m, d).

Definition utc_instant (d : datetime) : Z :=
  (((days_from_civil (year d) (month d) (day d) * 24 + hour d) * 60
    + minute d) * 60 + second d) * 1000000 + microsecond d.

Definition utc_wall (i : Z) : datetime :=
  let us := i mod 1000000 in
  let s := i / 1000000 in
  let '(y, m, d) := civil_from_days (s / 86400) in
  let r := s mod 86400 in
  {| year := y; month := m; day := d; hour := r / 3600;
     minute := (r mod 3600) / 60; second := r mod 60; microsecond := us |}.

Definition utc_host (domain : string)
    (store : gmap string (list stat_row)) : Host :=
  {| DOMAIN := domain;
     strptime := strptime_padded;
     tz_instant := utc_instant;
     tz_wall := utc_wall;
     get_last_statistics := fun n id _ _ =>
       match store !! id with
       | Some rows => {[ id := take n rows ]}
       | None => ∅
       end |}.

Definition demo_readings : list reading :=
  [ mkReading (Some "01-03-2024 00:30") 0.5%float (Some "Active Import Interval (kW)");
    mkReading (Some "01-03-2024 01:00") 0.25%float (Some "Active Import Interval (kW)");
    mkReading (Some "01-03-2024 01:30") 1%float (Some "Active Import Interval (kW)");
    mkReading (Some "") 8%float None;
    mkReading (Some "2024-03-01 02:00") 16%float None;
    mkReading (Some "29-02-2024 23:30") 2%float (Some "Active Import Interval (kW)");
    mkReading None 32%float None;
    mkReading (Some "01-03-2024 00:00") 4%float (Some "Active Import Interval (kW)") ].

Definition demo_data : usage_data :=
  {| total_usage := 63.75%float; readings := demo_readings;
     last_updated := "2024-03-02T00:00:00" |}.

(** 2024-03-01 00:00 UTC *)
Definition demo_midnight : Z := 1709251200000000.

Definition demo_store (start : Z) (last_sum : option pynum)
    : gmap string (list stat_row) :=
  {[ "esb:esb_100_consumption" := [mkStatRow start last_sum] ]}.

(** A recorder whose last statistic for meter 100 starts at
    2024-02-29 23:00 with sum 10, and one where it starts at
    2024-03-01 00:00 with sum 0. *)
Definition demo_host : Host :=
  utc_host "esb" (demo_store (demo_midnight - 3600000000) (Some (PyFloat 10%float))).
Definition demo_host_zero : Host :=
  utc_host "esb" (demo_store demo_midnight (Some (PyFloat 0%float))).

(** The three hours of the example data and what is emitted for them
    against the two recorders. *)
Definition demo_23h : aware :=
  {| wall := mkDatetime 2024 2 29 23 0 0 0; instant := 1709247600000000 |}.
Definition demo_00h : aware :=
  {| wall := mkDatetime 2024 3 1 0 0 0 0; instant := 1709251200000000 |}.
Definition demo_01h : aware :=
  {| wall := mkDatetime 2024 3 1 1 0 0 0; instant := 1709254800000000 |}.

Definition demo_statistics : list statistic :=
  [ {| st_start := demo_00h; st_sum := 14.5%float; st_state := 4.5%float |};
    {| st_start := demo_01h; st_sum := 15.75%float; st_state := 1.25%float |} ].

Definition demo_statistics_zero : list statistic :=
  [ {| st_start := demo_23h; st_sum := 2%float; st_state := 2%float |};
    {| st_start := demo_00h; st_sum := 6.5%float; st_state := 4.5%float |};
    {| st_start := demo_01h; st_sum := 7.75%float; st_state := 1.25%float |} ].

End Sensor.

(** * The scraping client ([esb_api.py]) *)

Module EsbApi.

(** ** Values, requests and responses *)

(** A Python value as found in a JSON document or passed to
    [requests]; a [VDict] lists the items of a dict. *)
#[warning="-register-all"]
Inductive pyval : Type :=
  | VNone
  | VBool (b : bool)
  | VInt (z : Z)
  | VFloat (f : float)
  | VStr (s : string)
  | VList (l : list pyval)
  | VDict (d : list (string * pyval)).

Fixpoint assoc {A} (key : string) (d : list (string * A)) : option A :=
  match d with
  | [] => None
  | (k, v) :: d' => if String.eqb k key then Some v else assoc key d'
  end.

(** [v[key]] for a string key. *)
Definition getitem (v : pyval) (key : string) : result pyval :=
  match v with
  | VDict d =>
      match assoc key d with
      | Some x => Ok x
      | None => Raise (KeyError key)
      end
  | _ => Raise TypeError
  end.

(** The cookie jar of the session, as [session.cookies.get_dict()]
    shows it, and [jar.get(name)]. *)
Definition cookies : Type := gmap string string.

Definition cookie_get (jar : cookies) (name : string) : pyval :=
  match jar !! name with
  | Some v => VStr v
  | None => VNone
  end.

Inductive method : Type := GET | POST.

(** The arguments of one [session.get] or [session.post] call. *)
Record request : Type := mkRequest {
  rq_method : method;
  rq_url : string;
  rq_params : list (string * pyval);
  rq_data : list (string * pyval);
  rq_json : list (string * pyval);
  rq_headers : list (string * pyval);
  rq_cookies : list (string * pyval);
  rq_allow_redirects : bool;
  rq_timeout : option (Z * Z)
}.

(** A response: [content] (bytes) and [text]. *)
Record response : Type := mkResponse {
  content : string;
  text : string
}.

(** What [requests] does with a call: an answer, with the cookie jar
    of the session afterwards, or an exception.  [N] is the state of
    the network. *)
Inductive send_outcome (N : Type) : Type :=
  | Responded (r : response) (jar : cookies) (n : N)
  | TimedOut (n : N)
  | Failed (msg : string) (n : N).
Arguments Responded {N} r jar n.
Arguments TimedOut {N} n.
Arguments Failed {N} msg n.

(** What a run does that is visible from outside: the calls to
    [requests], each with the answer and the jar after it when there
    was an answer, the [sleep(randint(lo, hi))] pauses and
    [session.close()]. *)
Inductive event : Type :=
  | Http (rq : request) (answer : option (response * cookies))
  | Slept (lo hi : Z)
  | Closed.

(** A row of [csv.DictReader]: a field is a [str], or [None] when the
    line is short. *)
Definition csv_row : Type := gmap string pystr.

(** [self] *)
Record ESBSmartMeter : Type := mkESBSmartMeter {
  mprn : string;
  email : string;
  password : string;
  user_agent : string
}.

(** [ESBSmartMeter(mprn, email, password)] *)
Definition init (mprn email password : string) : ESBSmartMeter :=
  {| mprn := mprn; email := email; password := password;
     user_agent := "Mozilla/5.0 (X11; Ubuntu; Linux x86_64; rv:142.0) Gecko/20100101 Firefox/142.0" |}.

(** ** What the client takes from outside the file *)

Class Externals : Type := mkExternals {
  (** [DEBUG_USE_CACHE], from the environment variable
      [ESB_DEBUG_CACHE]. *)
  DEBUG_USE_CACHE : bool;
  (** Lines 36-39 on the text of the cache file: [json.load] and the
      log line; [None] when one of them raises. *)
  load_cache : string -> option usage_data;
  (** Lines 241-242: the cache file after [open(CACHE_FILE, 'w')] and
      [json.dump], whether or not they raise. *)
  write_cache : option string -> usage_data -> option string;
  (** The network and [requests]: [send n headers jar rq] is the
      outcome of the call [rq] on a session with these headers and
      cookies. *)
  net : Type;
  send : net -> list (string * pyval) -> cookies -> request -> send_outcome net;
  (** [datetime.now().isoformat()] *)
  now_isoformat : net -> string;
  (** [str(v)] for a value that is not a [str]. *)
  py_repr : pyval -> string;
  (** [str(b)] for [bytes]. *)
  str_of_bytes : string -> string;
  (** [re.findall(r"(?<=var SETTINGS = )\S*;", s)] *)
  re_findall_settings : string -> list string;
  (** [json.loads(s)]; [None] is a [JSONDecodeError]. *)
  json_loads : string -> option pyval;
  (** BeautifulSoup: tags, [BeautifulSoup(b, 'html.parser').find('form',
      {'id': 'auto'})], [form.find('input', {'name': n})] and
      [tag[attr]]. *)
  tag : Type;
  soup_find_form : string -> option tag;
  tag_find_input : tag -> string -> option tag;
  tag_attr : tag -> string -> option string;
  (** [b.decode('utf-8')]; [None] is a [UnicodeDecodeError]. *)
  decode_utf8 : string -> option string;
  (** The rows [csv.DictReader(lines)] yields; [None] is a
      [csv.Error]. *)
  csv_DictReader : list string -> option (list csv_row);
  (** [float(s)] for a [str]; [None] is a [ValueError]. *)
  float_of_str : string -> option float
}.

Section Client.

Context `{Externals}.

(** The state a call runs in: the network, the session (headers and
    cookie jar), the cache file (its text when it exists) and the
    events so far. *)
Record world : Type := mkWorld {
  w_net : net;
  w_headers : list (string * pyval);
  w_jar : cookies;
  w_cache : option string;
  w_trace : list event
}.

(** ** A state and exception monad *)

Definition M (A : Type) : Type := world -> result A * world.

Definition ret {A} (a : A) : M A := fun w => (Ok a, w).

Definition raise {A} (e : exn) : M A := fun w => (Raise e, w).

Definition bind {A B} (m : M A) (k : A -> M B) : M B :=
  fun w =>
    match m w with
    | (Ok a, w') => k a w'
    | (Raise e, w') => (Raise e, w')
    end.

Definition lift {A} (r : result A) : M A := fun w => (r, w).

Definition log (e : event) (w : world) : world :=
  {| w_net := w_net w; w_headers := w_headers w; w_jar := w_jar w;
     w_cache := w_cache w; w_trace := w_trace w ++ [e] |}.

Notation "x <- m ;; k" := (bind m (fun x => k))
  (at level 60, m at next level, right associativity).

(** ** The session *)

(** [requests.Session()] followed by [session.headers.update(h)]. *)
Definition new_session (h : list (string * pyval)) : M unit :=
  fun w =>
    (Ok tt, {| w_net := w_net w; w_headers := h; w_jar := ∅;
               w_cache := w_cache w; w_trace := w_trace w |}).

(** [session.get(...)] and [session.post(...)]. *)
Definition http (rq : request) : M response :=
  fun w =>
    match send (w_net w) (w_headers w) (w_jar w) rq with
    | Responded r jar n =>
        (Ok r, {| w_net := n; w_headers := w_headers w; w_jar := jar;
                  w_cache := w_cache w;
                  w_trace := w_trace w ++ [Http rq (Some (r, jar))] |})
    | TimedOut n =>
        (Raise Timeout,
         {| w_net := n; w_headers := w_headers w; w_jar := w_jar w;
            w_cache := w_cache w; w_trace := w_trace w ++ [Http rq None] |})
    | Failed msg n =>
        (Raise (LibraryError msg),
         {| w_net := n; w_headers := w_headers w; w_jar := w_jar w;
            w_cache := w_cache w; w_trace := w_trace w ++ [Http rq None] |})
    end.

(** [session.cookies.get_dict()] *)
Definition cookies_get_dict : M cookies := fun w => (Ok (w_jar w), w).

(** [session.close()] *)
Definition session_close : M unit := fun w => (Ok tt, log Closed w).

(** [sleep(randint(lo, hi))] *)
Definition sleep_randint (lo hi : Z) : M unit :=
  fun w => (Ok tt, log (Slept lo hi) w).

(** ** Small pieces of Python *)

(** [l[0]] *)
Definition first {A} (l : list A) : result A :=
  match l with
  | [] => Raise IndexError
  | x :: _ => Ok x
  end.

(** [s[:-1]] *)
Fixpoint drop_last (s : string) : string :=
  match s with
  | EmptyString => EmptyString
  | String c EmptyString => EmptyString
  | String c s' => String c (drop_last s')
  end.

(** [s[0:n]] *)
Definition prefix (n : nat) (s : string) : string := substring 0 n s.

(** The value [v] inside an f-string. *)
Definition format_value (v : pyval) : string :=
  match v with
  | VStr s => s
  | _ => py_repr v
  end.

(** [s.split('\n')] *)
Fixpoint split_lines_from (cur : string) (s : string) : list string :=
  match s with
  | EmptyString => [cur]
  | String c s' =>
      if Ascii.eqb c "010"%char then cur :: split_lines_from "" s'
      else split_lines_from (cur +:+ String c "") s'
  end.

Definition split_lines (s : string) : list string := split_lines_from "" s.

(** [json.loads(s)] *)
Definition loads (s : string) : result pyval :=
  match json_loads s with
  | Some v => Ok v
  | None => Raise ValueError
  end.

(** [form.find('input', {'name': n})['value']] *)
Definition input_value (form : tag) (n : string) : result string :=
  match tag_find_input form n with
  | None => Raise TypeError
  | Some input =>
      match tag_attr input "value" with
      | Some v => Ok v
      | None => Raise (KeyError "value")
      end
  end.

(** ** The eight requests *)

Definition ua_header (self : ESBSmartMeter) : string * pyval :=
  ("User-Agent", VStr (user_agent self)).

Definition request_1 : request :=
  {| rq_method := GET; rq_url := "https://myaccount.esbnetworks.ie/";
     rq_params := []; rq_data := []; rq_json := []; rq_headers := [];
     rq_cookies := []; rq_allow_redirects := true;
     rq_timeout := Some (10, 5) |}.

Definition request_2 (self : ESBSmartMeter) (transId x_csrf_token : pyval)
    (request_1_response_cookies : cookies) : request :=
  {| rq_method := POST;
     rq_url := "https://login.esbnetworks.ie/esbntwkscustportalprdb2c01.onmicrosoft.com/B2C_1A_signup_signin/SelfAsserted?tx="
               +:+ format_value transId +:+ "&p=B2C_1A_signup_signin";
     rq_params := [];
     rq_data := [ ("signInName", VStr (email self));
                  ("password", VStr (password self));
                  ("request_type", VStr "RESPONSE") ];
     rq_json := [];
     rq_headers :=
       [ ("x-csrf-token", x_csrf_token);
         ua_header self;
         ("Accept", VStr "application/json, text/javascript, */*; q=0.01");
         ("Content-Type", VStr "application/x-www-form-urlencoded; charset=UTF-8");
         ("X-Requested-With", VStr "XMLHttpRequest");
         ("Origin", VStr "https://login.esbnetworks.ie") ];
     rq_cookies :=
       [ ("x-ms-cpim-csrf", cookie_get request_1_response_cookies "x-ms-cpim-csrf");
         ("x-ms-cpim-trans", cookie_get request_1_response_cookies "x-ms-cpim-trans") ];
     rq_allow_redirects := false;
     rq_timeout := None |}.

Definition request_3 (self : ESBSmartMeter) (transId x_csrf_token : pyval)
    (request_2_response_cookies : cookies) : request :=
  {| rq_method := GET;
     rq_url := "https://login.esbnetworks.ie/esbntwkscustportalprdb2c01.onmicrosoft.com/B2C_1A_signup_signin/api/CombinedSigninAndSignup/confirmed";
     rq_params := [ ("rememberMe", VBool false);
                    ("csrf_token", x_csrf_token);
                    ("tx", transId);
                    ("p", VStr "B2C_1A_signup_signin") ];
     rq_data := []; rq_json := [];
     rq_headers := [ ua_header self ];
     rq_cookies :=
       [ ("x-ms-cpim-csrf", cookie_get request_2_response_cookies "x-ms-cpim-csrf");
         ("x-ms-cpim-trans", cookie_get request_2_response_cookies "x-ms-cpim-trans") ];
     rq_allow_redirects := true;
     rq_timeout := None |}.

Definition request_4 (self : ESBSmartMeter)
    (login_url_ state_ client_info_ code_ : string) : request :=
  {| rq_method := POST; rq_url := login_url_;
     rq_params := [];
     rq_data := [ ("state", VStr state_); ("client_info", VStr client_info_);
                  ("code", VStr code_) ];
     rq_json := [];
     rq_headers :=
       [ ua_header self;
         ("Content-Type", VStr "application/x-www-form-urlencoded");
         ("Origin", VStr "https://login.esbnetworks.ie");
         ("Referer", VStr "https://login.esbnetworks.ie/") ];
     rq_cookies := [];
     rq_allow_redirects := false;
     rq_timeout := None |}.

Definition request_5 (self : ESBSmartMeter)
    (request_4_response_cookies : cookies) : request :=
  {| rq_method := GET; rq_url := "https://myaccount.esbnetworks.ie";
     rq_params := []; rq_data := []; rq_json := [];
     rq_headers := [ ua_header self ];
     rq_cookies :=
       [ ("ARRAffinity", cookie_get request_4_response_cookies "ARRAffinity");
         ("ARRAffinitySameSite",
          cookie_get request_4_response_cookies "ARRAffinitySameSite") ];
     rq_allow_redirects := true;
     rq_timeout := None |}.

Definition request_6 (self : ESBSmartMeter)
    (request_4_response_cookies : cookies) (asp_net_core_cookie : pyval)
    : request :=
  {| rq_method := GET;
     rq_url := "https://myaccount.esbnetworks.ie/Api/HistoricConsumption";
     rq_params := []; rq_data := []; rq_json := [];
     rq_headers := [ ua_header self ];
     rq_cookies :=
       [ ("ARRAffinity", cookie_get request_4_response_cookies "ARRAffinity");
         ("ARRAffinitySameSite",
          cookie_get request_4_response_cookies "ARRAffinitySameSite");
         (".AspNetCore.Cookies", asp_net_core_cookie) ];
     rq_allow_redirects := true;
     rq_timeout := None |}.

Definition request_7 (self : ESBSmartMeter)
    (request_4_response_cookies : cookies) : request :=
  {| rq_method := GET; rq_url := "https://myaccount.esbnetworks.ie/af/t";
     rq_params := []; rq_data := []; rq_json := [];
     rq_headers :=
       [ ua_header self;
         ("X-Returnurl",
          VStr "https://myaccount.esbnetworks.ie/Api/HistoricConsumption") ];
     rq_cookies :=
       [ ("ARRAffinity", cookie_get request_4_response_cookies "ARRAffinity");
         ("ARRAffinitySameSite",
          cookie_get request_4_response_cookies "ARRAffinitySameSite") ];
     rq_allow_redirects := true;
     rq_timeout := None |}.

Definition request_8 (self : ESBSmartMeter) (file_download_token : pyval)
    : request :=
  {| rq_method := POST;
     rq_url := "https://myaccount.esbnetworks.ie/DataHub/DownloadHdfPeriodic";
     rq_params := []; rq_data := [];
     rq_json := [ ("mprn", VStr (mprn self));
                  ("searchType", VStr "intervalkwh") ];
     rq_headers :=
       [ ua_header self;
         ("Content-Type", VStr "application/json");
         ("X-Xsrf-Token", file_download_token) ];
     rq_cookies := [];
     rq_allow_redirects := true;
     rq_timeout := None |}.

(** ** [get_usage_data] *)

(** Lines 48-196: the eight requests, up to [session.close()]. *)
Definition exchange (self : ESBSmartMeter) : M response :=
  (* REQUEST 1 - Initial page load *)
  request_1_response <- http request_1 ;;
  result_0 <- lift (first (re_findall_settings
                             (str_of_bytes (content request_1_response)))) ;;
  settings <- lift (loads (drop_last result_0)) ;;
  request_1_response_cookies <- cookies_get_dict ;;
  x_csrf_token <- lift (getitem settings "csrf") ;;
  transId <- lift (getitem settings "transId") ;;
  _ <- sleep_randint 10 20 ;;
  (* REQUEST 2 - Login POST *)
  request_2_response <-
    http (request_2 self transId x_csrf_token request_1_response_cookies) ;;
  request_2_response_cookies <- cookies_get_dict ;;
  (* REQUEST 3 - Confirm login *)
  request_3_response <-
    http (request_3 self transId x_csrf_token request_2_response_cookies) ;;
  _ <- (if negb (String.eqb (prefix 21 (text request_3_response))
                             "<!DOCTYPE html PUBLIC")
        then (_ <- session_close ;;
              raise (Exception "Login failed - too many retries or session error"))
        else ret tt) ;;
  (* [form['action']] raises a TypeError when no form is found *)
  form <- lift (match soup_find_form (content request_3_response) with
                | Some f => Ok f
                | None => Raise TypeError
                end) ;;
  login_url_ <- lift (match tag_attr form "action" with
                      | Some v => Ok v
                      | None => Raise (KeyError "action")
                      end) ;;
  state_ <- lift (input_value form "state") ;;
  client_info_ <- lift (input_value form "client_info") ;;
  code_ <- lift (input_value form "code") ;;
  _ <- sleep_randint 2 5 ;;
  (* REQUEST 4 - Complete authentication *)
  request_4_response <-
    http (request_4 self login_url_ state_ client_info_ code_) ;;
  request_4_response_cookies <- cookies_get_dict ;;
  (* REQUEST 5 - Access main portal *)
  request_5_response <- http (request_5 self request_4_response_cookies) ;;
  request_5_response_cookies <- cookies_get_dict ;;
  let asp_net_core_cookie :=
    cookie_get request_5_response_cookies ".AspNetCore.Cookies" in
  _ <- sleep_randint 3 8 ;;
  (* REQUEST 6 - Access consumption page *)
  _ <- http (request_6 self request_4_response_cookies asp_net_core_cookie) ;;
  _ <- sleep_randint 2 5 ;;
  (* REQUEST 7 - Get download token *)
  request_7_response <- http (request_7 self request_4_response_cookies) ;;
  token_json <- lift (loads (text request_7_response)) ;;
  file_download_token <- lift (getitem token_json "token") ;;
  (* REQUEST 8 - Download data file *)
  request_8_response <- http (request_8 self file_download_token) ;;
  _ <- session_close ;;
  ret request_8_response.

(** [float(row.get('Read Value', 0))] on what [row.get] finds. *)
Definition read_value (v : option pystr) : result float :=
  match v with
  | None => Ok 0%float
  | Some None => Raise TypeError
  | Some (Some s) =>
      match float_of_str s with
      | Some f => Ok f
      | None => Raise ValueError
      end
  end.

(** One iteration of the loop of lines 215-228 on the state
    [(total_usage, readings)]. *)
Definition process_row (st : float * list reading) (row : csv_row)
    : result (float * list reading) :=
  let '(total_usage, readings) := st in
  let date_str := default (Some "") (row !! "Read Date and End Time") in
  match read_value (row !! "Read Value") with
  | Ok usage =>
      Ok (PrimFloat.add total_usage usage,
          readings ++ [ {| date := date_str; usage := usage;
                           rtype := default (Some "") (row !! "Read Type") |} ])
  | Raise ValueError => Ok st
  | Raise (KeyError _) => Ok st
  | Raise e => Raise e
  end.

Fixpoint process_rows (st : float * list reading) (rows : list csv_row)
    : result (float * list reading) :=
  match rows with
  | [] => Ok st
  | row :: rows' =>
      match process_row st row with
      | Ok st' => process_rows st' rows'
      | Raise e => Raise e
      end
  end.

(** [if row:] *)
Definition row_nonempty (row : csv_row) : bool := negb (bool_decide (row = ∅)).

(** Lines 238-245 *)
Definition cache_result (result : usage_data) : M unit :=
  fun w =>
    if negb DEBUG_USE_CACHE then
      (Ok tt, {| w_net := w_net w; w_headers := w_headers w; w_jar := w_jar w;
                 w_cache := write_cache (w_cache w) result;
                 w_trace := w_trace w |})
    else (Ok tt, w).

(** Lines 198-247: from the answer to the last request to the
    returned dict. *)
Definition process (request_8_response : response) : M usage_data :=
  csv_file <- lift (match decode_utf8 (content request_8_response) with
                    | Some s => Ok s
                    | None => Raise ValueError
                    end) ;;
  _ <- (if negb (String.eqb (prefix 4 csv_file) "MPRN")
        then raise (Exception "Invalid CSV format received")
        else ret tt) ;;
  rows <- lift (match csv_DictReader (split_lines csv_file) with
                | Some rows => Ok rows
                | None => Raise (LibraryError "csv.Error")
                end) ;;
  let my_json := List.filter row_nonempty rows in
  st <- lift (process_rows (0%float, []) my_json) ;;
  now <- (fun w => (Ok (now_isoformat (w_net w)), w)) ;;
  let result := {| total_usage := fst st; readings := snd st;
                   last_updated := now |} in
  _ <- cache_result result ;;
  ret result.

(** The two [except] clauses of lines 249-255. *)
Definition handlers {A} (body : M A) : M A :=
  fun w =>
    match body w with
    | (Ok a, w') => (Ok a, w')
    | (Raise Timeout, w') =>
        (Raise (Exception "Request timed out - server not responding"),
         log Closed w')
    | (Raise e, w') => (Raise e, log Closed w')
    end.

(** Lines 32-41: the cached dict, when the debug cache is on and the
    file exists and loads. *)
Definition read_cache : M (option usage_data) :=
  fun w =>
    if DEBUG_USE_CACHE then
      match w_cache w with
      | Some file => (Ok (load_cache file), w)
      | None => (Ok None, w)
      end
    else (Ok None, w).

(** Lines 43-255 *)
Definition fetch (self : ESBSmartMeter) : M usage_data :=
  _ <- new_session [ ua_header self ] ;;
  handlers (request_8_response <- exchange self ;;
            process request_8_response).

Definition get_usage_data (self : ESBSmartMeter) : M usage_data :=
  cached <- read_cache ;;
  match cached with
  | Some c => ret c
  | None => fetch self
  end.

(** ** Vocabulary of the client's properties *)

(** The world a call starts in. *)
Definition start (n : net) (cache : option string) : world :=
  {| w_net := n; w_headers := []; w_jar := ∅; w_cache := cache;
     w_trace := [] |}.

(** The call is answered from the debug cache. *)
Definition cache_hit (w : world) : bool :=
  DEBUG_USE_CACHE &&
  match w_cache w with
  | Some file => match load_cache file with Some _ => true | None => false end
  | None => false
  end.

(** The requests of a trace, in order. *)
Definition requests_sent (t : list event) : list request :=
  flat_map (fun e => match e with Http rq _ => [rq] | _ => [] end) t.

(** The reading a row gives, if it gives one. *)
Definition reading_of_row (row : csv_row) : option reading :=
  match read_value (row !! "Read Value") with
  | Ok u =>
      Some {| date := default (Some "") (row !! "Read Date and End Time");
              usage := u;
              rtype := default (Some "") (row !! "Read Type") |}
  | Raise _ => None
  end.

(** Every successful call returns a total that is the sum of the
    usages it returns. *)
Definition total_matches_readings (self : ESBSmartMeter) (w : world) : Prop :=
  forall res w',
    get_usage_data self w = (Ok res, w') ->
    total_usage res = fsum_from 0%float (map usage (readings res)).

(** What a successful exchange leaves behind: the eight answers, each
    with the cookie jar after it, and the values taken from them. *)
Record exchange_log : Type := mkExchangeLog {
  answer_1 : response * cookies;
  answer_2 : response * cookies;
  answer_3 : response * cookies;
  answer_4 : response * cookies;
  answer_5 : response * cookies;
  answer_6 : response * cookies;
  answer_7 : response * cookies;
  answer_8 : response * cookies;
  x_csrf_token : pyval;
  transId : pyval;
  login_url_ : string;
  state_ : string;
  client_info_ : string;
  code_ : string;
  file_download_token : pyval
}.

(** The events of the exchange with that log. *)
Definition exchange_events (self : ESBSmartMeter) (l : exchange_log)
    : list event :=
  [ Http request_1 (Some (answer_1 l));
    Slept 10 20;
    Http (request_2 self (transId l) (x_csrf_token l) (snd (answer_1 l)))
         (Some (answer_2 l));
    Http (request_3 self (transId l) (x_csrf_token l) (snd (answer_2 l)))
         (Some (answer_3 l));
    Slept 2 5;
    Http (request_4 self (login_url_ l) (state_ l) (client_info_ l) (code_ l))
         (Some (answer_4 l));
    Http (request_5 self (snd (answer_4 l))) (Some (answer_5 l));
    Slept 3 8;
    Http (request_6 self (snd (answer_4 l))
            (cookie_get (snd (answer_5 l)) ".AspNetCore.Cookies"))
         (Some (answer_6 l));
    Slept 2 5;
    Http (request_7 self (snd (answer_4 l))) (Some (answer_7 l));
    Http (request_8 self (file_download_token l)) (Some (answer_8 l));
    Closed ].

(** The values of the log are those found in the answers. *)
Definition tokens_extracted (l : exchange_log) : Prop :=
  (exists result_0 settings,
     first (re_findall_settings (str_of_bytes (content (fst (answer_1 l)))))
       = Ok result_0 /\
     loads (drop_last result_0) = Ok settings /\
     getitem settings "csrf" = Ok (x_csrf_token l) /\
     getitem settings "transId" = Ok (transId l)) /\
  prefix 21 (text (fst (answer_3 l))) = "<!DOCTYPE html PUBLIC" /\
  (exists form,
     soup_find_form (content (fst (answer_3 l))) = Some form /\
     tag_attr form "action" = Some (login_url_ l) /\
     input_value form "state" = Ok (state_ l) /\
     input_value form "client_info" = Ok (client_info_ l) /\
     input_value form "code" = Ok (code_ l)) /\
  (exists token_json,
     loads (text (fst (answer_7 l))) = Ok token_json /\
     getitem token_json "token" = Ok (file_download_token l)).

(** The token and transaction id the login uses are those of the
    [SETTINGS] of the page [p1]. *)
Definition settings_tokens (p1 : response) (csrf tx : pyval) : Prop :=
  exists result_0 settings,
    first (re_findall_settings (str_of_bytes (content p1))) = Ok result_0 /\
    loads (drop_last result_0) = Ok settings /\
    getitem settings "csrf" = Ok csrf /\
    getitem settings "transId" = Ok tx.



(** The session [fetch] opens in the world [w]. *)
Definition session_world (self : ESBSmartMeter) (w : world) : world :=
  snd (new_session [ ua_header self ] w).

(** The call from [w] that returned [res] in [w'] was the eight-step
    exchange: its events are those of an exchange whose values come
    from the earlier answers; its requests are, in order, the initial
    page load, the login POST, the login confirm GET, the POST that
    completes the authentication, the portal GET, the consumption page
    GET, the download token GET and the data file POST; and the
    readings returned are those of the non-empty CSV rows of the last
    answer that give one. *)
Definition eight_step_run (self : ESBSmartMeter) (w : world)
    (res : usage_data) (w' : world) : Prop :=
  exists l csv rows,
    w_trace w' = w_trace w ++ exchange_events self l /\
    tokens_extracted l /\
    map (fun rq => (rq_method rq, rq_url rq))
        (requests_sent (exchange_events self l)) =
      [ (GET, "https://myaccount.esbnetworks.ie/");
        (POST, "https://login.esbnetworks.ie/esbntwkscustportalprdb2c01.onmicrosoft.com/B2C_1A_signup_signin/SelfAsserted?tx="
               +:+ format_value (transId l) +:+ "&p=B2C_1A_signup_signin");
        (GET, "https://login.esbnetworks.ie/esbntwkscustportalprdb2c01.onmicrosoft.com/B2C_1A_signup_signin/api/CombinedSigninAndSignup/confirmed");
        (POST, login_url_ l);
        (GET, "https://myaccount.esbnetworks.ie");
        (GET, "https://myaccount.esbnetworks.ie/Api/HistoricConsumption");
        (GET, "https://myaccount.esbnetworks.ie/af/t");
        (POST, "https://myaccount.esbnetworks.ie/DataHub/DownloadHdfPeriodic") ] /\
    decode_utf8 (content (fst (answer_8 l))) = Some csv /\
    csv_DictReader (split_lines csv) = Some rows /\
    readings res = omap reading_of_row (List.filter row_nonempty rows).

(** Every successful call was the eight-step exchange. *)
Definition always_eight_steps (self : ESBSmartMeter) (w : world) : Prop :=
  forall res w',
    get_usage_data self w = (Ok res, w') -> eight_step_run self w res w'.

End Client.

(** ** A scripted portal, to run the client on examples *)

Fixpoint split_commas_from (cur : string) (s : string) : list string :=
  match s with
  | EmptyString => [cur]
  | String c s' =>
      if Ascii.eqb c ","%char then cur :: split_commas_from "" s'
      else split_commas_from (cur +:+ String c "") s'
  end.

Fixpoint zip_row (fieldnames fields : list string) : list (string * pystr) :=
  match fieldnames, fields with
  | [], _ => []
  | h :: hs, [] => (h, None) :: zip_row hs []
  | h :: hs, f :: fs => (h, Some f) :: zip_row hs fs
  end.

(** A reader for unquoted comma-separated lines. *)
Definition demo_DictReader (lines : list string) : option (list csv_row) :=
  match lines with
  | [] => Some []
  | header :: rest =>
      Some (map (fun l => list_to_map (zip_row (split_commas_from "" header)
                                             (split_commas_from "" l)))
              (List.filter (fun l => negb (String.eqb l "")) rest))
  end.

Definition demo_float (s : string) : option float :=
  if String.eqb s "0.5" then Some 0.5%float
  else if String.eqb s "0.25" then Some 0.25%float
  else if String.eqb s "1" then Some 1%float
  else None.

Definition demo_csv : string :=
  "MPRN,Meter Serial Number,Read Value,Read Type,Read Date and End Time" +:+ String "010" (
  "100,1,0.5,kW,01-03-2024 00:30" +:+ String "010" (
  "100,1,n/a,kW,01-03-2024 01:00" +:+ String "010" (
  "100,1,0.25,kW,01-03-2024 01:30" +:+ String "010" ""))).

Definition demo_page (n : nat) : response :=
  match n with
  | 0%nat => {| content := "page-1"; text := "page-1" |}
  | 2%nat => {| content := "<!DOCTYPE html PUBLIC form";
                text := "<!DOCTYPE html PUBLIC form" |}
  | 6%nat => {| content := "token.json"; text := "token.json" |}
  | 7%nat => {| content := demo_csv; text := demo_csv |}
  | _ => {| content := ""; text := "" |}
  end.

Definition demo_jar (n : nat) : cookies :=
  let after := match n with 0%nat => "1" | 1%nat => "2" | _ => "n" end in
  {[ "x-ms-cpim-csrf" := "csrf-cookie-" +:+ after;
     "x-ms-cpim-trans" := "trans-cookie-" +:+ after;
     "ARRAffinity" := "affinity" ]}.

Definition demo_cached : usage_data :=
  {| total_usage := 5%float; readings := []; last_updated := "2024-01-01T00:00:00" |}.

(** The portal answers the n-th request with [demo_page n]; the cache
    file, when its text is ["cached"], holds [demo_cached]. *)
Definition demo_externals (debug : bool) : Externals :=
  {| DEBUG_USE_CACHE := debug;
     load_cache := fun file =>
       if String.eqb file "cached" then Some demo_cached else None;
     write_cache := fun _ _ => Some "written";
     net := nat;
     send := fun n _ _ _ => Responded (demo_page n) (demo_jar n) (S n);
     now_isoformat := fun _ => "2024-03-02T00:00:00";
     py_repr := fun _ => "";
     str_of_bytes := fun b => b;
     re_findall_settings := fun s =>
       if String.eqb s "page-1" then ["settings.json;"] else [];
     json_loads := fun s =>
       if String.eqb s "settings.json"
       then Some (VDict [("csrf", VStr "csrf-1"); ("transId", VStr "tx-1")])
       else if String.eqb s "token.json"
       then Some (VDict [("token", VStr "download-1")])
       else None;
     tag := string;
     soup_find_form := fun b =>
       if String.eqb b "<!DOCTYPE html PUBLIC form" then Some "form" else None;
     tag_find_input := fun _ n => Some n;
     tag_attr := fun t a =>
       if String.eqb a "action"
       then Some "https://myaccount.esbnetworks.ie/signin-oidc"
       else Some ("value-of-" +:+ t);
     decode_utf8 := fun b => Some b;
     csv_DictReader := demo_DictReader;
     float_of_str := demo_float |}.

Definition demo_self : ESBSmartMeter := init "100" "user@example.org" "secret".

(** What the scripted portal makes a fresh call return. *)
Definition demo_result : usage_data :=
  {| total_usage := 0.75%float;
     readings :=
       [ {| date := Some "01-03-2024 00:30"; usage := 0.5%float;
            rtype := Some "kW" |};
         {| date := Some "01-03-2024 01:30"; usage := 0.25%float;
            rtype := Some "kW" |} ];
     last_updated := "2024-03-02T00:00:00" |}.

End EsbApi.

(** * The config flow ([config_flow.py]) *)

Module ConfigFlow.

(** A key of a [vol.Schema] with the type its value must have. *)
Inductive value_type : Type := Str | Int | Bool.

Inductive schema_key : Type :=
  | Required (key : string) (t : value_type)
  | Optional (key : string) (t : value_type).

(** What a step returns to the flow manager. *)
Inductive flow_result : Type :=
  | ShowForm (step_id : string) (data_schema : list schema_key)
      (errors : gmap string string)
  | CreateEntry (title : string) (data : gmap string string).

(** The sources of a flow or of an entry that the host tells apart
    here, and the unique id the host gives a discovery flow that has
    none of its own. *)
Definition SOURCE_USER : string := "user".
Definition SOURCE_IGNORE : string := "ignore".
Definition DEFAULT_DISCOVERY_UNIQUE_ID : string :=
  "default_discovery_unique_id".

(** A config entry of the domain, as far as a flow looks at it. *)
Record config_entry : Type := mkEntry {
  entry_unique_id : string;
  entry_source : string
}.

(** The flow handler and what it sees of the host: its own source and
    unique id, the entries of the domain that have a unique id, and the
    unique ids of the other flows of the domain in progress. *)
Record flow : Type := mkFlow {
  source : string;
  unique_id : option string;
  entries : list config_entry;
  in_progress : list string
}.

Definition F (A : Type) : Type := flow -> result A * flow.

(** [hass.config_entries.async_entry_for_domain_unique_id(handler, uid)]
    of the host: the first entry of the domain with that unique id. *)
Definition async_entry_for_domain_unique_id (uid : string) (st : flow)
    : option config_entry :=
  List.find (fun entry => String.eqb (entry_unique_id entry) uid) (entries st).

(** [await self.async_set_unique_id(uid)] of the host, for a string
    [uid] and the default [raise_on_progress=True]: it aborts when
    another flow for [uid] is in progress; otherwise it records [uid]
    and, unless [uid] is the default discovery id, aborts the flows in
    progress that have that default id.  The entry it returns is not
    used by the step. *)
Definition async_set_unique_id (uid : string) : F unit :=
  fun st =>
    if bool_decide (uid ∈ in_progress st)
    then (Raise (AbortFlow "already_in_progress"), st)
    else
      (Ok tt,
       {| source := source st;
          unique_id := Some uid;
          entries := entries st;
          in_progress :=
            if negb (String.eqb uid DEFAULT_DISCOVERY_UNIQUE_ID)
            then List.filter
                   (fun u => negb (String.eqb u DEFAULT_DISCOVERY_UNIQUE_ID))
                   (in_progress st)
            else in_progress st |}).

(** [self._abort_if_unique_id_configured()] of the host, with no
    [updates]: it returns when the flow has no unique id, when the
    domain has no entry with it, or when that entry is an ignored one
    and the flow was started by the user; otherwise it aborts.  The
    reload the host schedules before aborting, for a discovery flow
    that finds its entry waiting to be set up again, is not part of the
    state of the flow. *)
Definition _abort_if_unique_id_configured : F unit :=
  fun st =>
    match unique_id st with
    | None => (Ok tt, st)
    | Some uid =>
        match async_entry_for_domain_unique_id uid st with
        | None => (Ok tt, st)
        | Some entry =>
            if String.eqb (entry_source entry) SOURCE_IGNORE
               && String.eqb (source st) SOURCE_USER
            then (Ok tt, st)
            else (Raise (AbortFlow "already_configured"), st)
        end
    end.

(** [user_input[key]] *)
Definition input_get (user_input : gmap string string) (key : string)
    : F string :=
  fun st =>
    match user_input !! key with
    | Some v => (Ok v, st)
    | None => (Raise (KeyError key), st)
    end.

Definition fbind {A B} (m : F A) (k : A -> F B) : F B :=
  fun st =>
    match m st with
    | (Ok a, st') => k a st'
    | (Raise e, st') => (Raise e, st')
    end.

Definition data_schema : list schema_key :=
  [ Required "mprn" Str; Required "email" Str; Required "password" Str ].

(** [ESBConfigFlow.async_step_user(self, user_input=None)] *)
Definition async_step_user (user_input : option (gmap string string))
    : F flow_result :=
  let errors : gmap string string := ∅ in
  match user_input with
  | Some user_input =>
      fbind (input_get user_input "mprn") (fun uid =>
      fbind (async_set_unique_id uid) (fun _ =>
      fbind _abort_if_unique_id_configured (fun _ =>
      fbind (input_get user_input "mprn") (fun m =>
      fun st =>
        (Ok (CreateEntry ("ESB " +:+ m) user_input), st)))))
  | None =>
      fun st => (Ok (ShowForm "user" data_schema errors), st)
  end.

(** An entry with the unique id [uid] is already configured: the
    domain has an entry with it.  One the user ignored does not count
    in a flow the user started, which may configure it. *)
Definition configured (st : flow) (uid : string) : bool :=
  match async_entry_for_domain_unique_id uid st with
  | Some entry =>
      negb (String.eqb (entry_source entry) SOURCE_IGNORE
            && String.eqb (source st) SOURCE_USER)
  | None => false
  end.

(** The uniqueness check as the specification words it: on submitted
    input the step always sets the unique id to the submitted mprn,
    aborts when the domain has an entry with it, and creates the entry
    otherwise. *)
Definition validates_uniqueness (st : flow)
    (user_input : gmap string string) : Prop :=
  forall m, user_input !! "mprn" = Some m ->
    unique_id (snd (async_step_user (Some user_input) st)) = Some m /\
    (is_Some (async_entry_for_domain_unique_id m st) ->
     exists reason,
       fst (async_step_user (Some user_input) st) = Raise (AbortFlow reason)) /\
    (async_entry_for_domain_unique_id m st = None ->
     fst (async_step_user (Some user_input) st)
       = Ok (CreateEntry ("ESB " +:+ m) user_input)).

Definition demo_input : gmap string string :=
  {[ "mprn" := "100"; "email" := "user@example.org"; "password" := "secret" ]}.

(** A user flow on a host with an entry for meter 200; the same with
    another flow for meter 100 in progress; and user flows on hosts
    where meter 100 is configured, or was ignored. *)
Definition demo_flow : flow :=
  {| source := SOURCE_USER; unique_id := None;
     entries := [mkEntry "200" SOURCE_USER]; in_progress := [] |}.

Definition demo_flow_busy : flow :=
  {| source := SOURCE_USER; unique_id := None;
     entries := [mkEntry "200" SOURCE_USER]; in_progress := ["100"] |}.

Definition demo_flow_configured : flow :=
  {| source := SOURCE_USER; unique_id := None;
     entries := [mkEntry "100" SOURCE_USER]; in_progress := [] |}.

Definition demo_flow_ignored : flow :=
  {| source := SOURCE_USER; unique_id := None;
     entries := [mkEntry "100" SOURCE_IGNORE]; in_progress := [] |}.

End ConfigFlow.

(** * Further recorders for the importer's examples *)

Module SensorRuns.
Import Sensor.

(** The recorder after the run against [demo_host] has written its
    statistics: the last one starts at 2024-03-01 01:00 with sum 15.75. *)
Definition demo_host_after : Host :=
  utc_host "esb" (demo_store (instant demo_01h) (Some (PyFloat 15.75%float))).

(** A recorder whose last statistic, at 2024-03-01 00:00, has a [None]
    sum. *)
Definition demo_host_none : Host :=
  utc_host "esb" (demo_store demo_midnight (Some PyNone)).

(** Readings none of which has a usable date. *)
Definition demo_data_unparseable : usage_data :=
  {| total_usage := 3%float;
     readings := [ mkReading (Some "") 1%float None;
                   mkReading None 2%float None ];
     last_updated := "2024-03-02T00:00:00" |}.

End SensorRuns.

(** * Vocabulary and scripted portals for the client's runs *)

Module EsbApiRuns.
Import EsbApi.

(** The messages of the three [raise Exception(...)] of the file. *)
Definition LOGIN_FAILED : string :=
  "Login failed - too many retries or session error".
Definition INVALID_CSV : string := "Invalid CSV format received".
Definition TIMED_OUT : string := "Request timed out - server not responding".

(** An exception that is neither a plain [Exception] nor a
    [Timeout]. *)
Definition plain (e : exn) : Prop :=
  (forall msg, e <> Exception msg) /\ e <> Timeout.

(** No request follows a [session.close()]. *)
Definition closes_last (evs : list event) : Prop :=
  forall pre post, evs = pre ++ Closed :: post -> requests_sent post = [].

(** The methods of the requests of a trace, and those of the whole
    exchange. *)
Definition methods (evs : list event) : list method :=
  map rq_method (requests_sent evs).

Definition exchange_methods : list method :=
  [GET; POST; GET; POST; GET; GET; GET; POST].

(** What the first [except] clause makes of the outcome of the [try]
    block. *)
Definition map_timeout {A} (r : result A) : result A :=
  match r with
  | Raise Timeout => Raise (Exception TIMED_OUT)
  | _ => r
  end.

Section Runs.

Context `{Externals}.

(** The events a call adds to the trace. *)
Definition added (w w' : world) : list event :=
  drop (length (w_trace w)) (w_trace w').

Definition events_of (self : ESBSmartMeter) (w : world) : list event :=
  added w (snd (get_usage_data self w)).

(** The action only adds events; it closes the session, if at all,
    after its last request, and not when it returns. *)
Definition tidy {A} (m : M A) : Prop :=
  forall w, exists evs,
    w_trace (snd (m w)) = w_trace w ++ evs /\
    closes_last evs /\
    (is_ok (fst (m w)) = true -> ~ In Closed evs).

(** The action only adds events, and no request after a close. *)
Definition orderly {A} (m : M A) : Prop :=
  forall w, exists evs,
    w_trace (snd (m w)) = w_trace w ++ evs /\ closes_last evs.

(** The action leaves the cache file alone. *)
Definition keeps_cache {A} (m : M A) : Prop :=
  forall w, w_cache (snd (m w)) = w_cache w.

(** The requests of the action have the methods [ms], or the first of
    them when it raises. *)
Definition sends {A} (ms : list method) (m : M A) : Prop :=
  forall w, exists evs,
    w_trace (snd (m w)) = w_trace w ++ evs /\
    methods evs `prefix_of` ms /\
    (is_ok (fst (m w)) = true -> methods evs = ms).

(** The action raises a plain [Exception] only with one of the
    messages [allowed]. *)
Definition only_exception {A} (allowed : list string) (m : M A) : Prop :=
  forall w msg, fst (m w) = Raise (Exception msg) -> In msg allowed.

(** When the action raises a [Timeout], the last thing it did was a
    request that got no answer. *)
Definition timeout_last {A} (m : M A) : Prop :=
  forall w, exists evs,
    w_trace (snd (m w)) = w_trace w ++ evs /\
    (fst (m w) = Raise Timeout ->
     exists pre rq, evs = pre ++ [Http rq None]).

(** The request names no one but [self]: when its form has a
    [signInName] or a [password], or its JSON body a [mprn], they are
    those of [self]; and a form with a [password] is only POSTed to
    the login endpoint. *)
Definition carries_own_identity (self : ESBSmartMeter) (rq : request)
    : Prop :=
  (forall v, assoc "signInName" (rq_data rq) = Some v ->
             v = VStr (email self)) /\
  (forall v, assoc "password" (rq_data rq) = Some v ->
             v = VStr (password self)) /\
  (forall v, assoc "mprn" (rq_json rq) = Some v -> v = VStr (mprn self)) /\
  (is_Some (assoc "password" (rq_data rq)) ->
   rq_method rq = POST /\
   exists tx,
     rq_url rq =
       "https://login.esbnetworks.ie/esbntwkscustportalprdb2c01.onmicrosoft.com/B2C_1A_signup_signin/SelfAsserted?tx="
       +:+ format_value tx +:+ "&p=B2C_1A_signup_signin").

(** Every request of the action satisfies [P]. *)
Definition all_requests {A} (P : request -> Prop) (m : M A) : Prop :=
  forall w, exists evs,
    w_trace (snd (m w)) = w_trace w ++ evs /\
    Forall P (requests_sent evs).

End Runs.

(** A portal that answers the n-th request with [pages n] and lets it
    time out when there is no such page; everything else is as in
    [demo_externals]. *)
Definition scripted (debug : bool) (pages : nat -> option response)
    : Externals :=
  {| DEBUG_USE_CACHE := debug;
     load_cache := @load_cache (demo_externals debug);
     write_cache := @write_cache (demo_externals debug);
     net := nat;
     send := fun n _ _ _ =>
       match pages n with
       | Some p => Responded p (demo_jar n) (S n)
       | None => TimedOut (S n)
       end;
     now_isoformat := @now_isoformat (demo_externals debug);
     py_repr := @py_repr (demo_externals debug);
     str_of_bytes := @str_of_bytes (demo_externals debug);
     re_findall_settings := @re_findall_settings (demo_externals debug);
     json_loads := @json_loads (demo_externals debug);
     tag := string;
     soup_find_form := @soup_find_form (demo_externals debug);
     tag_find_input := @tag_find_input (demo_externals debug);
     tag_attr := @tag_attr (demo_externals debug);
     decode_utf8 := @decode_utf8 (demo_externals debug);
     csv_DictReader := demo_DictReader;
     float_of_str := demo_float |}.

(** The login is refused: the answer to the confirm request is not the
    expected page. *)
Definition pages_refused (n : nat) : option response :=
  match n with
  | 2%nat => Some {| content := "denied"; text := "denied" |}
  | _ => Some (demo_page n)
  end.

(** The first request, the one made with a [timeout], gets no answer
    in time. *)
Definition pages_timeout (n : nat) : option response :=
  match n with
  | 0%nat => None
  | _ => Some (demo_page n)
  end.

(** The file is an error page. *)
Definition pages_no_csv (n : nat) : option response :=
  match n with
  | 7%nat => Some {| content := "<html>error</html>";
                     text := "<html>error</html>" |}
  | _ => Some (demo_page n)
  end.

(** The file has a line without a value. *)
Definition short_csv : string :=
  "MPRN,Meter Serial Number,Read Value,Read Type,Read Date and End Time" +:+ String "010" (
  "100,1,0.5,kW,01-03-2024 00:30" +:+ String "010" (
  "100,1" +:+ String "010" "")).

Definition pages_short_row (n : nat) : option response :=
  match n with
  | 7%nat => Some {| content := short_csv; text := short_csv |}
  | _ => Some (demo_page n)
  end.

Definition short_row : csv_row :=
  list_to_map [ ("MPRN", Some "100"); ("Meter Serial Number", Some "1");
                ("Read Value", None); ("Read Type", None);
                ("Read Date and End Time", None) ].

End EsbApiRuns.

(** * The coordinator and the setup of an entry ([sensor.py]) *)

Module Coordinator.
Import Sensor EsbApi.

(** [ESBDataUpdateCoordinator]: the attributes set by [__init__]. *)
Record ESBDataUpdateCoordinator : Type := mkCoordinator {
  c_mprn : string;
  c_email : string;
  c_password : string;
  api : ESBSmartMeter
}.

(** [ESBDataUpdateCoordinator(hass, mprn=..., email=..., password=...)] *)
Definition coordinator_init (mprn email password : string)
    : ESBDataUpdateCoordinator :=
  {| c_mprn := mprn; c_email := email; c_password := password;
     api := init mprn email password |}.

(** How [_async_update_data] ends: it returns the data, or raises
    [UpdateFailed(msg)]. *)
Inductive update_result : Type :=
  | Updated (data : usage_data)
  | UpdateFailed (msg : string).

(** [str(e)] for an exception that is not a plain [Exception]. *)
Class Runtime : Type := mkRuntime {
  str_of_exn : exn -> string
}.

Section Update.

Context {host : Host} {externals : Externals} {runtime : Runtime}.

(** The exception [e] inside an f-string. *)
Definition format_exn (e : exn) : string :=
  match e with
  | Exception msg => msg
  | _ => str_of_exn e
  end.

(** [ESBDataUpdateCoordinator._async_update_data(self)]: how it ends,
    the world of the client afterwards and the recorder calls made. *)
Definition _async_update_data (self : ESBDataUpdateCoordinator) (w : world)
    : update_result * world * list host_call :=
  match get_usage_data (api self) w with
  | (Ok data, w') =>
      match readings data with
      | _ :: _ =>
          (* an exception of the import is logged, not raised *)
          let '(calls, _) := _async_import_statistics (c_mprn self) data in
          (Updated data, w', calls)
      | [] => (Updated data, w', [])
      end
  | (Raise error, w') =>
      (UpdateFailed ("Error communicating with ESB API: " +:+ format_exn error),
       w', [])
  end.

(** [config_entry.data[key]] *)
Definition entry_get (data : gmap string string) (key : string)
    : result string :=
  match data !! key with
  | Some v => Ok v
  | None => Raise (KeyError key)
  end.

(** [async_setup_entry(hass, config_entry, async_add_entities)] on the
    data of the entry.  The first refresh of the host runs
    [_async_update_data] once; what it raises is logged. *)
Definition async_setup_entry (entry_data : gmap string string) (w : world)
    : result unit * world * list host_call :=
  match entry_get entry_data "mprn" with
  | Raise e => (Raise e, w, [])
  | Ok mprn =>
      match entry_get entry_data "email" with
      | Raise e => (Raise e, w, [])
      | Ok email =>
          match entry_get entry_data "password" with
          | Raise e => (Raise e, w, [])
          | Ok password =>
              let coordinator := coordinator_init mprn email password in
              let '(_, w', calls) := _async_update_data coordinator w in
              (Ok tt, w', calls)
          end
      end
  end.

End Update.

Definition demo_runtime : Runtime := {| str_of_exn := fun _ => "error" |}.

Definition demo_coordinator : ESBDataUpdateCoordinator :=
  coordinator_init "100" "user@example.org" "secret".

Definition demo_entry_data : gmap string string :=
  {[ "mprn" := "100"; "email" := "user@example.org"; "password" := "secret" ]}.

End Coordinator.

(** * Properties of the importer *)

Lemma fsum_from_app s l1 l2 :
  fsum_from s (l1 ++ l2) = fsum_from (fsum_from s l1) l2.
Proof. unfold fsum_from. apply fold_left_app. Qed.

Lemma fsum_snoc l x :
  l <> [] -> fsum (l ++ [x]) = PrimFloat.add (fsum l) x.
Proof.
  destruct l as [|y l]; [congruence|]. intros _. simpl.
  now rewrite fsum_from_app.
Qed.

Module SensorProps.
Import Sensor.

(** ** The dict of hourly sums *)

Lemma aware_eqb_eq a b : aware_eqb a b = true <-> instant a = instant b.
Proof. unfold aware_eqb. apply Z.eqb_eq. Qed.

Lemma aware_eqb_sym a b : aware_eqb a b = aware_eqb b a.
Proof. unfold aware_eqb. apply Z.eqb_sym. Qed.

Lemma hr_lookup_instant h a b :
  instant a = instant b -> hr_lookup a h = hr_lookup b h.
Proof.
  intros E. induction h as [|[k v] h IH]; simpl; [reflexivity|].
  unfold aware_eqb. now rewrite E, IH.
Qed.

Lemma hr_lookup_set t v h t' :
  hr_lookup t' (hr_set t v h) =
  if aware_eqb t t' then Some v else hr_lookup t' h.
Proof.
  induction h as [|[k w] h IH]; simpl.
  - reflexivity.
  - destruct (aware_eqb k t) eqn:Ekt; simpl.
    + apply aware_eqb_eq in Ekt. unfold aware_eqb. rewrite Ekt.
      now destruct (instant t =? instant t').
    + rewrite IH. destruct (aware_eqb k t') eqn:Ekt'; [|reflexivity].
      destruct (aware_eqb t t') eqn:Ett'; [|reflexivity].
      apply aware_eqb_eq in Ekt', Ett'.
      assert (aware_eqb k t = true) by (apply aware_eqb_eq; congruence).
      congruence.
Qed.

Lemma hr_keys_set_present t v w h :
  hr_lookup t h = Some w -> hr_keys (hr_set t v h) = hr_keys h.
Proof.
  unfold hr_keys. induction h as [|[k x] h IH]; simpl; [discriminate|].
  destruct (aware_eqb k t); simpl; [reflexivity|].
  intros E. now rewrite IH.
Qed.

Lemma hr_keys_set_absent t v h :
  hr_lookup t h = None -> hr_keys (hr_set t v h) = hr_keys h ++ [t].
Proof.
  unfold hr_keys. induction h as [|[k x] h IH]; simpl; [reflexivity|].
  destruct (aware_eqb k t); simpl; [discriminate|].
  intros E. now rewrite IH.
Qed.

Lemma hr_lookup_None_keys t h :
  hr_lookup t h = None -> ~ In (instant t) (map instant (hr_keys h)).
Proof.
  induction h as [|[k x] h IH]; simpl; [tauto|].
  destruct (aware_eqb k t) eqn:E; [discriminate|].
  intros Hn [Hk|Hin]; [|now apply IH].
  apply aware_eqb_eq in Hk. congruence.
Qed.

Lemma hr_lookup_key t h : In t (hr_keys h) -> is_Some (hr_lookup t h).
Proof.
  induction h as [|[k x] h IH]; simpl; [tauto|].
  intros [->|Hin].
  - unfold aware_eqb. rewrite Z.eqb_refl. eauto.
  - destruct (aware_eqb k t); eauto.
Qed.

Lemma hr_lookup_Some_key t v h :
  hr_lookup t h = Some v ->
  exists t', In t' (hr_keys h) /\ instant t' = instant t.
Proof.
  induction h as [|[k x] h IH]; simpl; [discriminate|].
  destruct (aware_eqb k t) eqn:E.
  - intros _. exists k. split; [now left|]. now apply aware_eqb_eq.
  - intros Hl. destruct (IH Hl) as (t' & Hin & Ht'). exists t'. tauto.
Qed.

(** ** [sorted] *)

Lemma insert_sorted_perm k l : Permutation (insert_sorted k l) (k :: l).
Proof.
  induction l as [|k' l IH]; simpl; [reflexivity|].
  destruct (aware_leb k k'); [reflexivity|].
  rewrite IH. apply perm_swap.
Qed.

Lemma sorted_perm l : Permutation (sorted l) l.
Proof.
  induction l as [|k l IH]; simpl; [reflexivity|].
  rewrite insert_sorted_perm. now constructor.
Qed.

Lemma insert_sorted_sorted k l :
  StronglySorted not_after l -> StronglySorted not_after (insert_sorted k l).
Proof.
  induction l as [|k' l IH]; simpl; intros Hs.
  - repeat constructor.
  - apply StronglySorted_cons in Hs as [Hall Hs].
    unfold aware_leb. destruct (Z.leb_spec (instant k) (instant k')) as [Hle|Hgt].
    + apply StronglySorted_cons. split.
      * constructor; [exact Hle|].
        eapply Forall_impl; [exact Hall|].
        unfold not_after. intros; lia.
      * now apply StronglySorted_cons.
    + apply StronglySorted_cons. split; [|now apply IH].
      rewrite (insert_sorted_perm k l). constructor; [|exact Hall].
      unfold not_after. lia.
Qed.

Lemma sorted_sorted l : StronglySorted not_after (sorted l).
Proof.
  induction l as [|k l IH]; simpl; [constructor|].
  now apply insert_sorted_sorted.
Qed.

Lemma sorted_strict l :
  StronglySorted not_after l -> NoDup (map instant l) ->
  StronglySorted before l.
Proof.
  induction l as [|k l IH]; simpl; intros Hs Hnd; [constructor|].
  apply StronglySorted_cons in Hs as [Hall Hs].
  apply NoDup_cons in Hnd as [Hk Hnd].
  apply StronglySorted_cons. split; [|now apply IH].
  rewrite Forall_forall in Hall |- *. intros x Hx.
  specialize (Hall x Hx). unfold not_after, before in *.
  assert (instant k <> instant x); [|lia].
  intros E. apply Hk. rewrite E. apply list_elem_of_In, in_map.
  now apply list_elem_of_In.
Qed.

Lemma filter_sorted (R : aware -> aware -> Prop) f l :
  StronglySorted R l -> StronglySorted R (List.filter f l).
Proof.
  induction l as [|k l IH]; simpl; intros Hs; [constructor|].
  apply StronglySorted_cons in Hs as [Hall Hs].
  destruct (f k); [|now apply IH].
  apply StronglySorted_cons. split; [|now apply IH].
  rewrite Forall_forall in Hall |- *. intros x Hx. apply Hall.
  apply list_elem_of_In in Hx. apply list_elem_of_In.
  apply List.filter_In in Hx. tauto.
Qed.

Section WithHost.

Context `{Host}.

Lemma bucket_readings_snoc rs r :
  bucket_readings (rs ++ [r]) = bucket_reading (bucket_readings rs) r.
Proof. unfold bucket_readings. now rewrite fold_left_app. Qed.

Lemma usages_of_hour_snoc rs r t :
  usages_of_hour (rs ++ [r]) t =
  usages_of_hour rs t ++ (if assigned_to t r then [usage r] else []).
Proof.
  unfold usages_of_hour. rewrite List.filter_app, map_app. simpl.
  now destruct (assigned_to t r).
Qed.

(** The dict built by the first loop holds, for every hour, the sum of
    the usages filed under it, and has no entry for other hours. *)
Lemma bucket_lookup rs t :
  hr_lookup t (fst (bucket_readings rs)) =
  match usages_of_hour rs t with
  | [] => None
  | _ :: _ => Some (hour_usage rs t)
  end.
Proof.
  induction rs as [|r rs IH] using rev_ind; [reflexivity|].
  rewrite bucket_readings_snoc. unfold hour_usage in *.
  rewrite usages_of_hour_snoc.
  destruct (bucket_readings rs) as [h n]. simpl in IH.
  unfold bucket_reading, assigned_to.
  destruct (reading_time r) as [t0|] eqn:Ert.
  - assert (Hset : forall v, hr_lookup t (hr_set t0 v h) =
                     if aware_eqb t0 t then Some v else hr_lookup t h)
      by (intros; apply hr_lookup_set).
    destruct (hr_lookup t0 h) as [v|] eqn:El0; simpl; rewrite Hset;
      destruct (aware_eqb t0 t) eqn:E0.
    + apply aware_eqb_eq in E0.
      rewrite (hr_lookup_instant h t0 t E0), IH in El0.
      destruct (usages_of_hour rs t) as [|x l] eqn:Eu; [discriminate|].
      injection El0 as <-. simpl. now rewrite fsum_from_app.
    + now rewrite app_nil_r.
    + apply aware_eqb_eq in E0.
      rewrite (hr_lookup_instant h t0 t E0), IH in El0.
      destruct (usages_of_hour rs t) as [|x l] eqn:Eu; [|discriminate].
      reflexivity.
    + now rewrite app_nil_r.
  - simpl. now rewrite app_nil_r.
Qed.

(** The keys of the dict denote pairwise different instants. *)
Lemma bucket_keys_nodup rs :
  NoDup (map instant (hr_keys (fst (bucket_readings rs)))).
Proof.
  induction rs as [|r rs IH] using rev_ind; [constructor|].
  rewrite bucket_readings_snoc.
  destruct (bucket_readings rs) as [h n]. simpl in IH.
  unfold bucket_reading.
  destruct (reading_time r) as [t0|]; [|exact IH].
  destruct (hr_lookup t0 h) as [v|] eqn:El; simpl.
  - now rewrite (hr_keys_set_present _ _ v).
  - rewrite hr_keys_set_absent by exact El.
    rewrite map_app. simpl. apply NoDup_app. repeat split.
    + exact IH.
    + intros x Hx Hx'. apply list_elem_of_In in Hx.
      apply (hr_lookup_None_keys _ _ El).
      apply list_elem_of_In in Hx'. simpl in Hx'.
      destruct Hx' as [<-|[]]. exact Hx.
    + apply NoDup_singleton.
Qed.

(** The keys come out of [sorted] in strictly increasing order. *)
Lemma sorted_keys_strict rs :
  StronglySorted before (sorted (hr_keys (fst (bucket_readings rs)))).
Proof.
  apply sorted_strict; [apply sorted_sorted|].
  rewrite (Permutation_map instant (sorted_perm _)).
  apply bucket_keys_nodup.
Qed.

(** ** The second loop *)

Lemma statistics_loop_float lt h keys acc c sk :
  (forall t, In t keys -> is_Some (hr_lookup t h)) ->
  statistics_loop lt h keys acc (PyFloat c) sk =
  Ok (acc ++ running c h (kept lt keys),
      (sk + length (List.filter (already_have lt) keys))%nat).
Proof.
  revert acc c sk. induction keys as [|t keys IH]; intros acc c sk Hk; simpl.
  - now rewrite app_nil_r, Nat.add_0_r.
  - destruct (already_have lt t) eqn:Ea; simpl.
    + rewrite IH by (intros; apply Hk; now right).
      do 2 f_equal. lia.
    + destruct (Hk t (or_introl eq_refl)) as [u Hu]. rewrite Hu. simpl.
      rewrite IH by (intros; apply Hk; now right).
      now rewrite <- app_assoc.
Qed.

Lemma statistics_loop_none lt h keys acc sk :
  (forall t, In t keys -> is_Some (hr_lookup t h)) ->
  statistics_loop lt h keys acc PyNone sk =
  match kept lt keys with
  | [] => Ok (acc, (sk + length (List.filter (already_have lt) keys))%nat)
  | _ :: _ => Raise TypeError
  end.
Proof.
  revert sk. induction keys as [|t keys IH]; intros sk Hk; simpl.
  - now rewrite Nat.add_0_r.
  - unfold kept. simpl. destruct (already_have lt t) eqn:Ea; simpl.
    + rewrite IH by (intros; apply Hk; now right).
      fold (kept lt keys). destruct (kept lt keys); [|reflexivity].
      do 2 f_equal. lia.
    + destruct (Hk t (or_introl eq_refl)) as [u Hu]. now rewrite Hu.
Qed.

Lemma running_starts c h keys : map st_start (running c h keys) = keys.
Proof.
  revert c. induction keys as [|t keys IH]; intros c; simpl; [reflexivity|].
  now rewrite IH.
Qed.

Lemma running_state c h keys s :
  In s (running c h keys) ->
  In (st_start s) keys /\
  st_state s = default 0%float (hr_lookup (st_start s) h).
Proof.
  revert c. induction keys as [|t keys IH]; intros c; simpl; [tauto|].
  intros [<-|Hin]; simpl; [tauto|].
  destruct (IH _ Hin). tauto.
Qed.

Lemma running_sum c h keys k s :
  running c h keys !! k = Some s ->
  st_sum s = fsum_from c (map st_state (take (S k) (running c h keys))).
Proof.
  revert c k. induction keys as [|t keys IH]; intros c k; [discriminate|].
  destruct k as [|k]; simpl.
  - now intros [= <-].
  - intros Hk. now rewrite (IH _ _ Hk).
Qed.

(** ** The run as a whole *)

Lemma sorted_keys_present rs t :
  In t (sorted (hr_keys (fst (bucket_readings rs)))) ->
  hr_lookup t (fst (bucket_readings rs)) = Some (hour_usage rs t).
Proof.
  intros Hin.
  assert (Hk : In t (hr_keys (fst (bucket_readings rs)))).
  { apply list_elem_of_In. rewrite <- (sorted_perm _).
    now apply list_elem_of_In. }
  destruct (hr_lookup_key _ _ Hk) as [v Hv].
  rewrite bucket_lookup in Hv |- *.
  now destruct (usages_of_hour rs t).
Qed.

(** What a run hands to the recorder, from the answer to its query. *)
Lemma emitted_eq mprn data :
  emitted mprn data =
  match last_time_and_sum (last_stats_of mprn) (statistic_id_of mprn) with
  | Ok (lt, PyFloat c) =>
      let h := fst (bucket_readings (readings data)) in
      running c h (kept lt (sorted (hr_keys h)))
  | _ => []
  end.
Proof.
  unfold emitted, _async_import_statistics. fold (last_stats_of mprn).
  destruct (last_time_and_sum _ _) as [[lt ls]|e]; [|reflexivity].
  destruct (bucket_readings (readings data)) as [h n] eqn:Eb.
  assert (Hk : forall t, In t (sorted (hr_keys h)) -> is_Some (hr_lookup t h)).
  { intros t Ht. replace h with (fst (bucket_readings (readings data)))
      in * by now rewrite Eb.
    rewrite sorted_keys_present by exact Ht. eauto. }
  destruct ls as [|c].
  - rewrite statistics_loop_none by exact Hk.
    now destruct (kept lt (sorted (hr_keys h))).
  - rewrite statistics_loop_float by exact Hk. simpl.
    destruct (running c h (kept lt (sorted (hr_keys h)))); simpl;
      [reflexivity|now rewrite app_nil_r].
Qed.

(** How a run ends. *)
Lemma import_result mprn data :
  snd (_async_import_statistics mprn data) =
  match last_time_and_sum (last_stats_of mprn) (statistic_id_of mprn) with
  | Raise e => Raise e
  | Ok (lt, PyFloat c) => Ok tt
  | Ok (lt, PyNone) =>
      match kept lt (sorted (hr_keys (fst (bucket_readings (readings data))))) with
      | [] => Ok tt
      | _ :: _ => Raise TypeError
      end
  end.
Proof.
  unfold _async_import_statistics. fold (last_stats_of mprn).
  destruct (last_time_and_sum _ _) as [[lt ls]|e]; [|reflexivity].
  destruct (bucket_readings (readings data)) as [h n] eqn:Eb.
  assert (Hk : forall t, In t (sorted (hr_keys h)) -> is_Some (hr_lookup t h)).
  { intros t Ht. replace h with (fst (bucket_readings (readings data)))
      in * by now rewrite Eb.
    rewrite sorted_keys_present by exact Ht. eauto. }
  destruct ls as [|c].
  - rewrite statistics_loop_none by exact Hk. simpl.
    now destruct (kept lt (sorted (hr_keys h))).
  - rewrite statistics_loop_float by exact Hk.
    simpl. now destruct (running c h (kept lt (sorted (hr_keys h)))).
Qed.

(** [last_sum] is the stored sum, and [last_time] is only kept next to
    a sum that is not [0]. *)
Lemma last_time_and_sum_inv mprn lt ls :
  last_time_and_sum (last_stats_of mprn) (statistic_id_of mprn) = Ok (lt, ls) ->
  ls = previous_sum mprn /\
  match last_stat_of mprn with
  | Some row =>
      lt = if py_eq_zero ls then None else Some (astimezone (row_start row))
  | None => lt = None
  end.
Proof.
  unfold last_time_and_sum, previous_sum, last_stat_of.
  destruct (last_stats_of mprn !! statistic_id_of mprn) as [[|row rows]|];
    [discriminate| |now intros [= <- <-]].
  destruct (py_eq_zero (default (PyFloat 0) (row_sum row))) eqn:Ez;
    intros [= <- <-]; now rewrite Ez.
Qed.

(** ** The claims about the importer *)

Lemma emitted_cases mprn data :
  emitted mprn data = [] \/
  exists lt c,
    last_time_and_sum (last_stats_of mprn) (statistic_id_of mprn)
      = Ok (lt, PyFloat c) /\
    emitted mprn data =
      running c (fst (bucket_readings (readings data)))
        (kept lt (sorted (hr_keys (fst (bucket_readings (readings data)))))).
Proof.
  rewrite emitted_eq.
  destruct (last_time_and_sum _ _) as [[lt [|c]]|e]; eauto.
Qed.

Lemma emitted_state mprn data s :
  In s (emitted mprn data) ->
  st_state s = hour_usage (readings data) (st_start s).
Proof.
  destruct (emitted_cases mprn data) as [->|(lt & c & _ & ->)]; [intros []|].
  intros Hs. apply running_state in Hs as [Hin ->].
  apply List.filter_In in Hin as [Hin _].
  now rewrite sorted_keys_present.
Qed.

Lemma emitted_sorted mprn data :
  StronglySorted before (map st_start (emitted mprn data)).
Proof.
  destruct (emitted_cases mprn data) as [->|(lt & c & _ & ->)]; [constructor|].
  rewrite running_starts. apply filter_sorted, sorted_keys_strict.
Qed.

(** C1: the statistics are emitted in strictly increasing start-time
    order; the k-th of them carries, as ['state'], the usage of its hour
    and, as ['sum'], the stored last sum ([0] if none is found)
    increased, one after the other, by the hourly usages of the first k
    emitted hours. *)
Theorem cumulative_sum_continues mprn data k s :
  emitted mprn data !! k = Some s ->
  exists last_sum,
    previous_sum mprn = PyFloat last_sum /\
    StronglySorted before (map st_start (emitted mprn data)) /\
    st_state s = hour_usage (readings data) (st_start s) /\
    st_sum s =
      fsum_from last_sum
        (map (fun e => hour_usage (readings data) (st_start e))
             (take (S k) (emitted mprn data))).
Proof.
  intros Hk.
  assert (Hin : In s (emitted mprn data))
    by (apply list_elem_of_In; eapply list_elem_of_lookup_2; exact Hk).
  assert (Hmap : map (fun e => hour_usage (readings data) (st_start e))
                   (take (S k) (emitted mprn data))
                 = map st_state (take (S k) (emitted mprn data))).
  { apply map_ext_in. intros e He. symmetry. apply (emitted_state mprn).
    apply list_elem_of_In. eapply subseteq_take.
    apply list_elem_of_In. exact He. }
  destruct (emitted_cases mprn data) as [E|(lt & c & Hl & E)].
  - rewrite E in Hin. destruct Hin.
  - exists c. apply (last_time_and_sum_inv mprn) in Hl as [Hc _].
    split; [now symmetry|]. split; [apply emitted_sorted|].
    split; [now apply (emitted_state mprn)|].
    rewrite Hmap. rewrite E in Hk |- *. now apply running_sum.
Qed.

(** C2, as amended: when the stored last statistic has a sum other than
    [0], every emitted hour starts strictly after it. *)
Theorem only_later_hours_imported mprn data row s :
  last_stat_of mprn = Some row ->
  py_eq_zero (default (PyFloat 0%float) (row_sum row)) = false ->
  In s (emitted mprn data) ->
  row_start row < instant (st_start s).
Proof.
  intros Hrow Hnz Hs.
  destruct (emitted_cases mprn data) as [E|(lt & c & Hl & E)].
  - rewrite E in Hs. destruct Hs.
  - apply (last_time_and_sum_inv mprn) in Hl as [Hc Hlt].
    rewrite Hrow in Hlt. unfold previous_sum in Hc. rewrite Hrow in Hc.
    rewrite <- Hc in Hnz. rewrite Hnz in Hlt. subst lt.
    rewrite E in Hs. apply running_state in Hs as [Hin _].
    apply List.filter_In in Hin as [_ Hkeep].
    unfold already_have, aware_leb, astimezone in Hkeep. simpl in Hkeep.
    apply negb_true_iff, Z.leb_gt in Hkeep. exact Hkeep.
Qed.

Lemma assigned_nonempty rs t r :
  In r rs -> assigned_to t r = true -> usages_of_hour rs t <> [].
Proof.
  intros Hin Ha. unfold usages_of_hour.
  assert (Hf : In r (List.filter (assigned_to t) rs))
    by (apply List.filter_In; tauto).
  destruct (List.filter (assigned_to t) rs); [destruct Hf|discriminate].
Qed.

Lemma reading_time_parseable r :
  parseable r = match reading_time r with Some _ => true | None => false end.
Proof.
  unfold parseable, reading_time.
  destruct (truthy (date r)); simpl; [|reflexivity].
  now destruct (strptime (default "" (date r))).
Qed.

Lemma bucket_reading_fst st st' r :
  fst st = fst st' -> fst (bucket_reading st r) = fst (bucket_reading st' r).
Proof.
  destruct st as [h n], st' as [h' n']. simpl. intros <-.
  unfold bucket_reading. destruct (reading_time r) as [t|]; [|reflexivity].
  now destruct (hr_lookup t h).
Qed.

(** Readings that are skipped leave the dict as it is. *)
Lemma bucket_readings_parseable rs :
  fst (bucket_readings rs) = fst (bucket_readings (List.filter parseable rs)).
Proof.
  induction rs as [|r rs IH] using rev_ind; [reflexivity|].
  rewrite List.filter_app, bucket_readings_snoc. simpl.
  rewrite reading_time_parseable.
  destruct (reading_time r) as [t|] eqn:Er.
  - rewrite bucket_readings_snoc. now apply bucket_reading_fst.
  - rewrite app_nil_r, <- IH. destruct (bucket_readings rs) as [h n].
    unfold bucket_reading. now rewrite Er.
Qed.

(** C3: a reading whose date parses is filed under its date with
    minutes, seconds and microseconds set to zero, localized; the value
    emitted for an hour is the sum, in the order received, of the
    usages of the readings filed under it (under a key that denotes the
    same instant, which is how the dict compares its keys); a reading
    whose date is missing, empty or does not parse is filed nowhere,
    and dropping such readings changes no bucket. *)
Theorem hourly_buckets mprn data :
  (forall r s d,
     In r (readings data) -> date r = Some s -> s <> "" ->
     strptime s = Some d ->
     exists t,
       reading_time r = Some t /\
       wall t = {| year := year d; month := month d; day := day d;
                   hour := hour d; minute := 0; second := 0;
                   microsecond := 0 |} /\
       instant t = tz_instant (wall t) /\
       assigned_to t r = true /\
       hr_lookup t (fst (bucket_readings (readings data))) =
         Some (fsum (map usage
                       (List.filter (assigned_to t) (readings data))))) /\
  (forall e,
     In e (emitted mprn data) ->
     st_state e =
       fsum (map usage
               (List.filter (assigned_to (st_start e)) (readings data)))) /\
  (forall r,
     date r = None \/ date r = Some "" \/
     strptime (default "" (date r)) = None ->
     reading_time r = None /\ parseable r = false /\
     forall t, assigned_to t r = false) /\
  fst (bucket_readings (readings data)) =
    fst (bucket_readings (List.filter parseable (readings data))).
Proof.
  split; [|split; [|split]].
  - intros r s d Hin Hd Hs Hp.
    assert (Er : reading_time r = Some (localize (replace_top_of_hour d))).
    { unfold reading_time. rewrite Hd. simpl.
      destruct s; [congruence|]. simpl. now rewrite Hp. }
    exists (localize (replace_top_of_hour d)).
    assert (Ha : assigned_to (localize (replace_top_of_hour d)) r = true).
    { unfold assigned_to. rewrite Er. unfold aware_eqb. apply Z.eqb_refl. }
    split; [exact Er|]. split; [reflexivity|]. split; [reflexivity|].
    split; [exact Ha|].
    rewrite bucket_lookup. fold (usages_of_hour (readings data)
      (localize (replace_top_of_hour d))).
    pose proof (assigned_nonempty _ _ _ Hin Ha) as Hne.
    unfold hour_usage.
    now destruct (usages_of_hour (readings data)
                    (localize (replace_top_of_hour d))).
  - intros e He. now apply (emitted_state mprn).
  - intros r Hskip.
    assert (Er : reading_time r = None).
    { unfold reading_time. destruct Hskip as [->|[->|Hp]]; try reflexivity.
      destruct (negb (truthy (date r))); [reflexivity|]. now rewrite Hp. }
    split; [exact Er|]. split.
    + now rewrite reading_time_parseable, Er.
    + intros t. unfold assigned_to. now rewrite Er.
  - apply bucket_readings_parseable.
Qed.

Lemma kept_None keys : kept None keys = keys.
Proof.
  induction keys as [|t keys IH]; [reflexivity|].
  unfold kept in *. simpl. now f_equal.
Qed.

(** C9: when the stored last statistic has a sum equal to [0], the run
    succeeds, every hour of the fetched readings is emitted, whatever
    its position relative to the stored statistic, and the cumulative
    sum starts from the stored sum, which is [0]. *)
Theorem zero_sum_is_no_previous_data mprn data row :
  last_stat_of mprn = Some row ->
  py_eq_zero (default (PyFloat 0%float) (row_sum row)) = true ->
  exists c0,
    previous_sum mprn = PyFloat c0 /\
    PrimFloat.eqb c0 0%float = true /\
    snd (_async_import_statistics mprn data) = Ok tt /\
    map st_start (emitted mprn data) =
      sorted (hr_keys (fst (bucket_readings (readings data)))) /\
    (forall r t,
       In r (readings data) -> reading_time r = Some t ->
       exists s, In s (emitted mprn data) /\
                 instant (st_start s) = instant t /\
                 st_state s = hour_usage (readings data) t) /\
    (forall k s,
       emitted mprn data !! k = Some s ->
       st_sum s =
         fsum_from c0 (map st_state (take (S k) (emitted mprn data)))).
Proof.
  intros Hrow Hz.
  assert (Hp : previous_sum mprn = default (PyFloat 0%float) (row_sum row))
    by (unfold previous_sum; now rewrite Hrow).
  destruct (default (PyFloat 0%float) (row_sum row)) as [|c0] eqn:Ed;
    [discriminate|].
  assert (Hl : last_time_and_sum (last_stats_of mprn) (statistic_id_of mprn)
               = Ok (None, PyFloat c0)).
  { unfold last_stat_of in Hrow. unfold last_time_and_sum.
    destruct (last_stats_of mprn !! statistic_id_of mprn) as [[|row' rows]|];
      try discriminate.
    injection Hrow as ->. rewrite Ed. now rewrite Hz. }
  assert (E : emitted mprn data =
              running c0 (fst (bucket_readings (readings data)))
                (sorted (hr_keys (fst (bucket_readings (readings data)))))).
  { rewrite emitted_eq, Hl. simpl. now rewrite kept_None. }
  exists c0. split; [exact Hp|]. split; [exact Hz|].
  split; [rewrite import_result, Hl; reflexivity|].
  split; [rewrite E; apply running_starts|].
  split.
  - intros r t Hin Hr.
    assert (Ha : assigned_to t r = true).
    { unfold assigned_to. rewrite Hr. unfold aware_eqb. apply Z.eqb_refl. }
    pose proof (assigned_nonempty _ _ _ Hin Ha) as Hne.
    pose proof (bucket_lookup (readings data) t) as Hb.
    destruct (usages_of_hour (readings data) t) eqn:Eu; [congruence|].
    apply hr_lookup_Some_key in Hb as (t' & Hk & Ht').
    assert (Hs : In t' (map st_start (emitted mprn data))).
    { rewrite E, running_starts. apply list_elem_of_In.
      rewrite (sorted_perm _). now apply list_elem_of_In. }
    apply in_map_iff in Hs as (s & Hst & Hs).
    exists s. split; [exact Hs|]. split; [congruence|].
    rewrite (emitted_state mprn data s Hs), Hst.
    unfold hour_usage, usages_of_hour.
    assert (Hext : List.filter (assigned_to t') (readings data)
                   = List.filter (assigned_to t) (readings data)).
    { apply List.filter_ext. intros x. unfold assigned_to.
      destruct (reading_time x); [|reflexivity].
      unfold aware_eqb. now rewrite Ht'. }
    now rewrite Hext.
  - intros k s Hk. rewrite E in Hk |- *. now apply running_sum.
Qed.

(** Every recorder call of a run carries the statistic id of the
    meter. *)
Lemma calls_carry_statistic_id mprn data c :
  In c (fst (_async_import_statistics mprn data)) ->
  call_id c = statistic_id_of mprn.
Proof.
  unfold _async_import_statistics.
  destruct (last_time_and_sum _ _) as [[lt ls]|e].
  - destruct (bucket_readings (readings data)) as [h n].
    destruct (statistics_loop _ _ _ _ _ _) as [[[|s l] sk]|e]; simpl;
      intuition (subst; reflexivity).
  - simpl. intuition (subst; reflexivity).
Qed.

Lemma first_call_is_the_query mprn data :
  hd_error (fst (_async_import_statistics mprn data)) =
  Some (GetLastStatistics 1 (statistic_id_of mprn) true stat_types).
Proof.
  unfold _async_import_statistics.
  destruct (last_time_and_sum _ _) as [[lt ls]|e]; [|reflexivity].
  destruct (bucket_readings (readings data)) as [h n].
  now destruct (statistics_loop _ _ _ _ _ _) as [[[|s l] sk]|e].
Qed.

End WithHost.

(** C6: across runs for the same meter, also against different
    recorders, timezones and data, every recorder call, the query for
    the last statistic and the write alike, carries the same statistic
    id, [DOMAIN + ':esb_' + mprn + '_consumption']; each run starts
    with the query for that id. *)
Theorem statistic_id_stable (H1 H2 : Host) mprn d1 d2 c1 c2 :
  @DOMAIN H1 = @DOMAIN H2 ->
  In c1 (fst (@_async_import_statistics H1 mprn d1)) ->
  In c2 (fst (@_async_import_statistics H2 mprn d2)) ->
  call_id c1 = call_id c2 /\
  call_id c1 = @DOMAIN H1 +:+ ":esb_" +:+ mprn +:+ "_consumption" /\
  hd_error (fst (@_async_import_statistics H1 mprn d1)) =
    Some (GetLastStatistics 1
            (@DOMAIN H1 +:+ ":esb_" +:+ mprn +:+ "_consumption")
            true stat_types).
Proof.
  intros HD Hc1 Hc2.
  apply calls_carry_statistic_id in Hc1, Hc2.
  rewrite Hc1, Hc2. unfold statistic_id_of. rewrite HD.
  repeat split. rewrite <- HD. apply first_call_is_the_query.
Qed.

(** ** Runs on the example data *)

Lemma demo_emitted : @emitted demo_host "100" demo_data = demo_statistics.
Proof. vm_compute. reflexivity. Qed.

Lemma demo_emitted_zero :
  @emitted demo_host_zero "100" demo_data = demo_statistics_zero.
Proof. vm_compute. reflexivity. Qed.

Lemma cumulative_sum_continues_witness :
  let s := {| st_start := demo_01h; st_sum := 15.75%float;
              st_state := 1.25%float |} in
  @emitted demo_host "100" demo_data !! 1%nat = Some s /\
  exists last_sum,
    @previous_sum demo_host "100" = PyFloat last_sum /\
    StronglySorted before (map st_start (@emitted demo_host "100" demo_data)) /\
    st_state s = @hour_usage demo_host (readings demo_data) (st_start s) /\
    st_sum s =
      fsum_from last_sum
        (map (fun e => @hour_usage demo_host (readings demo_data) (st_start e))
             (take 2 (@emitted demo_host "100" demo_data))).
Proof.
  intros s.
  assert (Hk : @emitted demo_host "100" demo_data !! 1%nat = Some s)
    by (vm_compute; reflexivity).
  split; [exact Hk|].
  exact (@cumulative_sum_continues demo_host "100" demo_data 1%nat s Hk).
Defined.

(** C2 as stated fails: against a stored statistic at 2024-03-01 00:00
    whose sum is 0, the hours 23:00 and 00:00 are emitted again. *)
Lemma never_reimports_fails :
  ~ @never_reimports demo_host_zero "100" demo_data.
Proof.
  intros Hn.
  specialize (Hn (mkStatRow demo_midnight (Some (PyFloat 0%float)))).
  assert (Hrow : @last_stat_of demo_host_zero "100"
                 = Some (mkStatRow demo_midnight (Some (PyFloat 0%float))))
    by (vm_compute; reflexivity).
  specialize (Hn Hrow
    {| st_start := demo_23h; st_sum := 2%float; st_state := 2%float |}).
  rewrite demo_emitted_zero in Hn.
  specialize (Hn (or_introl eq_refl)).
  vm_compute in Hn. discriminate Hn.
Qed.

Lemma only_later_hours_imported_witness :
  let row := mkStatRow (demo_midnight - 3600000000) (Some (PyFloat 10%float)) in
  let s := {| st_start := demo_01h; st_sum := 15.75%float;
              st_state := 1.25%float |} in
  @last_stat_of demo_host "100" = Some row /\
  py_eq_zero (default (PyFloat 0%float) (row_sum row)) = false /\
  In s (@emitted demo_host "100" demo_data) /\
  row_start row < instant (st_start s).
Proof.
  intros row s.
  assert (Hrow : @last_stat_of demo_host "100" = Some row)
    by (vm_compute; reflexivity).
  assert (Hnz : py_eq_zero (default (PyFloat 0%float) (row_sum row)) = false)
    by (vm_compute; reflexivity).
  assert (Hs : In s (@emitted demo_host "100" demo_data))
    by (vm_compute; right; left; reflexivity).
  split; [exact Hrow|]. split; [exact Hnz|]. split; [exact Hs|].
  exact (@only_later_hours_imported demo_host "100" demo_data row s Hrow Hnz Hs).
Defined.

Lemma hourly_buckets_witness :
  let s := {| st_start := demo_00h; st_sum := 14.5%float;
              st_state := 4.5%float |} in
  In s (@emitted demo_host "100" demo_data) /\
  st_state s =
    fsum (map usage
            (List.filter (@assigned_to demo_host (st_start s))
                         (readings demo_data))).
Proof.
  intros s.
  assert (Hs : In s (@emitted demo_host "100" demo_data))
    by (vm_compute; left; reflexivity).
  split; [exact Hs|].
  exact (proj1 (proj2 (@hourly_buckets demo_host "100" demo_data)) s Hs).
Defined.

Lemma zero_sum_is_no_previous_data_witness :
  let row := mkStatRow demo_midnight (Some (PyFloat 0%float)) in
  @last_stat_of demo_host_zero "100" = Some row /\
  py_eq_zero (default (PyFloat 0%float) (row_sum row)) = true /\
  exists c0,
    @previous_sum demo_host_zero "100" = PyFloat c0 /\
    PrimFloat.eqb c0 0%float = true /\
    snd (@_async_import_statistics demo_host_zero "100" demo_data) = Ok tt /\
    map st_start (@emitted demo_host_zero "100" demo_data) =
      sorted (hr_keys (fst (@bucket_readings demo_host (readings demo_data)))).
Proof.
  intros row.
  assert (Hrow : @last_stat_of demo_host_zero "100" = Some row)
    by (vm_compute; reflexivity).
  assert (Hz : py_eq_zero (default (PyFloat 0%float) (row_sum row)) = true)
    by (vm_compute; reflexivity).
  split; [exact Hrow|]. split; [exact Hz|].
  destruct (@zero_sum_is_no_previous_data demo_host_zero "100" demo_data
              row Hrow Hz) as (c0 & H1 & H2 & H3 & H4 & _).
  exists c0. split; [exact H1|]. split; [exact H2|]. split; [exact H3|].
  exact H4.
Defined.

Lemma statistic_id_stable_witness :
  let c1 := GetLastStatistics 1 "esb:esb_100_consumption" true
              (@stat_types) in
  let c2 := AddExternalStatistics (@metadata_of demo_host_zero "100")
              demo_statistics_zero in
  call_id c1 = call_id c2 /\
  call_id c1 = "esb" +:+ ":esb_" +:+ "100" +:+ "_consumption".
Proof.
  intros c1 c2.
  assert (HD : @DOMAIN demo_host = @DOMAIN demo_host_zero) by reflexivity.
  assert (H1 : In c1 (fst (@_async_import_statistics demo_host "100" demo_data)))
    by (vm_compute; left; reflexivity).
  assert (H2 : In c2 (fst (@_async_import_statistics demo_host_zero "100"
                             demo_data)))
    by (vm_compute; right; left; reflexivity).
  destruct (statistic_id_stable demo_host demo_host_zero "100" demo_data
              demo_data c1 c2 HD H1 H2) as (E1 & E2 & _).
  split; [exact E1|exact E2].
Defined.

End SensorProps.

(** * Properties of the scraping client *)

Module EsbApiProps.
Import EsbApi.

(** ** The loop over the rows *)

Section WithExternals.

Context `{Externals}.

Lemma process_row_reading st row :
  process_row st row =
  match read_value (row !! "Read Value") with
  | Raise TypeError => Raise TypeError
  | _ =>
      match reading_of_row row with
      | Some r => Ok (PrimFloat.add (fst st) (usage r), snd st ++ [r])
      | None => Ok st
      end
  end.
Proof.
  destruct st as [t rs]. unfold process_row, reading_of_row, read_value.
  destruct (row !! "Read Value") as [[s|]|]; try reflexivity.
  now destruct (float_of_str s).
Qed.

(** When the loop ends, the readings are those of the rows, in order,
    and the total has been increased by each of their usages. *)
Lemma process_rows_Ok rows st st' :
  process_rows st rows = Ok st' ->
  snd st' = snd st ++ omap reading_of_row rows /\
  fst st' = fsum_from (fst st) (map usage (omap reading_of_row rows)).
Proof.
  revert st. induction rows as [|row rows IH]; intros st; simpl.
  - intros [= <-]. now rewrite app_nil_r.
  - rewrite process_row_reading.
    destruct (read_value (row !! "Read Value")) as [u|e] eqn:Ev.
    + unfold reading_of_row. rewrite Ev. intros Hr.
      apply IH in Hr as [-> ->]. simpl. now rewrite <- app_assoc.
    + assert (Hn : reading_of_row row = None)
        by (unfold reading_of_row; now rewrite Ev).
      rewrite Hn. destruct e; try (intros Hr; now apply IH in Hr);
        discriminate.
Qed.

(** The loop only stops early on a row whose value is [None]. *)
Lemma process_rows_total rows st :
  (forall row, In row rows -> row !! "Read Value" <> Some None) ->
  exists st', process_rows st rows = Ok st'.
Proof.
  revert st. induction rows as [|row rows IH]; intros st Hrows; simpl.
  - eauto.
  - rewrite process_row_reading.
    assert (Hv := Hrows row (or_introl eq_refl)).
    assert (Ht : read_value (row !! "Read Value") <> Raise TypeError).
    { unfold read_value. destruct (row !! "Read Value") as [[s|]|];
        [destruct (float_of_str s)| |]; congruence. }
    destruct (read_value (row !! "Read Value")) as [u|[]];
      try congruence;
      destruct (reading_of_row row); apply IH; intros; apply Hrows;
      now right.
Qed.

(** ** Running the monad *)

Lemma bind_Ok {A B} (m : M A) (k : A -> M B) w b w' :
  bind m k w = (Ok b, w') ->
  exists a w1, m w = (Ok a, w1) /\ k a w1 = (Ok b, w').
Proof.
  unfold bind. destruct (m w) as [[a|e] w1]; [eauto|discriminate].
Qed.

Lemma lift_Ok {A} (r : result A) w a w' :
  lift r w = (Ok a, w') -> r = Ok a /\ w' = w.
Proof. unfold lift. now intros [= -> ->]. Qed.

Lemma http_Ok rq w r w' :
  http rq w = (Ok r, w') ->
  w_headers w' = w_headers w /\ w_cache w' = w_cache w /\
  w_trace w' = w_trace w ++ [Http rq (Some (r, w_jar w'))].
Proof.
  unfold http. destruct (send _ _ _ _); [|discriminate..].
  now intros [= <- <-].
Qed.

Lemma get_dict_Ok w j w' :
  cookies_get_dict w = (Ok j, w') -> j = w_jar w /\ w' = w.
Proof. unfold cookies_get_dict. now intros [= <- <-]. Qed.

Lemma sleep_Ok lo hi w u w' :
  sleep_randint lo hi w = (Ok u, w') -> w' = log (Slept lo hi) w.
Proof. unfold sleep_randint. now intros [= <-]. Qed.

Lemma close_Ok w u w' :
  session_close w = (Ok u, w') -> w' = log Closed w.
Proof. unfold session_close. now intros [= <-]. Qed.

Lemma guard_Ok (b : bool) (failing : M unit) w u w' :
  (forall w0, is_ok (fst (failing w0)) = false) ->
  (if b then failing else ret tt) w = (Ok u, w') -> b = false /\ w' = w.
Proof.
  intros Hf. destruct b.
  - intros E. specialize (Hf w). rewrite E in Hf. discriminate.
  - unfold ret. now intros [= <-].
Qed.

Lemma handlers_Ok {A} (body : M A) w a w' :
  handlers body w = (Ok a, w') -> body w = (Ok a, w').
Proof.
  unfold handlers. destruct (body w) as [[a0|e] w1]; [easy|].
  destruct e; discriminate.
Qed.

(** A call that is not answered from the cache is [fetch]. *)
Lemma get_usage_data_miss self w :
  cache_hit w = false -> get_usage_data self w = fetch self w.
Proof.
  unfold cache_hit, get_usage_data, bind, read_cache.
  destruct DEBUG_USE_CACHE; simpl; [|reflexivity].
  destruct (w_cache w) as [file|]; [|reflexivity].
  now destruct (load_cache file).
Qed.

Lemma fetch_Ok self w res w' :
  fetch self w = (Ok res, w') ->
  exists r8 w1,
    exchange self (session_world self w) = (Ok r8, w1) /\
    process r8 w1 = (Ok res, w').
Proof.
  unfold fetch. intros Hf.
  apply bind_Ok in Hf as ([] & w0 & Hs & Hf).
  apply handlers_Ok, bind_Ok in Hf as (r8 & w1 & Hx & Hp).
  exists r8, w1. split; [|exact Hp].
  unfold session_world. now rewrite Hs.
Qed.

(** ** A successful exchange *)

Lemma exchange_Ok self w r8 w' :
  exchange self w = (Ok r8, w') ->
  exists l,
    fst (answer_8 l) = r8 /\
    tokens_extracted l /\
    w_trace w' = w_trace w ++ exchange_events self l /\
    w_cache w' = w_cache w.
Proof.
  unfold exchange. intros Hx.
  apply bind_Ok in Hx as (p1 & w1 & S1 & Hx). apply http_Ok in S1 as (_ & C1 & T1).
  apply bind_Ok in Hx as (result_0 & ? & S & Hx). apply lift_Ok in S as [F1 ->].
  apply bind_Ok in Hx as (settings & ? & S & Hx). apply lift_Ok in S as [F2 ->].
  apply bind_Ok in Hx as (j1 & ? & S & Hx). apply get_dict_Ok in S as [-> ->].
  apply bind_Ok in Hx as (csrf & ? & S & Hx). apply lift_Ok in S as [F3 ->].
  apply bind_Ok in Hx as (tx & ? & S & Hx). apply lift_Ok in S as [F4 ->].
  apply bind_Ok in Hx as ([] & ? & S & Hx). apply sleep_Ok in S as ->.
  apply bind_Ok in Hx as (p2 & w2 & S2 & Hx). apply http_Ok in S2 as (_ & C2 & T2).
  apply bind_Ok in Hx as (j2 & ? & S & Hx). apply get_dict_Ok in S as [-> ->].
  apply bind_Ok in Hx as (p3 & w3 & S3 & Hx). apply http_Ok in S3 as (_ & C3 & T3).
  apply bind_Ok in Hx as ([] & ? & S & Hx).
  apply guard_Ok in S as [G ->];
    [|intros w0; unfold bind, session_close, raise; reflexivity].
  apply bind_Ok in Hx as (form & ? & S & Hx). apply lift_Ok in S as [F5 ->].
  apply bind_Ok in Hx as (url & ? & S & Hx). apply lift_Ok in S as [F6 ->].
  apply bind_Ok in Hx as (st & ? & S & Hx). apply lift_Ok in S as [F7 ->].
  apply bind_Ok in Hx as (ci & ? & S & Hx). apply lift_Ok in S as [F8 ->].
  apply bind_Ok in Hx as (cd & ? & S & Hx). apply lift_Ok in S as [F9 ->].
  apply bind_Ok in Hx as ([] & ? & S & Hx). apply sleep_Ok in S as ->.
  apply bind_Ok in Hx as (p4 & w4 & S4 & Hx). apply http_Ok in S4 as (_ & C4 & T4).
  apply bind_Ok in Hx as (j4 & ? & S & Hx). apply get_dict_Ok in S as [-> ->].
  apply bind_Ok in Hx as (p5 & w5 & S5 & Hx). apply http_Ok in S5 as (_ & C5 & T5).
  apply bind_Ok in Hx as (j5 & ? & S & Hx). apply get_dict_Ok in S as [-> ->].
  apply bind_Ok in Hx as ([] & ? & S & Hx). apply sleep_Ok in S as ->.
  apply bind_Ok in Hx as (p6 & w6 & S6 & Hx). apply http_Ok in S6 as (_ & C6 & T6).
  apply bind_Ok in Hx as ([] & ? & S & Hx). apply sleep_Ok in S as ->.
  apply bind_Ok in Hx as (p7 & w7 & S7 & Hx). apply http_Ok in S7 as (_ & C7 & T7).
  apply bind_Ok in Hx as (tj & ? & S & Hx). apply lift_Ok in S as [F10 ->].
  apply bind_Ok in Hx as (tok & ? & S & Hx). apply lift_Ok in S as [F11 ->].
  apply bind_Ok in Hx as (p8 & w8 & S8 & Hx). apply http_Ok in S8 as (_ & C8 & T8).
  apply bind_Ok in Hx as ([] & ? & S & Hx). apply close_Ok in S as ->.
  unfold ret in Hx. injection Hx as <- <-.
  simpl in *.
  exists {| answer_1 := (p1, w_jar w1); answer_2 := (p2, w_jar w2);
            answer_3 := (p3, w_jar w3); answer_4 := (p4, w_jar w4);
            answer_5 := (p5, w_jar w5); answer_6 := (p6, w_jar w6);
            answer_7 := (p7, w_jar w7); answer_8 := (p8, w_jar w8);
            x_csrf_token := csrf; transId := tx; login_url_ := url;
            state_ := st; client_info_ := ci; code_ := cd;
            file_download_token := tok |}.
  split; [reflexivity|]. split; [|split].
  - unfold tokens_extracted. simpl. repeat split.
    + eauto 6.
    + apply negb_false_iff, String.eqb_eq in G. exact G.
    + exists form. repeat split; try assumption.
      * now destruct (soup_find_form (content p3)); inversion F5.
      * now destruct (tag_attr form "action"); inversion F6.
    + eauto.
  - unfold exchange_events. simpl.
    rewrite T8, T7, T6, T5, T4, T3, T2, T1.
    repeat rewrite <- app_assoc. reflexivity.
  - congruence.
Qed.

(** ** From the last answer to the returned dict *)

Lemma process_rows_Raise rows st e :
  process_rows st rows = Raise e -> e = TypeError.
Proof.
  revert st. induction rows as [|row rows IH]; intros st; simpl; [discriminate|].
  rewrite process_row_reading.
  destruct (read_value (row !! "Read Value")) as [u|[]];
    destruct (reading_of_row row); try apply IH; congruence.
Qed.

(** A row whose value [float] rejects leaves the state of the loop as
    it is. *)
Lemma process_rows_skip rows1 row rows2 st :
  read_value (row !! "Read Value") = Raise ValueError ->
  process_rows st (rows1 ++ row :: rows2) = process_rows st (rows1 ++ rows2).
Proof.
  intros Hv. revert st. induction rows1 as [|r rows1 IH]; intros st; simpl.
  - unfold process_row. destruct st as [t rs]. now rewrite Hv.
  - destruct (process_row st r); [apply IH|reflexivity].
Qed.

(** How [process] ends on a body that decodes. *)
Lemma process_result r8 w csv :
  decode_utf8 (content r8) = Some csv ->
  fst (process r8 w) =
  if String.eqb (prefix 4 csv) "MPRN" then
    match csv_DictReader (split_lines csv) with
    | None => Raise (LibraryError "csv.Error")
    | Some rows =>
        match process_rows (0%float, []) (List.filter row_nonempty rows) with
        | Ok st => Ok {| total_usage := fst st; readings := snd st;
                         last_updated := now_isoformat (w_net w) |}
        | Raise e => Raise e
        end
    end
  else Raise (Exception "Invalid CSV format received").
Proof.
  intros Hd. unfold process, bind, lift, raise, ret, cache_result.
  rewrite Hd. destruct (String.eqb (prefix 4 csv) "MPRN"); simpl; [|reflexivity].
  destruct (csv_DictReader (split_lines csv)) as [rows|]; [|reflexivity].
  destruct (process_rows _ _) as [st|e]; [|reflexivity].
  now destruct (negb DEBUG_USE_CACHE).
Qed.

Lemma process_trace r8 w : w_trace (snd (process r8 w)) = w_trace w.
Proof.
  unfold process, bind, lift, raise, ret, cache_result.
  destruct (decode_utf8 (content r8)) as [csv|]; [|reflexivity].
  destruct (negb (String.eqb (prefix 4 csv) "MPRN")); [reflexivity|].
  destruct (csv_DictReader (split_lines csv)) as [rows|]; [|reflexivity].
  destruct (process_rows _ _) as [st|e]; [|reflexivity].
  now destruct (negb DEBUG_USE_CACHE).
Qed.

Lemma process_Ok r8 w res w' :
  process r8 w = (Ok res, w') ->
  exists csv rows,
    decode_utf8 (content r8) = Some csv /\
    prefix 4 csv = "MPRN" /\
    csv_DictReader (split_lines csv) = Some rows /\
    process_rows (0%float, []) (List.filter row_nonempty rows)
      = Ok (total_usage res, readings res) /\
    w_trace w' = w_trace w.
Proof.
  intros Hp.
  assert (Ht : w_trace w' = w_trace w)
    by (rewrite <- (process_trace r8 w); now rewrite Hp).
  destruct (decode_utf8 (content r8)) as [csv|] eqn:Hd.
  - pose proof (process_result r8 w csv Hd) as Hr. rewrite Hp in Hr.
    simpl in Hr. exists csv.
    destruct (String.eqb (prefix 4 csv) "MPRN") eqn:Hm; [|discriminate].
    destruct (csv_DictReader (split_lines csv)) as [rows|]; [|discriminate].
    exists rows. destruct (process_rows _ _) as [[t rs]|e]; [|discriminate].
    injection Hr as ->. apply String.eqb_eq in Hm. simpl. tauto.
  - unfold process, bind, lift in Hp. rewrite Hd in Hp. discriminate.
Qed.

(** ** Any exchange, up to the confirm request *)




Lemma http_trace rq w :
  w_trace (snd (http rq w)) =
  w_trace w ++
    [Http rq match fst (http rq w) with
             | Ok r => Some (r, w_jar (snd (http rq w)))
             | Raise _ => None
             end].
Proof. unfold http. now destruct (send _ _ _ _). Qed.






Lemma requests_sent_app t1 t2 :
  requests_sent (t1 ++ t2) = requests_sent t1 ++ requests_sent t2.
Proof. unfold requests_sent. apply flat_map_app. Qed.



(** ** The claims about the client *)

(** C4, as amended: a call that is not answered from the debug cache
    and succeeds has made exactly the eight requests, in the order
    initial page (GET), login (POST), login confirm (GET), completion
    of the authentication (POST), portal (GET), consumption page (GET),
    download token (GET) and data file (POST), each built from the
    values found in the earlier answers, and its ['readings'] has one
    entry, with ['date'], ['usage'] and ['type'], for each non-empty
    CSV row of the last answer whose value parses. *)
Theorem fresh_call_walks_eight_steps self w res w' :
  cache_hit w = false ->
  get_usage_data self w = (Ok res, w') ->
  eight_step_run self w res w'.
Proof.
  intros Hmiss Hrun. rewrite (get_usage_data_miss self w Hmiss) in Hrun.
  apply fetch_Ok in Hrun as (r8 & w1 & Hx & Hp).
  apply exchange_Ok in Hx as (l & H8 & Htok & Htr & _).
  apply process_Ok in Hp as (csv & rows & Hd & _ & Hrows & Hloop & Htr').
  apply process_rows_Ok in Hloop as [Hrs _]. simpl in Hrs.
  exists l, csv, rows.
  split; [now rewrite Htr', Htr|]. split; [exact Htok|].
  split; [reflexivity|]. split; [now rewrite H8|]. split; assumption.
Qed.

(** C8, as amended: a call that is not answered from the debug cache
    and succeeds returns a ['total_usage'] that is the sum, from 0 and
    in order, of the usages of its ['readings']; the readings are those
    of the rows whose value parses, and a row whose value [float]
    rejects changes neither. *)
Theorem fresh_total_is_sum_of_readings self w res w' :
  cache_hit w = false ->
  get_usage_data self w = (Ok res, w') ->
  total_usage res = fsum_from 0%float (map usage (readings res)) /\
  exists rows,
    process_rows (0%float, []) rows = Ok (total_usage res, readings res) /\
    readings res = omap reading_of_row rows /\
    forall rows1 row rows2,
      rows = rows1 ++ row :: rows2 ->
      read_value (row !! "Read Value") = Raise ValueError ->
      reading_of_row row = None /\
      process_rows (0%float, []) (rows1 ++ rows2)
        = Ok (total_usage res, readings res).
Proof.
  intros Hmiss Hrun. rewrite (get_usage_data_miss self w Hmiss) in Hrun.
  apply fetch_Ok in Hrun as (r8 & w1 & _ & Hp).
  apply process_Ok in Hp as (csv & rows & _ & _ & _ & Hloop & _).
  pose proof (process_rows_Ok _ _ _ Hloop) as [Hrs Ht]. simpl in Hrs, Ht.
  split; [now rewrite Hrs|].
  exists (List.filter row_nonempty rows).
  split; [exact Hloop|]. split; [exact Hrs|].
  intros rows1 row rows2 Hsplit Hv. split.
  - unfold reading_of_row. now rewrite Hv.
  - rewrite <- (process_rows_skip rows1 row rows2 _ Hv), <- Hsplit.
    exact Hloop.
Qed.



End WithExternals.

(** ** Runs against the scripted portal *)

Lemma demo_fresh_run :
  fst (@get_usage_data (demo_externals false) demo_self
         (@start (demo_externals false) 0%nat None)) = Ok demo_result.
Proof. vm_compute. reflexivity. Qed.

Lemma demo_cached_run :
  @get_usage_data (demo_externals true) demo_self
    (@start (demo_externals true) 0%nat (Some "cached"))
  = (Ok demo_cached, @start (demo_externals true) 0%nat (Some "cached")).
Proof. vm_compute. reflexivity. Qed.

(** C4 as stated fails: with the debug cache on and a cache file that
    loads, the call succeeds without a single request. *)
Lemma cached_call_sends_nothing :
  ~ @always_eight_steps (demo_externals true) demo_self
      (@start (demo_externals true) 0%nat (Some "cached")).
Proof.
  intros Hc. destruct (Hc _ _ demo_cached_run) as (l & _ & _ & Ht & _).
  discriminate Ht.
Qed.

(** C8 as stated fails: the dict of the cache file is returned as it
    is, here with a total of 5 and no reading. *)
Lemma cached_total_differs :
  ~ @total_matches_readings (demo_externals true) demo_self
      (@start (demo_externals true) 0%nat (Some "cached")).
Proof.
  intros Hc. specialize (Hc _ _ demo_cached_run).
  apply (f_equal (fun x => PrimFloat.eqb x 5%float)) in Hc.
  vm_compute in Hc. discriminate Hc.
Qed.

Lemma fresh_call_walks_eight_steps_witness :
  let E := demo_externals false in
  let w := @start E 0%nat None in
  let run := @get_usage_data E demo_self w in
  @cache_hit E w = false /\
  run = (Ok demo_result, snd run) /\
  @eight_step_run E demo_self w demo_result (snd run).
Proof.
  intros E w run.
  assert (Hc : @cache_hit E w = false) by reflexivity.
  assert (Hr : run = (Ok demo_result, snd run)).
  { rewrite <- demo_fresh_run. apply surjective_pairing. }
  split; [exact Hc|]. split; [exact Hr|].
  exact (@fresh_call_walks_eight_steps E demo_self w demo_result (snd run)
           Hc Hr).
Defined.

Lemma fresh_total_is_sum_of_readings_witness :
  let E := demo_externals false in
  let w := @start E 0%nat None in
  let run := @get_usage_data E demo_self w in
  @cache_hit E w = false /\
  run = (Ok demo_result, snd run) /\
  total_usage demo_result
    = fsum_from 0%float (map usage (readings demo_result)).
Proof.
  intros E w run.
  assert (Hc : @cache_hit E w = false) by reflexivity.
  assert (Hr : run = (Ok demo_result, snd run)).
  { rewrite <- demo_fresh_run. apply surjective_pairing. }
  split; [exact Hc|]. split; [exact Hr|].
  exact (proj1 (@fresh_total_is_sum_of_readings E demo_self w demo_result
                  (snd run) Hc Hr)).
Defined.



(** On the scripted portal the login POST and the confirm request are
    the second and third requests of the call. *)
Lemma demo_login_requests :
  let E := demo_externals false in
  let sent := requests_sent
                (w_trace (snd (@get_usage_data E demo_self
                                 (@start E 0%nat None)))) in
  sent !! 1%nat =
    Some (@request_2 E demo_self (VStr "tx-1") (VStr "csrf-1") (demo_jar 0)) /\
  sent !! 2%nat =
    Some (request_3 demo_self (VStr "tx-1") (VStr "csrf-1") (demo_jar 1)).
Proof. vm_compute. split; reflexivity. Qed.

End EsbApiProps.

(** * Properties of the config flow *)

Module ConfigFlowProps.
Import ConfigFlow.

(** The step with no input shows the form and leaves the flow as it
    is. *)
Lemma user_step_form st :
  async_step_user None st = (Ok (ShowForm "user" data_schema ∅), st).
Proof. reflexivity. Qed.

Lemma entry_lookup_after uid m st :
  async_entry_for_domain_unique_id m (snd (async_set_unique_id uid st))
  = async_entry_for_domain_unique_id m st.
Proof.
  unfold async_set_unique_id.
  now destruct (bool_decide (uid ∈ in_progress st)).
Qed.

(** What the step makes of submitted input, by what the input and the
    host hold. *)
Lemma user_step_cases user_input st :
  async_step_user (Some user_input) st =
  match user_input !! "mprn" with
  | None => (Raise (KeyError "mprn"), st)
  | Some m =>
      if bool_decide (m ∈ in_progress st)
      then (Raise (AbortFlow "already_in_progress"), st)
      else
        (if configured st m
         then Raise (AbortFlow "already_configured")
         else Ok (CreateEntry ("ESB " +:+ m) user_input),
         snd (async_set_unique_id m st))
  end.
Proof.
  unfold async_step_user, fbind, input_get at 1.
  destruct (user_input !! "mprn") as [m|] eqn:Hm; [|reflexivity].
  pose proof (entry_lookup_after m m st) as Hl. revert Hl.
  unfold async_set_unique_id.
  destruct (bool_decide (m ∈ in_progress st)); [reflexivity|].
  cbn [snd]. intros Hl.
  unfold _abort_if_unique_id_configured, configured.
  cbn [unique_id source]. rewrite Hl.
  destruct (async_entry_for_domain_unique_id m st) as [entry|].
  - destruct (String.eqb (entry_source entry) SOURCE_IGNORE
              && String.eqb (source st) SOURCE_USER); cbn [negb].
    + unfold input_get. now rewrite Hm.
    + reflexivity.
  - unfold input_get. now rewrite Hm.
Qed.

(** C5, as amended: the form of the user step asks for exactly the three
    required strings [mprn], [email] and [password].  On submitted
    input the step aborts with [already_in_progress], setting nothing,
    when another flow for the submitted mprn is in progress.
    Otherwise it sets the unique id of the flow to the submitted mprn,
    aborts with [already_configured], creating nothing, when an entry
    with that mprn is configured (one the user ignored does not count
    in a flow the user started), and creates the entry titled
    ['ESB <mprn>'] holding the submitted data when none is. *)
Theorem user_step_collects_and_checks st user_input m :
  user_input !! "mprn" = Some m ->
  async_step_user None st =
    (Ok (ShowForm "user"
           [ Required "mprn" Str; Required "email" Str;
             Required "password" Str ] ∅), st) /\
  (m ∈ in_progress st ->
   async_step_user (Some user_input) st
     = (Raise (AbortFlow "already_in_progress"), st)) /\
  (m ∉ in_progress st ->
   unique_id (snd (async_step_user (Some user_input) st)) = Some m /\
   (configured st m = true ->
    fst (async_step_user (Some user_input) st)
      = Raise (AbortFlow "already_configured")) /\
   (configured st m = false ->
    fst (async_step_user (Some user_input) st)
      = Ok (CreateEntry ("ESB " +:+ m) user_input))).
Proof.
  intros Hm. split; [apply user_step_form|].
  rewrite user_step_cases, Hm. split.
  - intros Hp. now rewrite bool_decide_eq_true_2 by exact Hp.
  - intros Hp. rewrite bool_decide_eq_false_2 by exact Hp. cbn [fst snd].
    split; [|split; now intros ->].
    unfold async_set_unique_id.
    now rewrite bool_decide_eq_false_2 by exact Hp.
Qed.

Lemma user_step_collects_and_checks_witness :
  demo_input !! "mprn" = Some "100" /\
  ("100" ∉ in_progress demo_flow) /\
  configured demo_flow "100" = false /\
  unique_id (snd (async_step_user (Some demo_input) demo_flow)) = Some "100" /\
  fst (async_step_user (Some demo_input) demo_flow)
    = Ok (CreateEntry "ESB 100" demo_input).
Proof.
  assert (Hm : demo_input !! "mprn" = Some "100") by (vm_compute; reflexivity).
  assert (Hp : "100" ∉ in_progress demo_flow)
    by (simpl; apply not_elem_of_nil).
  assert (Hc : configured demo_flow "100" = false) by reflexivity.
  split; [exact Hm|]. split; [exact Hp|]. split; [exact Hc|].
  destruct (user_step_collects_and_checks demo_flow demo_input "100" Hm)
    as (_ & _ & Hrun).
  destruct (Hrun Hp) as (Hu & _ & Hcreate).
  split; [exact Hu|]. exact (Hcreate Hc).
Defined.

(** With another flow for the meter in progress the step neither sets
    the unique id nor creates the entry, although no entry with that
    mprn is configured: the check as the specification words it does
    not hold. *)
Lemma uniqueness_check_fails : ~ validates_uniqueness demo_flow_busy demo_input.
Proof.
  intros Hv.
  assert (Hm : demo_input !! "mprn" = Some "100") by (vm_compute; reflexivity).
  destruct (Hv "100" Hm) as (Hu & _).
  vm_compute in Hu. discriminate Hu.
Qed.

(** With an entry for the meter already configured the step aborts;
    with one the user ignored, a user flow creates the entry. *)
Lemma demo_already_configured :
  fst (async_step_user (Some demo_input) demo_flow_configured)
  = Raise (AbortFlow "already_configured").
Proof. vm_compute. reflexivity. Qed.

Lemma demo_ignored_entry :
  fst (async_step_user (Some demo_input) demo_flow_ignored)
  = Ok (CreateEntry "ESB 100" demo_input).
Proof. vm_compute. reflexivity. Qed.

End ConfigFlowProps.

(** * More on the importer *)

Module SensorMore.
Import Sensor SensorRuns.

Lemma sorted_last_is_max l x :
  StronglySorted not_after l -> last l = Some x ->
  forall t, In t l -> instant t <= instant x.
Proof.
  induction l as [|a l IH]; simpl; [discriminate|].
  intros Hs Hl t Ht. apply StronglySorted_cons in Hs as [Hall Hs].
  destruct l as [|b l].
  - injection Hl as <-. destruct Ht as [->|[]]. lia.
  - assert (Hlx : last (b :: l) = Some x) by exact Hl.
    destruct Ht as [->|Ht]; [|now apply IH].
    rewrite Forall_forall in Hall.
    assert (Hx : In x (b :: l)).
    { apply list_elem_of_In. apply last_Some in Hlx as [l' ->].
      apply list_elem_of_In, in_or_app. right. now left. }
    apply Hall, list_elem_of_In. exact Hx.
Qed.

Section WithHost.

Context `{Host}.

Lemma last_time_and_sum_of_row mprn row :
  last_stat_of mprn = Some row ->
  last_time_and_sum (last_stats_of mprn) (statistic_id_of mprn) =
  let last_sum := default (PyFloat 0%float) (row_sum row) in
  Ok (if py_eq_zero last_sum then None
      else Some (astimezone (row_start row)), last_sum).
Proof.
  unfold last_stat_of, last_time_and_sum.
  destruct (last_stats_of mprn !! statistic_id_of mprn) as [[|row' rows]|];
    try discriminate.
  intros [= ->]. simpl.
  now destruct (py_eq_zero (default (PyFloat 0%float) (row_sum row))).
Qed.

(** A key of the dict is the key of one of the readings. *)
Lemma bucket_key_from_reading rs t :
  In t (hr_keys (fst (bucket_readings rs))) ->
  exists r, In r rs /\ reading_time r = Some t.
Proof.
  induction rs as [|r rs IH] using rev_ind; [intros []|].
  rewrite SensorProps.bucket_readings_snoc.
  destruct (bucket_readings rs) as [h n]. simpl in IH.
  unfold bucket_reading.
  destruct (reading_time r) as [t0|] eqn:Er; simpl.
  - destruct (hr_lookup t0 h) as [v|] eqn:El; simpl.
    + rewrite (SensorProps.hr_keys_set_present _ _ v) by exact El.
      intros Ht. destruct (IH Ht) as (r' & Hin & Hr').
      exists r'. split; [apply in_or_app; now left|exact Hr'].
    + rewrite SensorProps.hr_keys_set_absent by exact El.
      intros Ht. apply in_app_or in Ht as [Ht|[<-|[]]].
      * destruct (IH Ht) as (r' & Hin & Hr').
        exists r'. split; [apply in_or_app; now left|exact Hr'].
      * exists r. split; [apply in_or_app; right; now left|exact Er].
  - intros Ht. destruct (IH Ht) as (r' & Hin & Hr').
    exists r'. split; [apply in_or_app; now left|exact Hr'].
Qed.

(** Every reading that is filed has its hour among the keys. *)
Lemma reading_has_key rs r t :
  In r rs -> reading_time r = Some t ->
  exists t', In t' (hr_keys (fst (bucket_readings rs))) /\
             instant t' = instant t.
Proof.
  intros Hin Hr.
  assert (Ha : assigned_to t r = true).
  { unfold assigned_to. rewrite Hr. unfold aware_eqb. apply Z.eqb_refl. }
  pose proof (SensorProps.assigned_nonempty _ _ _ Hin Ha) as Hne.
  pose proof (SensorProps.bucket_lookup rs t) as Hb.
  destruct (usages_of_hour rs t); [congruence|].
  now apply SensorProps.hr_lookup_Some_key in Hb.
Qed.

Lemma in_sorted l t : In t (sorted l) <-> In t l.
Proof.
  rewrite <- !list_elem_of_In. now rewrite (SensorProps.sorted_perm l).
Qed.

Lemma unparseable_no_buckets rs :
  (forall r, In r rs -> parseable r = false) ->
  fst (bucket_readings rs) = [].
Proof.
  intros Hall. rewrite SensorProps.bucket_readings_parseable.
  assert (Hf : List.filter parseable rs = []).
  { induction rs as [|r rs IH]; [reflexivity|]. simpl.
    rewrite (Hall r (or_introl eq_refl)). apply IH.
    intros r' Hr'. apply Hall. now right. }
  now rewrite Hf.
Qed.

Lemma no_write_without_new mprn data :
  emitted mprn data = [] ->
  fst (_async_import_statistics mprn data) =
    [GetLastStatistics 1 (statistic_id_of mprn) true stat_types].
Proof.
  unfold emitted, _async_import_statistics.
  destruct (last_time_and_sum _ _) as [[lt ls]|e]; [|reflexivity].
  destruct (bucket_readings (readings data)) as [h n].
  destruct (statistics_loop _ _ _ _ _ _) as [[[|s l] sk]|e]; simpl;
    [reflexivity| |reflexivity].
  rewrite app_nil_r. discriminate.
Qed.

Lemma write_is_of_emitted mprn data md stats :
  In (AddExternalStatistics md stats)
     (fst (_async_import_statistics mprn data)) ->
  md = metadata_of mprn /\ stats = emitted mprn data.
Proof.
  unfold emitted, _async_import_statistics.
  destruct (last_time_and_sum _ _) as [[lt ls]|e];
    [|intros [E|[]]; discriminate].
  destruct (bucket_readings (readings data)) as [h n].
  destruct (statistics_loop _ _ _ _ _ _) as [[[|s l] sk]|e]; simpl;
    try (intros [E|[]]; discriminate).
  rewrite app_nil_r. intros [E|[E|[]]]; [discriminate|].
  now injection E as <- <-.
Qed.

(** Readings none of which has a usable date: the run makes the query,
    writes nothing and succeeds, whatever the recorder holds. *)
Theorem unparseable_input_writes_nothing mprn data :
  (forall r, In r (readings data) -> parseable r = false) ->
  last_stats_of mprn !! statistic_id_of mprn <> Some [] ->
  _async_import_statistics mprn data =
    ([GetLastStatistics 1 (statistic_id_of mprn) true stat_types], Ok tt).
Proof.
  intros Hall Hrows. pose proof (unparseable_no_buckets _ Hall) as Hb.
  unfold _async_import_statistics. fold (last_stats_of mprn).
  unfold last_time_and_sum.
  destruct (last_stats_of mprn !! statistic_id_of mprn) as [[|row rows]|];
    [congruence| |];
    destruct (bucket_readings (readings data)) as [h n]; simpl in Hb;
    subst h.
  - now destruct (py_eq_zero (default (PyFloat 0%float) (row_sum row))).
  - reflexivity.
Qed.

(** A stored last statistic whose sum is [None]: nothing is ever
    written; the run raises a [TypeError] exactly when some reading
    falls in an hour after that statistic, and succeeds otherwise. *)
Theorem none_sum_fails_on_new_hours mprn data row :
  last_stat_of mprn = Some row ->
  row_sum row = Some PyNone ->
  emitted mprn data = [] /\
  (snd (_async_import_statistics mprn data) = Raise TypeError <->
   exists r t, In r (readings data) /\ reading_time r = Some t /\
               row_start row < instant t) /\
  (snd (_async_import_statistics mprn data) = Ok tt <->
   forall r t, In r (readings data) -> reading_time r = Some t ->
               instant t <= row_start row).
Proof.
  intros Hrow Hsum.
  pose proof (last_time_and_sum_of_row mprn row Hrow) as Hl.
  rewrite Hsum in Hl. simpl in Hl.
  split; [now rewrite SensorProps.emitted_eq, Hl|].
  rewrite SensorProps.import_result, Hl.
  set (h := fst (bucket_readings (readings data))).
  set (lt := Some (astimezone (row_start row))).
  assert (Hkept : forall t, In t (kept lt (sorted (hr_keys h))) <->
                    In t (hr_keys h) /\ row_start row < instant t).
  { intros t. unfold kept. rewrite List.filter_In, in_sorted.
    unfold lt, already_have, aware_leb, astimezone. simpl.
    rewrite negb_true_iff, Z.leb_gt. tauto. }
  assert (Hnew : kept lt (sorted (hr_keys h)) <> [] <->
                 exists r t, In r (readings data) /\ reading_time r = Some t /\
                             row_start row < instant t).
  { split.
    - destruct (kept lt (sorted (hr_keys h))) as [|t l] eqn:Ek; [congruence|].
      intros _. assert (Ht : In t (t :: l)) by now left.
      apply Hkept in Ht as [Ht Hlt].
      apply bucket_key_from_reading in Ht as (r & Hin & Hr). eauto.
    - intros (r & t & Hin & Hr & Hlt).
      destruct (reading_has_key _ _ _ Hin Hr) as (t' & Hk & Ht').
      assert (Hin' : In t' (kept lt (sorted (hr_keys h))))
        by (apply Hkept; split; [exact Hk|lia]).
      intros E. rewrite E in Hin'. destruct Hin'. }
  split.
  - rewrite <- Hnew. destruct (kept lt (sorted (hr_keys h))); split;
      congruence.
  - split.
    + intros Hok r t Hin Hr.
      destruct (Z.le_gt_cases (instant t) (row_start row)) as [Hle|Hgt];
        [exact Hle|].
      assert (Hn : kept lt (sorted (hr_keys h)) <> [])
        by (apply Hnew; exists r, t; repeat split; [assumption..|lia]).
      destruct (kept lt (sorted (hr_keys h))); congruence.
    + intros Hall.
      destruct (kept lt (sorted (hr_keys h))) as [|t l] eqn:Ek; [reflexivity|].
      assert (Hn : t :: l <> []) by discriminate.
      apply Hnew in Hn as (r & t0 & Hin & Hr & Hlt).
      specialize (Hall r t0 Hin Hr). lia.
Qed.

Lemma running_length c h keys : length (running c h keys) = length keys.
Proof.
  revert c. induction keys as [|t keys IH]; intros c; simpl; [reflexivity|].
  now rewrite IH.
Qed.

Lemma reading_time_inv r t :
  reading_time r = Some t ->
  exists str d,
    date r = Some str /\ str <> "" /\ strptime str = Some d /\
    t = localize (replace_top_of_hour d).
Proof.
  unfold reading_time. destruct (date r) as [str|]; simpl; [|discriminate].
  destruct str as [|c str]; simpl; [discriminate|].
  destruct (strptime (String c str)) as [d|] eqn:Hp; [|discriminate].
  intros [= <-]. exists (String c str), d.
  split; [reflexivity|]. split; [discriminate|]. split; [exact Hp|reflexivity].
Qed.

(** An emitted statistic starts at the localized top of the hour of a
    reading of the data: no hour is made up. *)
Theorem emitted_hours_come_from_readings mprn data s :
  In s (emitted mprn data) ->
  exists r str d,
    In r (readings data) /\ date r = Some str /\ str <> "" /\
    strptime str = Some d /\
    st_start s = localize (replace_top_of_hour d).
Proof.
  destruct (SensorProps.emitted_cases mprn data) as [->|(lt & c & _ & ->)];
    [intros []|].
  intros Hs. apply SensorProps.running_state in Hs as [Hin _].
  apply List.filter_In in Hin as [Hin _].
  apply (proj1 (in_sorted _ _)) in Hin.
  apply bucket_key_from_reading in Hin as (r & Hr & Ht).
  apply reading_time_inv in Ht as (str & d & Hd & Hne & Hp & Ht).
  exists r, str, d. tauto.
Qed.

Lemma parse_errors_count rs :
  (snd (bucket_readings rs) + length (List.filter parseable rs))%nat
  = length rs.
Proof.
  induction rs as [|r rs IH] using rev_ind; [reflexivity|].
  rewrite SensorProps.bucket_readings_snoc, List.filter_app, !length_app.
  simpl. rewrite SensorProps.reading_time_parseable.
  destruct (bucket_readings rs) as [h n]. simpl in IH.
  unfold bucket_reading.
  destruct (reading_time r) as [t|]; simpl; [|lia].
  destruct (hr_lookup t h); simpl; lia.
Qed.

(** The counters of the summary line add up: every reading is either
    filed or counted as a parse error, and every hour of the dict is
    either new or skipped. *)
Theorem summary_counters_add_up rs lt c stats skipped :
  statistics_loop lt (fst (bucket_readings rs))
    (sorted (hr_keys (fst (bucket_readings rs)))) [] c 0%nat
    = Ok (stats, skipped) ->
  (snd (bucket_readings rs) + length (List.filter parseable rs))%nat
    = length rs /\
  (length stats + skipped)%nat = length (fst (bucket_readings rs)).
Proof.
  intros Hloop. split; [apply parse_errors_count|].
  set (h := fst (bucket_readings rs)) in *.
  assert (Hk : forall t, In t (sorted (hr_keys h)) -> is_Some (hr_lookup t h)).
  { intros t Ht. apply SensorProps.hr_lookup_key. now apply in_sorted. }
  assert (Hlen : length (sorted (hr_keys h)) = length h).
  { rewrite (Permutation_length (SensorProps.sorted_perm _)).
    unfold hr_keys. apply length_map. }
  pose proof (List.filter_length (already_have lt) (sorted (hr_keys h))) as Hf.
  fold (kept lt (sorted (hr_keys h))) in Hf.
  destruct c as [|c].
  - rewrite SensorProps.statistics_loop_none in Hloop by exact Hk.
    destruct (kept lt (sorted (hr_keys h))); [|discriminate].
    injection Hloop as <- <-. simpl in *. lia.
  - rewrite SensorProps.statistics_loop_float in Hloop by exact Hk.
    injection Hloop as <- <-. simpl. rewrite running_length. lia.
Qed.

End WithHost.

Lemma reading_time_same_parser (H1 H2 : Host) r :
  @strptime H1 = @strptime H2 -> @tz_instant H1 = @tz_instant H2 ->
  @reading_time H1 r = @reading_time H2 r.
Proof. intros Hs Ht. unfold reading_time, localize. now rewrite Hs, Ht. Qed.

Lemma bucket_readings_same_parser (H1 H2 : Host) rs :
  @strptime H1 = @strptime H2 -> @tz_instant H1 = @tz_instant H2 ->
  @bucket_readings H1 rs = @bucket_readings H2 rs.
Proof.
  intros Hs Ht. unfold bucket_readings. generalize (@nil (aware * float), 0%nat).
  induction rs as [|r rs IH]; intros st; simpl; [reflexivity|].
  rewrite IH. f_equal. unfold bucket_reading.
  now rewrite (reading_time_same_parser H1 H2 r Hs Ht).
Qed.

(** Importing the same data again, once the recorder holds the last
    statistic of the first run and its sum is not [0], writes nothing:
    every hour of the data is skipped. *)
Theorem reimport_writes_nothing (H1 H2 : Host) mprn data s :
  @strptime H1 = @strptime H2 -> @tz_instant H1 = @tz_instant H2 ->
  last (@emitted H1 mprn data) = Some s ->
  @last_stat_of H2 mprn =
    Some {| row_start := instant (st_start s);
            row_sum := Some (PyFloat (st_sum s)) |} ->
  PrimFloat.eqb (st_sum s) 0%float = false ->
  @_async_import_statistics H2 mprn data =
    ([GetLastStatistics 1 (@statistic_id_of H2 mprn) true stat_types], Ok tt).
Proof.
  intros Hs Ht Hlast Hrow Hnz.
  set (h := fst (@bucket_readings H1 (readings data))).
  (* every hour of the data is at or before the last emitted one *)
  assert (Hmax : forall t, In t (sorted (hr_keys h)) ->
                   instant t <= instant (st_start s)).
  { destruct (@SensorProps.emitted_cases H1 mprn data)
      as [E|(lt & c & _ & E)]; [rewrite E in Hlast; discriminate|].
    fold h in E. rewrite E in Hlast.
    assert (Hl : last (kept lt (sorted (hr_keys h))) = Some (st_start s)).
    { rewrite <- (SensorProps.running_starts c h
                    (kept lt (sorted (hr_keys h)))).
      change (map st_start) with (fmap (M := list) st_start).
      now rewrite fmap_last, Hlast. }
    assert (Hin : In (st_start s) (kept lt (sorted (hr_keys h)))).
    { apply last_Some in Hl as [l' ->]. apply in_or_app. right. now left. }
    intros t Hk. destruct (already_have lt t) eqn:Ha.
    - apply List.filter_In in Hin as [_ Hkeep].
      unfold already_have, aware_leb in *. destruct lt as [l|]; [|discriminate].
      apply negb_true_iff, Z.leb_gt in Hkeep. apply Z.leb_le in Ha. lia.
    - apply (sorted_last_is_max (kept lt (sorted (hr_keys h)))).
      + apply SensorProps.filter_sorted, SensorProps.sorted_sorted.
      + exact Hl.
      + apply List.filter_In. split; [exact Hk|now rewrite Ha]. }
  pose proof (@last_time_and_sum_of_row H2 mprn _ Hrow) as Hl.
  simpl in Hl. rewrite Hnz in Hl.
  assert (Hh : fst (@bucket_readings H2 (readings data)) = h)
    by (unfold h; now rewrite (bucket_readings_same_parser H1 H2 _ Hs Ht)).
  assert (Hkept : kept (Some (@astimezone H2 (instant (st_start s))))
                    (sorted (hr_keys h)) = []).
  { unfold kept. induction (sorted (hr_keys h)) as [|t l IH]; [reflexivity|].
    simpl. unfold aware_leb at 1. simpl.
    rewrite (proj2 (Z.leb_le _ _) (Hmax t (or_introl eq_refl))). simpl.
    apply IH. intros t' Ht'. apply Hmax. now right. }
  assert (He : @emitted H2 mprn data = []).
  { rewrite SensorProps.emitted_eq, Hl. simpl. now rewrite Hh, Hkept. }
  rewrite (surjective_pairing (@_async_import_statistics H2 mprn data)).
  f_equal.
  - now apply (@no_write_without_new H2).
  - now rewrite SensorProps.import_result, Hl.
Qed.

(** ** The further properties on the example data *)

Lemma unparseable_input_writes_nothing_witness :
  @_async_import_statistics demo_host "100" demo_data_unparseable =
    ([GetLastStatistics 1 (@statistic_id_of demo_host "100") true stat_types],
     Ok tt).
Proof.
  apply (@unparseable_input_writes_nothing demo_host "100"
           demo_data_unparseable).
  - intros r [<-|[<-|[]]]; reflexivity.
  - vm_compute. discriminate.
Defined.

Lemma none_sum_fails_on_new_hours_witness :
  let row := mkStatRow demo_midnight (Some PyNone) in
  @last_stat_of demo_host_none "100" = Some row /\
  row_sum row = Some PyNone /\
  @emitted demo_host_none "100" demo_data = [].
Proof.
  intros row.
  assert (Hrow : @last_stat_of demo_host_none "100" = Some row)
    by (vm_compute; reflexivity).
  assert (Hsum : row_sum row = Some PyNone) by reflexivity.
  split; [exact Hrow|]. split; [exact Hsum|].
  exact (proj1 (@none_sum_fails_on_new_hours demo_host_none "100" demo_data
                  row Hrow Hsum)).
Defined.

Lemma emitted_hours_come_from_readings_witness :
  let s := {| st_start := demo_01h; st_sum := 15.75%float;
              st_state := 1.25%float |} in
  In s (@emitted demo_host "100" demo_data) /\
  exists r str d,
    In r (readings demo_data) /\ date r = Some str /\ str <> "" /\
    @strptime demo_host str = Some d /\
    st_start s = @localize demo_host (replace_top_of_hour d).
Proof.
  intros s.
  assert (Hs : In s (@emitted demo_host "100" demo_data))
    by (vm_compute; right; left; reflexivity).
  split; [exact Hs|].
  exact (@emitted_hours_come_from_readings demo_host "100" demo_data s Hs).
Defined.

Lemma summary_counters_add_up_witness :
  let h := fst (@bucket_readings demo_host demo_readings) in
  @statistics_loop (Some demo_23h) h (sorted (hr_keys h)) []
     (PyFloat 10%float) 0%nat = Ok (demo_statistics, 1%nat) /\
  (snd (@bucket_readings demo_host demo_readings)
   + length (List.filter (@parseable demo_host) demo_readings))%nat
    = length demo_readings /\
  (length demo_statistics + 1)%nat = length h.
Proof.
  intros h.
  assert (Hl : @statistics_loop (Some demo_23h) h (sorted (hr_keys h)) []
                 (PyFloat 10%float) 0%nat = Ok (demo_statistics, 1%nat))
    by (vm_compute; reflexivity).
  split; [exact Hl|].
  exact (@summary_counters_add_up demo_host demo_readings (Some demo_23h)
           (PyFloat 10%float) demo_statistics 1%nat Hl).
Defined.

Lemma reimport_writes_nothing_witness :
  let s := {| st_start := demo_01h; st_sum := 15.75%float;
              st_state := 1.25%float |} in
  last (@emitted demo_host "100" demo_data) = Some s /\
  @_async_import_statistics demo_host_after "100" demo_data =
    ([GetLastStatistics 1 (@statistic_id_of demo_host_after "100") true
        stat_types], Ok tt).
Proof.
  intros s.
  assert (Hlast : last (@emitted demo_host "100" demo_data) = Some s)
    by (vm_compute; reflexivity).
  split; [exact Hlast|].
  apply (reimport_writes_nothing demo_host demo_host_after "100" demo_data s).
  - reflexivity.
  - reflexivity.
  - exact Hlast.
  - vm_compute. reflexivity.
  - vm_compute. reflexivity.
Defined.

End SensorMore.

(** * More on the scraping client *)

Module EsbApiMore.
Import EsbApi EsbApiRuns.

(** ** Traces in which the session is closed last *)

Lemma closes_last_no_close evs : ~ In Closed evs -> closes_last evs.
Proof.
  intros Hn pre post ->. exfalso. apply Hn, in_or_app. right. now left.
Qed.

Lemma split_after_prefix (e1 e2 pre post : list event) :
  e1 ++ e2 = pre ++ Closed :: post -> ~ In Closed e1 ->
  exists pre2, e2 = pre2 ++ Closed :: post.
Proof.
  revert pre. induction e1 as [|a e1 IH]; intros pre E Hn; simpl in E.
  - now exists pre.
  - destruct pre as [|b pre]; simpl in E; injection E as -> E.
    + exfalso. apply Hn. now left.
    + apply (IH pre E). intros Hin. apply Hn. now right.
Qed.

Lemma closes_last_app e1 e2 :
  ~ In Closed e1 -> closes_last e2 -> closes_last (e1 ++ e2).
Proof.
  intros Hn Hc pre post E.
  destruct (split_after_prefix _ _ _ _ E Hn) as [pre2 E2].
  exact (Hc pre2 post E2).
Qed.

Lemma closes_last_snoc evs : closes_last evs -> closes_last (evs ++ [Closed]).
Proof.
  intros Hc pre post. induction post as [|x post _] using rev_ind;
    intros E; [reflexivity|].
  change (pre ++ Closed :: post ++ [x]) with (pre ++ (Closed :: post) ++ [x])
    in E.
  rewrite app_assoc in E. apply app_inj_tail in E as [E <-].
  rewrite EsbApiProps.requests_sent_app, (Hc pre post E). reflexivity.
Qed.

Section WithExternals.

Context `{Externals}.

Lemma added_app w w' evs :
  w_trace w' = w_trace w ++ evs -> added w w' = evs.
Proof. unfold added. intros ->. apply drop_app_length. Qed.

(** ** The order of requests and close *)

Lemma tidy_pure {A} (f : world -> result A) : tidy (fun w => (f w, w)).
Proof.
  intros w. exists []. rewrite app_nil_r. repeat split.
  - now apply closes_last_no_close.
  - intros _ [].
Qed.

Lemma tidy_http rq : tidy (http rq).
Proof.
  intros w. eexists. split; [apply EsbApiProps.http_trace|].
  assert (Hn : forall a, ~ In Closed [Http rq a])
    by (intros a [E|[]]; discriminate).
  split; [now apply closes_last_no_close|intros _; apply Hn].
Qed.

Lemma tidy_sleep lo hi : tidy (sleep_randint lo hi).
Proof.
  intros w. exists [Slept lo hi]. split; [reflexivity|].
  assert (Hn : ~ In Closed [Slept lo hi]) by (intros [E|[]]; discriminate).
  split; [now apply closes_last_no_close|now intros _].
Qed.

Lemma tidy_guard (b : bool) e :
  tidy (if b then bind session_close (fun _ => raise e) else ret tt).
Proof.
  destruct b; [|apply tidy_pure].
  intros w. exists [Closed]. split; [reflexivity|]. split; [|discriminate].
  intros pre post E. destruct pre as [|x [|y pre]]; simpl in E.
  - now injection E as <-.
  - discriminate.
  - discriminate.
Qed.

Lemma orderly_bind {A B} (m : M A) (k : A -> M B) :
  tidy m -> (forall a, orderly (k a)) -> orderly (bind m k).
Proof.
  intros Hm Hk w. unfold bind. destruct (Hm w) as (e1 & E1 & C1 & N1).
  destruct (m w) as [[a|e] w1]; simpl in *.
  - destruct (Hk a w1) as (e2 & E2 & C2). exists (e1 ++ e2).
    split; [now rewrite E2, E1, app_assoc|].
    apply closes_last_app; [now apply N1|exact C2].
  - now exists e1.
Qed.

Lemma orderly_close_ret {A} (a : A) :
  orderly (bind session_close (fun _ => ret a)).
Proof.
  intros w. exists [Closed]. split; [reflexivity|].
  intros pre post E. destruct pre as [|x [|y pre]]; simpl in E.
  - now injection E as <-.
  - discriminate.
  - discriminate.
Qed.

Ltac orderly_chain :=
  repeat first
    [ apply orderly_close_ret
    | apply orderly_bind;
      [ first [ apply tidy_http | apply tidy_sleep | apply tidy_guard
              | apply tidy_pure ]
      | intros ]
    | progress cbv zeta ].

Lemma exchange_orderly self : orderly (exchange self).
Proof. unfold exchange. orderly_chain. Qed.

(** How the events of [fetch] extend those of the exchange. *)
Lemma fetch_events self w :
  w_trace (snd (fetch self w)) =
  w_trace (snd (exchange self (session_world self w)))
  ++ (if is_ok (fst (fetch self w)) then [] else [Closed]).
Proof.
  unfold fetch, bind at 1, new_session at 1, handlers, bind, session_world,
    new_session. simpl.
  destruct (exchange self _) as [[r8|e] w1]; simpl.
  - pose proof (EsbApiProps.process_trace r8 w1) as Hp.
    destruct (process r8 w1) as [[res|e] w2]; simpl in *.
    + now rewrite app_nil_r.
    + destruct e; simpl; now rewrite Hp.
  - now destruct e.
Qed.

Lemma hit_unchanged self w :
  cache_hit w = true -> snd (get_usage_data self w) = w.
Proof.
  unfold cache_hit, get_usage_data, bind, read_cache.
  destruct DEBUG_USE_CACHE; [|discriminate]. simpl.
  destruct (w_cache w) as [file|]; [|discriminate].
  now destruct (load_cache file).
Qed.

(** The events of a call, from those of its exchange. *)
Lemma events_of_call self w :
  events_of self w =
  if cache_hit w then []
  else added (session_world self w)
             (snd (exchange self (session_world self w)))
       ++ (if is_ok (fst (get_usage_data self w)) then [] else [Closed]).
Proof.
  unfold events_of. destruct (cache_hit w) eqn:Hc.
  - rewrite (hit_unchanged self w Hc). apply added_app. now rewrite app_nil_r.
  - rewrite (EsbApiProps.get_usage_data_miss self w Hc).
    destruct (exchange_orderly self (session_world self w)) as (evs & E & _).
    rewrite (added_app _ _ _ E). apply added_app.
    rewrite fetch_events, E. unfold session_world, new_session. simpl.
    now rewrite app_assoc.
Qed.

(** Whatever happens during a call, no request is made once the
    session has been closed. *)
Theorem no_request_after_close self w : closes_last (events_of self w).
Proof.
  rewrite events_of_call. destruct (cache_hit w).
  - now apply closes_last_no_close.
  - destruct (exchange_orderly self (session_world self w)) as (evs & E & C).
    rewrite (added_app _ _ _ E).
    destruct (is_ok _); [now rewrite app_nil_r|now apply closes_last_snoc].
Qed.

(** A call that is not answered from the debug cache always ends by
    closing the session, whether it returns or raises. *)
Theorem fresh_call_closes_session self w :
  cache_hit w = false ->
  exists evs, events_of self w = evs ++ [Closed].
Proof.
  intros Hc. rewrite events_of_call, Hc.
  destruct (is_ok (fst (get_usage_data self w))) eqn:Hok; [|eauto].
  rewrite app_nil_r.
  rewrite (EsbApiProps.get_usage_data_miss self w Hc) in Hok.
  destruct (fetch self w) as [[res|e] w'] eqn:Hf; [|discriminate].
  apply EsbApiProps.fetch_Ok in Hf as (r8 & w1 & Hx & _).
  rewrite Hx. simpl.
  apply EsbApiProps.exchange_Ok in Hx as (l & _ & _ & Ht & _).
  rewrite (added_app _ _ _ Ht).
  apply last_Some. reflexivity.
Qed.

(** ** The methods of the requests *)

Lemma methods_app e1 e2 : methods (e1 ++ e2) = methods e1 ++ methods e2.
Proof.
  unfold methods. now rewrite EsbApiProps.requests_sent_app, map_app.
Qed.

Lemma sends_pure {A} (f : world -> result A) : sends [] (fun w => (f w, w)).
Proof.
  intros w. exists []. rewrite app_nil_r. repeat split. reflexivity.
Qed.

Lemma sends_log {A} (r : result A) e :
  methods [e] = [] -> sends [] (fun w => (r, log e w)).
Proof.
  intros He w. exists [e]. split; [reflexivity|]. rewrite He.
  split; [reflexivity|intros _; reflexivity].
Qed.

Lemma sends_http rq mth : rq_method rq = mth -> sends [mth] (http rq).
Proof.
  intros <- w. eexists. split; [apply EsbApiProps.http_trace|].
  split; [reflexivity|intros _; reflexivity].
Qed.

Lemma sends_guard (b : bool) e :
  sends [] (if b then bind session_close (fun _ => raise e) else ret tt).
Proof.
  destruct b; [|apply sends_pure].
  intros w. exists [Closed]. split; [reflexivity|].
  split; [reflexivity|discriminate].
Qed.

Lemma sends_bind {A B} ms1 ms2 (m : M A) (k : A -> M B) :
  sends ms1 m -> (forall a, sends ms2 (k a)) -> sends (ms1 ++ ms2) (bind m k).
Proof.
  intros Hm Hk w. unfold bind. destruct (Hm w) as (e1 & E1 & P1 & O1).
  destruct (m w) as [[a|e] w1]; simpl in *.
  - destruct (Hk a w1) as (e2 & E2 & P2 & O2). exists (e1 ++ e2).
    split; [now rewrite E2, E1, app_assoc|].
    rewrite methods_app, (O1 eq_refl). split.
    + now apply prefix_app.
    + intros Hok. now rewrite (O2 Hok).
  - exists e1. split; [exact E1|]. split; [|discriminate].
    now apply prefix_app_r.
Qed.

Ltac sends_chain :=
  repeat first
    [ eapply sends_bind; [|intros]
    | apply sends_http; lazy; reflexivity
    | apply sends_guard
    | apply sends_log; reflexivity
    | apply sends_pure
    | progress cbv zeta ].

Lemma exchange_sends self : sends exchange_methods (exchange self).
Proof.
  assert (Hs : exists ms, sends ms (exchange self) /\ ms = exchange_methods).
  { eexists. split; [unfold exchange; sends_chain|]. reflexivity. }
  now destruct Hs as (ms & Hs & <-).
Qed.

(** Whatever happens during a call, its requests are the first ones of
    the sequence GET, POST, GET, POST, GET, GET, GET, POST, so there
    are never more than eight of them; a call that is not answered
    from the cache and returns has made all eight. *)
Theorem requests_follow_the_sequence self w :
  methods (events_of self w) `prefix_of` exchange_methods /\
  (length (requests_sent (events_of self w)) <= 8)%nat /\
  (cache_hit w = false -> is_ok (fst (get_usage_data self w)) = true ->
   methods (events_of self w) = exchange_methods).
Proof.
  assert (Hm : methods (events_of self w) `prefix_of` exchange_methods /\
               (cache_hit w = false ->
                is_ok (fst (get_usage_data self w)) = true ->
                methods (events_of self w) = exchange_methods)).
  { rewrite events_of_call. destruct (cache_hit w) eqn:Hc.
    - split; [apply prefix_nil|discriminate].
    - destruct (exchange_sends self (session_world self w))
        as (evs & E & P & O).
      rewrite (added_app _ _ _ E).
      assert (Hx : methods (evs ++ (if is_ok (fst (get_usage_data self w))
                                    then [] else [Closed])) = methods evs)
        by (rewrite methods_app;
            destruct (is_ok (fst (get_usage_data self w)));
            apply app_nil_r).
      rewrite Hx. split; [exact P|]. intros _ Hok. apply O.
      rewrite (EsbApiProps.get_usage_data_miss self w Hc) in Hok.
      destruct (fetch self w) as [[res|e] w'] eqn:Hf; [|discriminate].
      apply EsbApiProps.fetch_Ok in Hf as (r8 & w1 & Hx8 & _).
      now rewrite Hx8. }
  destruct Hm as [Hp Hall]. split; [exact Hp|]. split; [|exact Hall].
  apply prefix_length in Hp. unfold methods in Hp.
  rewrite length_map in Hp. exact Hp.
Qed.

(** ** The cache file *)

Lemma keeps_cache_bind {A B} (m : M A) (k : A -> M B) :
  keeps_cache m -> (forall a, keeps_cache (k a)) -> keeps_cache (bind m k).
Proof.
  intros Hm Hk w. unfold bind. specialize (Hm w).
  destruct (m w) as [[a|e] w1]; simpl in *; [|exact Hm].
  now rewrite Hk.
Qed.

Lemma keeps_cache_http rq : keeps_cache (http rq).
Proof. intros w. unfold http. now destruct (send _ _ _ _). Qed.

Lemma keeps_cache_pure {A} (f : world -> result A) :
  keeps_cache (fun w => (f w, w)).
Proof. now intros w. Qed.

Lemma keeps_cache_log {A} (r : result A) e :
  keeps_cache (fun w => (r, log e w)).
Proof. now intros w. Qed.

Ltac keeps_chain :=
  repeat first
    [ apply keeps_cache_http
    | apply keeps_cache_pure
    | apply keeps_cache_log
    | apply keeps_cache_bind; [|intros]
    | match goal with |- keeps_cache (if ?b then _ else _) => destruct b end
    | progress cbv zeta ].

Lemma exchange_keeps_cache self : keeps_cache (exchange self).
Proof. unfold exchange. keeps_chain. Qed.

Lemma process_cache r8 w :
  w_cache (snd (process r8 w)) =
  match fst (process r8 w) with
  | Ok res =>
      if DEBUG_USE_CACHE then w_cache w else write_cache (w_cache w) res
  | Raise _ => w_cache w
  end.
Proof.
  unfold process, bind, lift, raise, ret, cache_result.
  destruct (decode_utf8 (content r8)) as [csv|]; [|reflexivity].
  destruct (negb (String.eqb (prefix 4 csv) "MPRN")); [reflexivity|].
  destruct (csv_DictReader (split_lines csv)) as [rows|]; [|reflexivity].
  destruct (process_rows _ _) as [st|e]; [|reflexivity].
  now destruct DEBUG_USE_CACHE.
Qed.

(** A call that is not answered from the cache rewrites the cache file
    only when it returns and the debug cache is off, and then with the
    dict it returns; a call that raises leaves the file alone. *)
Theorem cache_file_after_fresh_call self w :
  cache_hit w = false ->
  w_cache (snd (get_usage_data self w)) =
  match fst (get_usage_data self w) with
  | Ok res =>
      if DEBUG_USE_CACHE then w_cache w else write_cache (w_cache w) res
  | Raise _ => w_cache w
  end.
Proof.
  intros Hc. rewrite (EsbApiProps.get_usage_data_miss self w Hc).
  pose proof (exchange_keeps_cache self (session_world self w)) as Hx.
  unfold fetch, bind at 1, new_session at 1, handlers, bind.
  unfold session_world, new_session in Hx. simpl in *.
  destruct (exchange self _) as [[r8|e] w1]; simpl in *.
  - pose proof (process_cache r8 w1) as Hp. rewrite Hx in Hp.
    destruct (process r8 w1) as [[res|e] w2]; simpl in *; [exact Hp|].
    now destruct e.
  - now destruct e.
Qed.

(** ** What the exceptions of a call tell *)

Lemma bind_Raise {A B} (m : M A) (k : A -> M B) w e w' :
  bind m k w = (Raise e, w') ->
  m w = (Raise e, w') \/
  exists a w1, m w = (Ok a, w1) /\ k a w1 = (Raise e, w').
Proof.
  unfold bind. destruct (m w) as [[a|e0] w1]; [eauto|].
  intros [= -> ->]. now left.
Qed.

Lemma http_Raise rq w e w' :
  http rq w = (Raise e, w') ->
  (e = Timeout \/ exists msg, e = LibraryError msg) /\
  w_trace w' = w_trace w ++ [Http rq None].
Proof.
  unfold http. destruct (send _ _ _ _); intros [= <- <-]; simpl; eauto.
Qed.

Lemma first_plain {A} (l : list A) e :
  first l = Raise e -> e = IndexError.
Proof. destruct l; [now intros [= <-]|discriminate]. Qed.

Lemma loads_plain s e : loads s = Raise e -> e = ValueError.
Proof.
  unfold loads. destruct (json_loads s); [discriminate|now intros [= <-]].
Qed.

Lemma getitem_plain v key e :
  getitem v key = Raise e -> e = KeyError key \/ e = TypeError.
Proof.
  unfold getitem. destruct v; try (intros [= <-]; now right).
  destruct (assoc key d); [discriminate|intros [= <-]; now left].
Qed.

Lemma input_value_plain form n e :
  input_value form n = Raise e -> e = KeyError "value" \/ e = TypeError.
Proof.
  unfold input_value. destruct (tag_find_input form n) as [i|];
    [|intros [= <-]; now right].
  destruct (tag_attr i "value"); [discriminate|intros [= <-]; now left].
Qed.

Lemma plain_steps :
  (forall A (l : list A) e, first l = Raise e -> plain e) /\
  (forall s e, loads s = Raise e -> plain e) /\
  (forall v key e, getitem v key = Raise e -> plain e) /\
  (forall form n e, input_value form n = Raise e -> plain e).
Proof.
  unfold plain. repeat split; intros;
    match goal with
    | H0 : first _ = Raise _ |- _ => apply first_plain in H0
    | H0 : loads _ = Raise _ |- _ => apply loads_plain in H0
    | H0 : getitem _ _ = Raise _ |- _ => apply getitem_plain in H0 as [H0|H0]
    | H0 : input_value _ _ = Raise _ |- _ =>
        apply input_value_plain in H0 as [H0|H0]
    end; subst; discriminate.
Qed.

Lemma only_exception_bind {A B} l (m : M A) (k : A -> M B) :
  only_exception l m -> (forall a, only_exception l (k a)) ->
  only_exception l (bind m k).
Proof.
  intros Hm Hk w msg. unfold bind. specialize (Hm w msg).
  destruct (m w) as [[a|e] w1]; simpl in *; [apply Hk|].
  intros [= ->]. now apply Hm.
Qed.

Lemma only_exception_http l rq : only_exception l (http rq).
Proof.
  intros w msg. unfold http. destruct (send _ _ _ _); discriminate.
Qed.

Lemma only_exception_lift {A} l (r : result A) :
  (forall e, r = Raise e -> plain e) -> only_exception l (lift r).
Proof.
  intros Hr w msg Hm. simpl in Hm. destruct (Hr _ Hm) as [Hn _].
  now destruct (Hn msg).
Qed.

Lemma only_exception_Ok {A} l (f : world -> A) (g : world -> world) :
  only_exception l (fun w => (Ok (f w), g w)).
Proof. intros w msg. discriminate. Qed.

Lemma only_exception_guard l (b : bool) msg :
  In msg l ->
  only_exception l
    (if b then bind session_close (fun _ => raise (Exception msg))
     else ret tt).
Proof.
  intros Hin. destruct b; intros w msg'; [|discriminate].
  now intros [= <-].
Qed.

Lemma timeout_last_bind {A B} (m : M A) (k : A -> M B) :
  timeout_last m -> (forall a, timeout_last (k a)) -> timeout_last (bind m k).
Proof.
  intros Hm Hk w. unfold bind. destruct (Hm w) as (e1 & E1 & T1).
  destruct (m w) as [[a|e] w1]; simpl in *.
  - destruct (Hk a w1) as (e2 & E2 & T2). exists (e1 ++ e2).
    split; [now rewrite E2, E1, app_assoc|].
    intros Ht. destruct (T2 Ht) as (pre & rq & ->).
    exists (e1 ++ pre), rq. now rewrite app_assoc.
  - exists e1. split; [exact E1|]. intros [= ->]. now apply T1.
Qed.

Lemma timeout_last_http rq : timeout_last (http rq).
Proof.
  intros w. eexists. split; [apply EsbApiProps.http_trace|].
  intros Ht. exists [], rq. now rewrite Ht.
Qed.

Lemma timeout_last_lift {A} (r : result A) :
  (forall e, r = Raise e -> plain e) -> timeout_last (lift r).
Proof.
  intros Hr w. exists []. split; [now rewrite app_nil_r|].
  intros Ht. simpl in Ht. destruct (Hr _ Ht) as [_ Hn]. now destruct Hn.
Qed.

Lemma timeout_last_Ok {A} (f : world -> A) e :
  timeout_last (fun w => (Ok (f w), log e w)).
Proof. intros w. exists [e]. split; [reflexivity|discriminate]. Qed.

Lemma timeout_last_same {A} (f : world -> A) :
  timeout_last (fun w => (Ok (f w), w)).
Proof.
  intros w. exists []. split; [now rewrite app_nil_r|discriminate].
Qed.

Lemma timeout_last_guard (b : bool) msg :
  timeout_last
    (if b then bind session_close (fun _ => raise (Exception msg))
     else ret tt).
Proof.
  destruct b; [|apply (timeout_last_same (fun _ => tt))].
  intros w. exists [Closed]. split; [reflexivity|discriminate].
Qed.

(** Closes the side condition of a [lift] step. *)
Ltac plain_step :=
  let He := fresh in
  intros ? He;
  destruct plain_steps as (P1 & P2 & P3 & P4);
  first
    [ exact (P1 _ _ _ He) | exact (P2 _ _ He) | exact (P3 _ _ _ He)
    | exact (P4 _ _ _ He)
    | repeat case_match; first [discriminate He
                               | injection He as <-; split; discriminate ] ].

Ltac faults_chain :=
  repeat first
    [ apply only_exception_http
    | apply timeout_last_http
    | apply only_exception_guard; simpl; tauto
    | apply timeout_last_guard
    | apply only_exception_lift; plain_step
    | apply timeout_last_lift; plain_step
    | apply (only_exception_Ok _ (fun _ => tt))
    | apply only_exception_Ok
    | apply (timeout_last_Ok (fun _ => tt))
    | apply timeout_last_same
    | apply only_exception_bind; [|intros]
    | apply timeout_last_bind; [|intros]
    | progress cbv zeta ].

Lemma exchange_only_login_failed self :
  only_exception [LOGIN_FAILED] (exchange self).
Proof. unfold exchange. faults_chain. Qed.

Lemma exchange_timeout_last self : timeout_last (exchange self).
Proof. unfold exchange. faults_chain. Qed.

Lemma process_Raise r8 w e :
  fst (process r8 w) = Raise e ->
  (decode_utf8 (content r8) = None /\ e = ValueError) \/
  exists csv,
    decode_utf8 (content r8) = Some csv /\
    ((prefix 4 csv <> "MPRN" /\ e = Exception INVALID_CSV) \/
     (prefix 4 csv = "MPRN" /\
      (e = LibraryError "csv.Error" \/ e = TypeError))).
Proof.
  destruct (decode_utf8 (content r8)) as [csv|] eqn:Hd.
  - rewrite (EsbApiProps.process_result r8 w csv Hd). intros Hr.
    right. exists csv. split; [reflexivity|].
    destruct (String.eqb (prefix 4 csv) "MPRN") eqn:Hm.
    + apply String.eqb_eq in Hm. right. split; [exact Hm|].
      destruct (csv_DictReader (split_lines csv)) as [rows|];
        [|injection Hr as <-; now left].
      destruct (process_rows _ _) as [st|e0] eqn:Hl; [discriminate|].
      injection Hr as <-. right.
      now apply EsbApiProps.process_rows_Raise in Hl.
    + apply String.eqb_neq in Hm. left. split; [exact Hm|].
      now injection Hr as <-.
  - unfold process, bind, lift. rewrite Hd. simpl. intros [= <-]. now left.
Qed.

(** How [fetch] ends, from how the exchange and [process] end. *)
Lemma fetch_result self w :
  fst (fetch self w) =
  map_timeout
    match exchange self (session_world self w) with
    | (Ok r8, w1) => fst (process r8 w1)
    | (Raise e, _) => Raise e
    end.
Proof.
  unfold fetch, bind at 1, new_session at 1, handlers, bind, session_world,
    new_session. simpl.
  destruct (exchange self _) as [[r8|e] w1]; simpl.
  - destruct (process r8 w1) as [[res|e] w2]; simpl; [reflexivity|].
    now destruct e.
  - now destruct e.
Qed.

Lemma hit_returns self w :
  cache_hit w = true -> is_ok (fst (get_usage_data self w)) = true.
Proof.
  unfold cache_hit, get_usage_data, bind, read_cache.
  destruct DEBUG_USE_CACHE; [|discriminate]. simpl.
  destruct (w_cache w) as [file|]; [|discriminate].
  now destruct (load_cache file).
Qed.

(** A call that raises was not answered from the cache, and raises
    what [fetch] does. *)
Lemma raising_call_is_fetch self w e :
  fst (get_usage_data self w) = Raise e ->
  cache_hit w = false /\ fst (fetch self w) = Raise e.
Proof.
  intros Hr. destruct (cache_hit w) eqn:Hc.
  - pose proof (hit_returns self w Hc) as Hok. rewrite Hr in Hok.
    discriminate.
  - split; [reflexivity|].
    now rewrite <- (EsbApiProps.get_usage_data_miss self w Hc).
Qed.

Lemma events_of_raising_call self w e :
  fst (get_usage_data self w) = Raise e ->
  events_of self w =
  added (session_world self w) (snd (exchange self (session_world self w)))
  ++ [Closed].
Proof.
  intros Hr. destruct (raising_call_is_fetch self w e Hr) as [Hc _].
  now rewrite events_of_call, Hc, Hr.
Qed.

(** The timeout message means that the last request of the call got
    no answer, and that the session was closed right after it. *)
Theorem timed_out_means_unanswered_request self w :
  fst (get_usage_data self w) = Raise (Exception TIMED_OUT) ->
  exists pre rq, events_of self w = pre ++ [Http rq None; Closed].
Proof.
  intros Hr. rewrite (events_of_raising_call self w _ Hr).
  apply raising_call_is_fetch in Hr as [_ Hr].
  rewrite fetch_result in Hr.
  destruct (exchange_timeout_last self (session_world self w))
    as (evs & E & T).
  pose proof (exchange_only_login_failed self (session_world self w)) as Hx.
  rewrite (added_app _ _ _ E).
  destruct (exchange self (session_world self w)) as [[r8|e] w1]; simpl in *.
  - exfalso. destruct (fst (process r8 w1)) as [res|e] eqn:Hp; [discriminate|].
    apply process_Raise in Hp
      as [[_ ->]|(csv & _ & [[_ ->]|[_ [->| ->]]])]; discriminate.
  - destruct e; try discriminate.
    + destruct (Hx msg eq_refl) as [<-|[]]. discriminate.
    + destruct (T eq_refl) as (pre & rq & ->). exists pre, rq.
      now rewrite <- app_assoc.
Qed.

(** The message about the CSV format means that the whole exchange
    took place and that the body of its last answer, decoded, does not
    start with [MPRN]. *)
Theorem invalid_csv_means_exchange_completed self w :
  fst (get_usage_data self w) = Raise (Exception INVALID_CSV) ->
  exists l csv,
    events_of self w = exchange_events self l ++ [Closed] /\
    tokens_extracted l /\
    decode_utf8 (content (fst (answer_8 l))) = Some csv /\
    prefix 4 csv <> "MPRN".
Proof.
  intros Hr. rewrite (events_of_raising_call self w _ Hr).
  apply raising_call_is_fetch in Hr as [_ Hr].
  rewrite fetch_result in Hr.
  pose proof (exchange_only_login_failed self (session_world self w)) as Hx.
  destruct (exchange self (session_world self w)) as [[r8|e] w1] eqn:Ex;
    simpl in *.
  - apply EsbApiProps.exchange_Ok in Ex as (l & H8 & Htok & Ht & _).
    rewrite (added_app _ _ _ Ht).
    destruct (fst (process r8 w1)) as [res|e] eqn:Hp; [discriminate|].
    apply process_Raise in Hp
      as [[_ ->]|(csv & Hd & [[Hm _]|[_ [->| ->]]])]; try discriminate.
    exists l, csv. rewrite H8. tauto.
  - exfalso. destruct e; try discriminate.
    destruct (Hx msg eq_refl) as [<-|[]]. discriminate.
Qed.

Lemma lift_Raise {A} (r : result A) w e w' :
  lift r w = (Raise e, w') -> r = Raise e /\ w' = w.
Proof. unfold lift. now intros [= -> ->]. Qed.

(** Refutes that a step before the login check raised an
    [Exception]. *)
Ltac not_this_step Hx :=
  first
    [ apply http_Raise in Hx as [[Hx|[? Hx]] _]; discriminate Hx
    | apply lift_Raise in Hx as [Hx _];
      destruct plain_steps as (P1 & P2 & P3 & P4);
      first [ apply P1 in Hx | apply P2 in Hx | apply P3 in Hx
            | apply P4 in Hx ];
      destruct Hx as [Hx _]; destruct (Hx _ eq_refl)
    | discriminate Hx ].

Lemma exchange_login_failed self w w' :
  exchange self w = (Raise (Exception LOGIN_FAILED), w') ->
  exists a1 csrf tx a2 p3 j3,
    settings_tokens (fst a1) csrf tx /\
    prefix 21 (text p3) <> "<!DOCTYPE html PUBLIC" /\
    w_trace w' =
      w_trace w ++
      [ Http request_1 (Some a1); Slept 10 20;
        Http (request_2 self tx csrf (snd a1)) (Some a2);
        Http (request_3 self tx csrf (snd a2)) (Some (p3, j3));
        Closed ].
Proof.
  unfold exchange. intros Hx.
  apply bind_Raise in Hx as [Hx|(p1 & w1 & S1 & Hx)]; [not_this_step Hx|].
  apply EsbApiProps.http_Ok in S1 as (_ & _ & T1).
  apply bind_Raise in Hx as [Hx|(result_0 & ? & S & Hx)]; [not_this_step Hx|].
  apply EsbApiProps.lift_Ok in S as [F1 ->].
  apply bind_Raise in Hx as [Hx|(settings & ? & S & Hx)]; [not_this_step Hx|].
  apply EsbApiProps.lift_Ok in S as [F2 ->].
  apply bind_Raise in Hx as [Hx|(j1 & ? & S & Hx)]; [not_this_step Hx|].
  apply EsbApiProps.get_dict_Ok in S as [-> ->].
  apply bind_Raise in Hx as [Hx|(csrf & ? & S & Hx)]; [not_this_step Hx|].
  apply EsbApiProps.lift_Ok in S as [F3 ->].
  apply bind_Raise in Hx as [Hx|(tx & ? & S & Hx)]; [not_this_step Hx|].
  apply EsbApiProps.lift_Ok in S as [F4 ->].
  apply bind_Raise in Hx as [Hx|([] & ? & S & Hx)]; [not_this_step Hx|].
  apply EsbApiProps.sleep_Ok in S as ->.
  apply bind_Raise in Hx as [Hx|(p2 & w2 & S2 & Hx)]; [not_this_step Hx|].
  apply EsbApiProps.http_Ok in S2 as (_ & _ & T2).
  apply bind_Raise in Hx as [Hx|(j2 & ? & S & Hx)]; [not_this_step Hx|].
  apply EsbApiProps.get_dict_Ok in S as [-> ->].
  apply bind_Raise in Hx as [Hx|(p3 & w3 & S3 & Hx)]; [not_this_step Hx|].
  apply EsbApiProps.http_Ok in S3 as (_ & _ & T3).
  apply bind_Raise in Hx as [Hx|([] & w4 & S & Hx)].
  - (* the login check raised *)
    destruct (negb (String.eqb (prefix 21 (text p3)) "<!DOCTYPE html PUBLIC"))
      eqn:G; [|discriminate Hx].
    apply negb_true_iff, String.eqb_neq in G.
    unfold bind, session_close, raise in Hx. injection Hx as <-.
    exists (p1, w_jar w1), csrf, tx, (p2, w_jar w2), p3, (w_jar w3).
    split; [unfold settings_tokens; simpl; eauto 6|]. split; [exact G|].
    simpl in *. rewrite T3, T2, T1. simpl.
    now rewrite <- !app_assoc.
  - (* nothing after the login check raises an [Exception] *)
    exfalso. cbv beta in Hx.
    match type of Hx with
    | ?k ?w0 = _ =>
        assert (Hq : only_exception [] k) by faults_chain;
        apply (Hq w0 LOGIN_FAILED); now rewrite Hx
    end.
Qed.

(** The message about the failed login means that exactly the first
    three requests were made and answered, that the answer to the
    confirm request does not start with the expected doctype, and that
    the session was closed, twice. *)
Theorem login_failed_means_three_requests self w :
  fst (get_usage_data self w) = Raise (Exception LOGIN_FAILED) ->
  exists a1 csrf tx a2 p3 j3,
    settings_tokens (fst a1) csrf tx /\
    prefix 21 (text p3) <> "<!DOCTYPE html PUBLIC" /\
    events_of self w =
      [ Http request_1 (Some a1); Slept 10 20;
        Http (request_2 self tx csrf (snd a1)) (Some a2);
        Http (request_3 self tx csrf (snd a2)) (Some (p3, j3));
        Closed; Closed ].
Proof.
  intros Hr. rewrite (events_of_raising_call self w _ Hr).
  apply raising_call_is_fetch in Hr as [_ Hr].
  rewrite fetch_result in Hr.
  destruct (exchange self (session_world self w)) as [[r8|e] w1] eqn:Ex;
    simpl in *.
  - exfalso. destruct (fst (process r8 w1)) as [res|e] eqn:Hp; [discriminate|].
    apply process_Raise in Hp
      as [[_ ->]|(csv & _ & [[_ ->]|[_ [->| ->]]])]; discriminate.
  - assert (He : e = Exception LOGIN_FAILED)
      by (destruct e; try discriminate; now injection Hr as ->).
    subst e. apply exchange_login_failed in Ex
      as (a1 & csrf & tx & a2 & p3 & j3 & Hs & Hp & Ht).
    exists a1, csrf, tx, a2, p3, j3. split; [exact Hs|]. split; [exact Hp|].
    now rewrite (added_app _ _ _ Ht).
Qed.

Lemma process_rows_short rows st row :
  In row rows -> row !! "Read Value" = Some None ->
  process_rows st rows = Raise TypeError.
Proof.
  intros Hin Hv. revert st.
  induction rows as [|r rows IH]; intros st; [destruct Hin|]. simpl.
  destruct (process_row st r) as [st'|e] eqn:Hr.
  - destruct Hin as [->|Hin]; [|now apply IH].
    rewrite EsbApiProps.process_row_reading in Hr. unfold pystr in *.
    rewrite Hv in Hr. discriminate.
  - rewrite EsbApiProps.process_row_reading in Hr.
    destruct (read_value (r !! "Read Value")) as [u|[]];
      destruct (reading_of_row r); congruence.
Qed.

(** A line of the file that stops before its value fails the whole
    call with a [TypeError]: only [ValueError] and [KeyError] are
    caught in the loop over the rows. *)
Theorem short_row_fails_the_call self w r8 w1 csv rows row :
  cache_hit w = false ->
  exchange self (session_world self w) = (Ok r8, w1) ->
  decode_utf8 (content r8) = Some csv ->
  prefix 4 csv = "MPRN" ->
  csv_DictReader (split_lines csv) = Some rows ->
  In row rows ->
  row !! "Read Value" = Some None ->
  fst (get_usage_data self w) = Raise TypeError.
Proof.
  intros Hc Hx Hd Hm Hrows Hin Hv.
  rewrite (EsbApiProps.get_usage_data_miss self w Hc), fetch_result, Hx.
  rewrite (EsbApiProps.process_result r8 w1 csv Hd), Hm, Hrows. simpl.
  assert (Hf : In row (List.filter row_nonempty rows)).
  { apply List.filter_In. split; [exact Hin|].
    unfold row_nonempty. apply negb_true_iff, bool_decide_eq_false.
    intros E. rewrite E in Hv. vm_compute in Hv. discriminate Hv. }
  now rewrite (process_rows_short _ _ row Hf Hv).
Qed.

(** ** Whom the requests name *)

Lemma all_requests_bind {A B} P (m : M A) (k : A -> M B) :
  all_requests P m -> (forall a, all_requests P (k a)) ->
  all_requests P (bind m k).
Proof.
  intros Hm Hk w. unfold bind. destruct (Hm w) as (e1 & E1 & F1).
  destruct (m w) as [[a|e] w1]; simpl in *.
  - destruct (Hk a w1) as (e2 & E2 & F2). exists (e1 ++ e2).
    split; [now rewrite E2, E1, app_assoc|].
    rewrite EsbApiProps.requests_sent_app. now apply Forall_app.
  - now exists e1.
Qed.

Lemma all_requests_http (P : request -> Prop) rq :
  P rq -> all_requests P (http rq).
Proof.
  intros Hp w. eexists. split; [apply EsbApiProps.http_trace|].
  simpl. now repeat constructor.
Qed.

Lemma all_requests_pure {A} P (f : world -> result A) :
  all_requests P (fun w => (f w, w)).
Proof. intros w. exists []. rewrite app_nil_r. split; [reflexivity|constructor]. Qed.

Lemma all_requests_log {A} P (r : result A) e :
  requests_sent [e] = [] -> all_requests P (fun w => (r, log e w)).
Proof.
  intros He w. exists [e]. split; [reflexivity|]. rewrite He. constructor.
Qed.

Ltac own_identity :=
  unfold carries_own_identity; cbn;
  repeat split; intros;
  try match goal with
      | Hs : is_Some None |- _ => destruct Hs; discriminate
      end;
  try congruence;
  try (eexists; reflexivity).

Ltac requests_chain :=
  repeat first
    [ apply all_requests_http; own_identity
    | apply all_requests_pure
    | apply all_requests_log; reflexivity
    | apply all_requests_bind; [|intros]
    | match goal with
      | |- all_requests _ (if ?b then _ else _) => destruct b
      end
    | progress cbv zeta ].

Lemma exchange_own_identity self :
  all_requests (carries_own_identity self) (exchange self).
Proof. unfold exchange. requests_chain. Qed.

Lemma requests_of_call self w :
  requests_sent (events_of self w) =
  if cache_hit w then []
  else requests_sent
         (added (session_world self w)
                (snd (exchange self (session_world self w)))).
Proof.
  rewrite events_of_call. destruct (cache_hit w); [reflexivity|].
  rewrite EsbApiProps.requests_sent_app.
  destruct (is_ok (fst (get_usage_data self w))); apply app_nil_r.
Qed.

Lemma own_identity_of_call self w :
  Forall (carries_own_identity self) (requests_sent (events_of self w)).
Proof.
  rewrite requests_of_call. destruct (cache_hit w); [constructor|].
  destruct (exchange_own_identity self (session_world self w))
    as (evs & E & F).
  now rewrite (added_app _ _ _ E).
Qed.

(** Whatever happens during a call, the email, the password and the
    meter number that its requests carry are those the client was
    built with, and the password is only ever POSTed to the login
    endpoint. *)
Theorem requests_name_only_the_client self w rq :
  In rq (requests_sent (events_of self w)) ->
  carries_own_identity self rq.
Proof.
  intros Hin. pose proof (own_identity_of_call self w) as Hall.
  rewrite Forall_forall in Hall. apply Hall. now apply list_elem_of_In.
Qed.

End WithExternals.

(** ** The further properties on the scripted portals *)

Lemma no_request_after_close_witness :
  let E := scripted false pages_refused in
  closes_last (@events_of E demo_self (@start E 0%nat None)).
Proof.
  intros E. exact (@no_request_after_close E demo_self (@start E 0%nat None)).
Defined.

Lemma fresh_call_closes_session_witness :
  let E := scripted false pages_timeout in
  let w := @start E 0%nat None in
  @cache_hit E w = false /\
  exists evs, @events_of E demo_self w = evs ++ [Closed].
Proof.
  intros E w.
  assert (Hc : @cache_hit E w = false) by reflexivity.
  split; [exact Hc|].
  exact (@fresh_call_closes_session E demo_self w Hc).
Defined.

Lemma requests_follow_the_sequence_witness :
  let E := demo_externals false in
  let w := @start E 0%nat None in
  @cache_hit E w = false /\
  is_ok (fst (@get_usage_data E demo_self w)) = true /\
  methods (@events_of E demo_self w) = exchange_methods.
Proof.
  intros E w.
  assert (Hc : @cache_hit E w = false) by reflexivity.
  assert (Hok : is_ok (fst (@get_usage_data E demo_self w)) = true)
    by (vm_compute; reflexivity).
  split; [exact Hc|]. split; [exact Hok|].
  exact (proj2 (proj2 (@requests_follow_the_sequence E demo_self w)) Hc Hok).
Defined.

Lemma cache_file_after_fresh_call_witness :
  let E := demo_externals false in
  let w := @start E 0%nat None in
  @cache_hit E w = false /\
  w_cache (snd (@get_usage_data E demo_self w)) =
  match fst (@get_usage_data E demo_self w) with
  | Ok res =>
      if @DEBUG_USE_CACHE E then w_cache w
      else @write_cache E (w_cache w) res
  | Raise _ => w_cache w
  end.
Proof.
  intros E w.
  assert (Hc : @cache_hit E w = false) by reflexivity.
  split; [exact Hc|].
  exact (@cache_file_after_fresh_call E demo_self w Hc).
Defined.

Lemma timed_out_means_unanswered_request_witness :
  let E := scripted false pages_timeout in
  let w := @start E 0%nat None in
  fst (@get_usage_data E demo_self w) = Raise (Exception TIMED_OUT) /\
  exists pre rq, @events_of E demo_self w = pre ++ [Http rq None; Closed].
Proof.
  intros E w.
  assert (Hr : fst (@get_usage_data E demo_self w)
               = Raise (Exception TIMED_OUT)) by (vm_compute; reflexivity).
  split; [exact Hr|].
  exact (@timed_out_means_unanswered_request E demo_self w Hr).
Defined.

Lemma invalid_csv_means_exchange_completed_witness :
  let E := scripted false pages_no_csv in
  let w := @start E 0%nat None in
  fst (@get_usage_data E demo_self w) = Raise (Exception INVALID_CSV) /\
  exists l csv,
    @events_of E demo_self w = @exchange_events E demo_self l ++ [Closed] /\
    @tokens_extracted E l /\
    @decode_utf8 E (content (fst (answer_8 l))) = Some csv /\
    prefix 4 csv <> "MPRN".
Proof.
  intros E w.
  assert (Hr : fst (@get_usage_data E demo_self w)
               = Raise (Exception INVALID_CSV)) by (vm_compute; reflexivity).
  split; [exact Hr|].
  exact (@invalid_csv_means_exchange_completed E demo_self w Hr).
Defined.

Lemma login_failed_means_three_requests_witness :
  let E := scripted false pages_refused in
  let w := @start E 0%nat None in
  fst (@get_usage_data E demo_self w) = Raise (Exception LOGIN_FAILED) /\
  exists a1 csrf tx a2 p3 j3,
    @settings_tokens E (fst a1) csrf tx /\
    prefix 21 (text p3) <> "<!DOCTYPE html PUBLIC" /\
    @events_of E demo_self w =
      [ Http request_1 (Some a1); Slept 10 20;
        Http (@request_2 E demo_self tx csrf (snd a1)) (Some a2);
        Http (request_3 demo_self tx csrf (snd a2)) (Some (p3, j3));
        Closed; Closed ].
Proof.
  intros E w.
  assert (Hr : fst (@get_usage_data E demo_self w)
               = Raise (Exception LOGIN_FAILED)) by (vm_compute; reflexivity).
  split; [exact Hr|].
  exact (@login_failed_means_three_requests E demo_self w Hr).
Defined.

Lemma short_row_fails_the_call_witness :
  let E := scripted false pages_short_row in
  let w := @start E 0%nat None in
  let x := @exchange E demo_self (@session_world E demo_self w) in
  let rows := default [] (demo_DictReader (split_lines short_csv)) in
  @cache_hit E w = false /\
  x = (Ok {| content := short_csv; text := short_csv |}, snd x) /\
  In short_row rows /\
  short_row !! "Read Value" = Some None /\
  fst (@get_usage_data E demo_self w) = Raise TypeError.
Proof.
  intros E w x rows.
  assert (Hc : @cache_hit E w = false) by reflexivity.
  assert (Hx : x = (Ok {| content := short_csv; text := short_csv |}, snd x)).
  { assert (Hf : fst x = Ok {| content := short_csv; text := short_csv |})
      by (vm_compute; reflexivity).
    rewrite <- Hf. apply surjective_pairing. }
  assert (Hd : @decode_utf8 E short_csv = Some short_csv) by reflexivity.
  assert (Hm : prefix 4 short_csv = "MPRN") by reflexivity.
  assert (Hrows : @csv_DictReader E (split_lines short_csv) = Some rows)
    by (vm_compute; reflexivity).
  assert (Hin : In short_row rows) by (vm_compute; right; left; reflexivity).
  assert (Hv : short_row !! "Read Value" = Some None)
    by (vm_compute; reflexivity).
  split; [exact Hc|]. split; [exact Hx|]. split; [exact Hin|].
  split; [exact Hv|].
  exact (@short_row_fails_the_call E demo_self w _ (snd x) short_csv rows
           short_row Hc Hx Hd Hm Hrows Hin Hv).
Defined.

Lemma requests_name_only_the_client_witness :
  let E := demo_externals false in
  let w := @start E 0%nat None in
  let rq := @request_2 E demo_self (VStr "tx-1") (VStr "csrf-1") (demo_jar 0) in
  In rq (requests_sent (@events_of E demo_self w)) /\
  @carries_own_identity E demo_self rq.
Proof.
  intros E w rq.
  assert (Hin : In rq (requests_sent (@events_of E demo_self w)))
    by (vm_compute; right; left; reflexivity).
  split; [exact Hin|].
  exact (@requests_name_only_the_client E demo_self w rq Hin).
Defined.

End EsbApiMore.

(** * Properties of the coordinator and of the setup *)

Module CoordinatorProps.
Import Sensor EsbApi EsbApiRuns Coordinator.

Section WithRuntime.

Context {host : Host} {externals : Externals} {runtime : Runtime}.

(** The client is left as the download leaves it. *)
Lemma update_world self w :
  snd (fst (_async_update_data self w)) = snd (get_usage_data (api self) w).
Proof.
  unfold _async_update_data.
  destruct (get_usage_data (api self) w) as [[data|e] w']; [|reflexivity].
  destruct (readings data); [reflexivity|].
  now destruct (_async_import_statistics _ _).
Qed.

(** A recorder call of an update is one of the import of what the
    download returned. *)
Lemma update_calls self w c :
  In c (snd (_async_update_data self w)) ->
  exists data,
    get_usage_data (api self) w
      = (Ok data, snd (get_usage_data (api self) w)) /\
    fst (fst (_async_update_data self w)) = Updated data /\
    In c (fst (_async_import_statistics (c_mprn self) data)).
Proof.
  unfold _async_update_data.
  destruct (get_usage_data (api self) w) as [[data|e] w']; [|intros []].
  destruct (readings data); [intros []|].
  destruct (_async_import_statistics _ _) as [calls out] eqn:E. simpl.
  intros Hin. exists data. now rewrite E.
Qed.

(** An update that fails has made no recorder call, and its message
    is that of what the download raised. *)
Lemma update_failed self w msg :
  fst (fst (_async_update_data self w)) = UpdateFailed msg ->
  snd (_async_update_data self w) = [] /\
  exists e,
    fst (get_usage_data (api self) w) = Raise e /\
    msg = "Error communicating with ESB API: " +:+ format_exn e.
Proof.
  unfold _async_update_data.
  destruct (get_usage_data (api self) w) as [[data|e] w'].
  - destruct (readings data); [discriminate|].
    now destruct (_async_import_statistics _ _).
  - simpl. intros [= <-]. split; [reflexivity|]. now exists e.
Qed.

(** What a download can raise. *)
Lemma download_raises self w e :
  fst (get_usage_data self w) = Raise e ->
  (exists msg, e = Exception msg /\
               In msg [LOGIN_FAILED; INVALID_CSV; TIMED_OUT]) \/
  plain e.
Proof.
  intros Hr. apply EsbApiMore.raising_call_is_fetch in Hr as [_ Hr].
  rewrite EsbApiMore.fetch_result in Hr.
  pose proof (EsbApiMore.exchange_only_login_failed self
                (session_world self w)) as Hx.
  destruct (exchange self (session_world self w)) as [[r8|e0] w1].
  - destruct (fst (process r8 w1)) as [res|e1] eqn:Hp; [discriminate|].
    apply EsbApiMore.process_Raise in Hp
      as [[_ ->]|(csv & _ & [[_ ->]|[_ [->| ->]]])];
      simpl in Hr; injection Hr as <-;
      first [ left; eexists; split; [reflexivity|]; simpl; auto
            | right; split; [intros msg|]; discriminate ].
  - destruct e0; simpl in Hr; injection Hr as <-;
      first [ left; eexists; split; [reflexivity|];
              first [ destruct (Hx _ eq_refl) as [<-|[]]; now left
                    | now right; right; left ]
            | right; split; [intros msg0|]; discriminate ].
Qed.

Lemma session_world_trace self w : w_trace (session_world self w) = w_trace w.
Proof. reflexivity. Qed.

(** The readings of a fresh download are those of rows of the file the
    last request was answered with. *)
Lemma fresh_download self w data w' :
  cache_hit w = false ->
  get_usage_data self w = (Ok data, w') ->
  exists l csv rows,
    added w w' = exchange_events self l /\
    decode_utf8 (content (fst (answer_8 l))) = Some csv /\
    csv_DictReader (split_lines csv) = Some rows /\
    readings data = omap reading_of_row (List.filter row_nonempty rows).
Proof.
  intros Hc Hrun. rewrite (EsbApiProps.get_usage_data_miss self w Hc) in Hrun.
  apply EsbApiProps.fetch_Ok in Hrun as (r8 & w1 & Hx & Hp).
  apply EsbApiProps.exchange_Ok in Hx as (l & <- & _ & Ht & _).
  apply EsbApiProps.process_Ok in Hp as (csv & rows & Hd & _ & Hrows & Hl & Ht').
  apply EsbApiProps.process_rows_Ok in Hl as [Hl _]. simpl in Hl.
  exists l, csv, rows. split; [|now repeat split].
  apply EsbApiMore.added_app. now rewrite Ht', Ht, session_world_trace.
Qed.

(** A reading with a date that parses was made from a row with that
    date. *)
Lemma reading_row rows r str :
  In r (omap reading_of_row rows) ->
  date r = Some str -> str <> "" ->
  exists row, In row rows /\ row !! "Read Date and End Time" = Some (Some str).
Proof.
  intros Hin Hd Hne.
  apply list_elem_of_In, list_elem_of_omap in Hin as (row & Hrow & Hr).
  exists row. split; [now apply list_elem_of_In|].
  unfold reading_of_row in Hr.
  destruct (read_value (row !! "Read Value")); [|discriminate].
  injection Hr as <-. simpl in Hd.
  destruct (row !! "Read Date and End Time") as [v|]; simpl in Hd.
  - now rewrite Hd.
  - injection Hd as <-. now destruct Hne.
Qed.


(** Every statistic an update writes after a fresh download is of an
    hour of a row of the downloaded file: the trace of the update is
    the whole exchange, the file is the answer to its last request,
    and the statistic starts at the top of the hour, in the time zone
    of the integration, of the date of one of its rows.  It is written
    under the statistic id of the meter. *)
Theorem written_statistics_come_from_the_download
    mprn email password w md stats s :
  let self := coordinator_init mprn email password in
  let run := _async_update_data self w in
  cache_hit w = false ->
  In (AddExternalStatistics md stats) (snd run) ->
  In s stats ->
  md_statistic_id md = statistic_id_of mprn /\
  exists l csv rows row str d,
    added w (snd (fst run)) = exchange_events (api self) l /\
    decode_utf8 (content (fst (answer_8 l))) = Some csv /\
    csv_DictReader (split_lines csv) = Some rows /\
    In row rows /\
    row !! "Read Date and End Time" = Some (Some str) /\
    strptime str = Some d /\
    st_start s = localize (replace_top_of_hour d).
Proof.
  intros self run Hc Hcall Hs. subst run.
  pose proof (update_calls self w _ Hcall) as (data & Hrun & _ & Hin).
  rewrite update_world.
  apply SensorMore.write_is_of_emitted in Hin as [-> ->].
  split; [reflexivity|].
  destruct (fresh_download (api self) w data _ Hc Hrun)
    as (l & csv & rows & Hev & Hd & Hrows & Hread).
  destruct (SensorProps.emitted_cases (c_mprn self) data)
    as [E|(lt & c & _ & E)]; rewrite E in Hs; [destruct Hs|].
  apply (in_map st_start) in Hs. rewrite SensorProps.running_starts in Hs.
  unfold kept in Hs. apply filter_In in Hs as [Hs _].
  apply (proj1 (SensorMore.in_sorted _ _)) in Hs.
  apply SensorMore.bucket_key_from_reading in Hs as (r & Hr & Ht).
  apply SensorMore.reading_time_inv in Ht as (str & d & Hdate & Hne & Hp & Ht).
  rewrite Hread in Hr.
  destruct (reading_row _ r str Hr Hdate Hne) as (row & Hrow & Hv).
  apply filter_In in Hrow as [Hrow _].
  exists l, csv, rows, row, str, d. now repeat split.
Qed.

(** An update fails only when the download raises.  It has then made
    no recorder call, the download was not answered from the cache and
    has closed its session, and the message is the fixed prefix
    followed by one of the three messages of the client or by the text
    of an exception of a library. *)
Theorem failed_update_writes_nothing self w msg :
  let run := _async_update_data self w in
  fst (fst run) = UpdateFailed msg ->
  snd run = [] /\
  cache_hit w = false /\
  (exists evs, added w (snd (fst run)) = evs ++ [Closed]) /\
  exists m,
    msg = "Error communicating with ESB API: " +:+ m /\
    (In m [LOGIN_FAILED; INVALID_CSV; TIMED_OUT] \/
     exists e, plain e /\ m = str_of_exn e).
Proof.
  intros run Hf. subst run.
  destruct (update_failed self w msg Hf) as (Hcalls & e & Hr & ->).
  split; [exact Hcalls|].
  split; [exact (proj1 (EsbApiMore.raising_call_is_fetch _ _ _ Hr))|].
  split.
  - rewrite update_world.
    pose proof (EsbApiMore.events_of_raising_call _ _ _ Hr) as Hev.
    unfold events_of in Hev. rewrite Hev. now eexists.
  - destruct (download_raises _ _ _ Hr) as [(m & -> & Hm)|Hp].
    + exists m. split; [reflexivity|]. now left.
    + exists (str_of_exn e). split.
      * f_equal. destruct e; try reflexivity. now destruct (proj1 Hp msg).
      * right. now exists e.
Qed.

(** The setup of an entry raises exactly when the entry lacks one of
    its three keys.  It then raises the [KeyError] of the first that
    is missing, in the order [mprn], [email], [password] in which they
    are read, and has made no request and no recorder call. *)
Theorem setup_fails_only_on_missing_key entry_data w :
  let run := async_setup_entry entry_data w in
  (forall e,
     fst (fst run) = Raise e ->
     exists present key later,
       ["mprn"; "email"; "password"] = present ++ key :: later /\
       Forall (fun k => is_Some (entry_data !! k)) present /\
       entry_data !! key = None /\
       e = KeyError key /\
       snd (fst run) = w /\ snd run = []) /\
  (forall key,
     In key ["mprn"; "email"; "password"] ->
     entry_data !! key = None ->
     exists e, fst (fst run) = Raise e).
Proof.
  unfold async_setup_entry, entry_get.
  destruct (entry_data !! "mprn") as [m|] eqn:Hm.
  - destruct (entry_data !! "email") as [em|] eqn:He.
    + destruct (entry_data !! "password") as [pw|] eqn:Hp.
      * destruct (_async_update_data _ w) as [[r w'] calls]. cbn zeta.
        split; [discriminate|].
        intros key [<-|[<-|[<-|[]]]] Hk; congruence.
      * cbn zeta. split; [|now eexists].
        intros e [= <-]. exists ["mprn"; "email"], "password", [].
        split; [reflexivity|]. split; [|now repeat split].
        repeat constructor; [now rewrite Hm|now rewrite He].
    + cbn zeta. split; [|now eexists].
      intros e [= <-]. exists ["mprn"], "email", ["password"].
      split; [reflexivity|]. split; [|now repeat split].
      repeat constructor. now rewrite Hm.
  - cbn zeta. split; [|now eexists].
    intros e [= <-]. exists [], "mprn", ["email"; "password"].
    split; [reflexivity|]. split; [constructor|now repeat split].
Qed.

(** With its three keys the setup returns, whatever the portal and the
    recorder do; its requests name the client made of the three values
    of the entry and no one else, and its recorder calls name the
    statistic of the meter of the entry. *)
Theorem setup_uses_only_the_entry_data entry_data w mprn email password :
  let run := async_setup_entry entry_data w in
  entry_data !! "mprn" = Some mprn ->
  entry_data !! "email" = Some email ->
  entry_data !! "password" = Some password ->
  fst (fst run) = Ok tt /\
  Forall (carries_own_identity (init mprn email password))
         (requests_sent (added w (snd (fst run)))) /\
  Forall (fun c => call_id c = statistic_id_of mprn) (snd run).
Proof.
  intros run Hm He Hp. subst run.
  unfold async_setup_entry, entry_get. rewrite Hm, He, Hp.
  pose proof (update_world (coordinator_init mprn email password) w) as Hw.
  assert (Hcalls : forall c,
            In c (snd (_async_update_data
                         (coordinator_init mprn email password) w)) ->
            call_id c = statistic_id_of mprn).
  { intros c Hin. apply update_calls in Hin as (data & _ & _ & Hin).
    exact (SensorProps.calls_carry_statistic_id _ _ _ Hin). }
  destruct (_async_update_data _ w) as [[r w'] calls]. simpl in *.
  split; [reflexivity|]. split.
  - rewrite Hw.
    exact (EsbApiMore.own_identity_of_call (init mprn email password) w).
  - now apply List.Forall_forall.
Qed.

End WithRuntime.

(** ** The properties on the scripted portals *)


Lemma written_statistics_come_from_the_download_witness :
  let E := demo_externals false in
  let w := @start E 0%nat None in
  let run := @_async_update_data demo_host E demo_runtime demo_coordinator w in
  let md := @metadata_of demo_host "100" in
  let s := {| st_start := demo_00h; st_sum := 10.5%float;
              st_state := 0.5%float |} in
  let stats := [ s; {| st_start := demo_01h; st_sum := 10.75%float;
                       st_state := 0.25%float |} ] in
  @cache_hit E w = false /\
  In (AddExternalStatistics md stats) (snd run) /\
  In s stats /\
  md_statistic_id md = "esb:esb_100_consumption" /\
  exists l csv rows row str d,
    @added E w (snd (fst run)) = @exchange_events E (api demo_coordinator) l /\
    @decode_utf8 E (content (fst (answer_8 l))) = Some csv /\
    @csv_DictReader E (split_lines csv) = Some rows /\
    In row rows /\
    row !! "Read Date and End Time" = Some (Some str) /\
    @strptime demo_host str = Some d /\
    st_start s = @localize demo_host (replace_top_of_hour d).
Proof.
  intros E w run md s stats.
  assert (Hc : @cache_hit E w = false) by reflexivity.
  assert (Hcall : In (AddExternalStatistics md stats) (snd run))
    by (vm_compute; right; left; reflexivity).
  assert (Hs : In s stats) by (left; reflexivity).
  split; [exact Hc|]. split; [exact Hcall|]. split; [exact Hs|].
  exact (@written_statistics_come_from_the_download demo_host E demo_runtime
           "100" "user@example.org" "secret" w md stats s Hc Hcall Hs).
Defined.

Lemma failed_update_writes_nothing_witness :
  let E := scripted false pages_timeout in
  let w := @start E 0%nat None in
  let run := @_async_update_data demo_host E demo_runtime demo_coordinator w in
  let msg := "Error communicating with ESB API: Request timed out - server not responding" in
  fst (fst run) = UpdateFailed msg /\
  snd run = [] /\
  @cache_hit E w = false /\
  (exists evs, @added E w (snd (fst run)) = evs ++ [Closed]) /\
  exists m,
    msg = "Error communicating with ESB API: " +:+ m /\
    (In m [LOGIN_FAILED; INVALID_CSV; TIMED_OUT] \/
     exists e, plain e /\ m = @str_of_exn demo_runtime e).
Proof.
  intros E w run msg.
  assert (Hf : fst (fst run) = UpdateFailed msg) by (vm_compute; reflexivity).
  split; [exact Hf|].
  exact (@failed_update_writes_nothing demo_host E demo_runtime
           demo_coordinator w msg Hf).
Defined.

Lemma setup_fails_only_on_missing_key_witness :
  let E := demo_externals false in
  let w := @start E 0%nat None in
  let entry_data : gmap string string := {[ "mprn" := "100" ]} in
  let run := @async_setup_entry demo_host E demo_runtime entry_data w in
  fst (fst run) = Raise (KeyError "email") /\
  exists present key later,
    ["mprn"; "email"; "password"] = present ++ key :: later /\
    Forall (fun k => is_Some (entry_data !! k)) present /\
    entry_data !! key = None /\
    KeyError "email" = KeyError key /\
    snd (fst run) = w /\ snd run = [].
Proof.
  intros E w entry_data run.
  assert (Hr : fst (fst run) = Raise (KeyError "email"))
    by (vm_compute; reflexivity).
  split; [exact Hr|].
  exact (proj1 (@setup_fails_only_on_missing_key demo_host E demo_runtime
                  entry_data w) (KeyError "email") Hr).
Defined.

Lemma setup_uses_only_the_entry_data_witness :
  let E := scripted false pages_refused in
  let w := @start E 0%nat None in
  let run := @async_setup_entry demo_host E demo_runtime demo_entry_data w in
  demo_entry_data !! "mprn" = Some "100" /\
  demo_entry_data !! "email" = Some "user@example.org" /\
  demo_entry_data !! "password" = Some "secret" /\
  fst (fst run) = Ok tt /\
  Forall (@carries_own_identity E (init "100" "user@example.org" "secret"))
         (requests_sent (@added E w (snd (fst run)))) /\
  Forall (fun c => call_id c = @statistic_id_of demo_host "100") (snd run).
Proof.
  intros E w run.
  assert (Hm : demo_entry_data !! "mprn" = Some "100")
    by (vm_compute; reflexivity).
  assert (He : demo_entry_data !! "email" = Some "user@example.org")
    by (vm_compute; reflexivity).
  assert (Hp : demo_entry_data !! "password" = Some "secret")
    by (vm_compute; reflexivity).
  split; [exact Hm|]. split; [exact He|]. split; [exact Hp|].
  exact (@setup_uses_only_the_entry_data demo_host E demo_runtime
           demo_entry_data w "100" "user@example.org" "secret" Hm He Hp).
Defined.

End CoordinatorProps.
